(** * Test-data generator of the device movement intelligence system

    A shallow embedding of [scripts/generate_test_data.py] and the
    properties of its generators, dataset assembler and replay client.

    Conventions of the embedding.
    - The Python process is a state: the stream of outputs of the [random]
      module, the stream of readings of [datetime.now()], the answers of
      the HTTP peer, and the trace of observable effects (prints, posts,
      sleeps).  Code that draws, reads the clock, prints or raises is
      written in a state-and-exception monad over that state.
    - A [datetime] is the number of microseconds since
      0001-01-01T00:00:00; [isoformat] renders it with the proleptic
      Gregorian calendar as the library does.
    - A Python [float] is an IEEE 754 binary64.  A finite float is
      represented by the rational it denotes, and an operation on floats
      gives the binary64 nearest to the exact result, a tie going to the
      one with an even last bit.  Infinities and NaN are not represented:
      the generators do not reach them, and [time.sleep] refuses an
      infinite duration as it refuses any that is too large. *)

From Stdlib Require Import ZArith QArith Qround Qabs Qpower Lia.
From Stdlib Require Import SpecFloat.
From Stdlib Require Import List Sorted Permutation.
From Stdlib Require Import Ascii String.
From stdpp Require Import base option list gmap strings.

Local Open Scope string_scope.
Local Open Scope list_scope.
Local Open Scope Z_scope.

(** ** Exceptions and the monad *)

Inductive exn : Type :=
| KeyError (what : string)
| IndexError (what : string)
| ValueError (what : string)
| OverflowError (what : string)
| RequestException (what : string).

(** [str(e)] *)
Definition str_exn (e : exn) : string :=
  match e with
  | KeyError s | IndexError s | ValueError s | OverflowError s
  | RequestException s => s
  end.

Module Py.

(** A computation over a state [S]: it ends with a value or with a raised
    exception, and in both cases with the state it reached. *)
Definition M (S A : Type) : Type := S -> (exn + A) * S.

Definition ret {S A} (a : A) : M S A := fun s => (inr a, s).

Definition raise {S A} (e : exn) : M S A := fun s => (inl e, s).

Definition bind {S A B} (m : M S A) (k : A -> M S B) : M S B :=
  fun s =>
    match m s with
    | (inl e, s') => (inl e, s')
    | (inr a, s') => k a s'
    end.

(** [try: body except Exception as e: handler e] *)
Definition try_except {S A} (body : M S A) (handler : exn -> M S A) : M S A :=
  fun s =>
    match body s with
    | (inl e, s') => handler e s'
    | (inr a, s') => (inr a, s')
    end.

Definition get {S} : M S S := fun s => (inr s, s).
Definition modify {S} (f : S -> S) : M S unit := fun s => (inr tt, f s).

(** [for x in xs: body x], the loop variables threaded through [acc]. *)
Fixpoint for_each {S A X} (xs : list X) (body : X -> A -> M S A) (acc : A)
  : M S A :=
  match xs with
  | [] => ret acc
  | x :: xs' => bind (body x acc) (for_each xs' body)
  end.

(** [for x in xs: body x] where the body only changes the state. *)
Fixpoint for_each_ {S X} (xs : list X) (body : X -> M S unit) : M S unit :=
  match xs with
  | [] => ret tt
  | x :: xs' => bind (body x) (fun _ => for_each_ xs' body)
  end.

End Py.

Notation "x <- m ;; k" := (Py.bind m (fun x => k))
  (at level 100, m at next level, right associativity).
Notation "m ;;; k" := (Py.bind m (fun _ => k))
  (at level 100, right associativity).

(** ** Movement records *)

Record location : Type := { location_id : string }.

Record movement : Type := {
  device_id : string;
  owner_id : string;
  timestamp : string;
  loc : location;
  movement_type : string;
  confidence_level : Q
}.

(** ** The process state *)

Inductive http_outcome : Type :=
| PostRaises (e : exn)                       (* requests.post raised *)
| Responded (status_code : Z) (json : exn + string).
                                (* response.json(): the body, or a raise *)

Inductive event : Type :=
| Printed (line : string)
| Posted (url : string) (body : movement)
| Slept (delay : Q).

Record World : Type := {
  rand_tape : nat -> Z;       (* outputs of the random source, in order *)
  rand_pos : nat;
  clock_tape : nat -> Z;      (* readings of datetime.now(), in order *)
  clock_pos : nat;
  peer : nat -> string -> movement -> http_outcome;
                              (* what the n-th request meets *)
  peer_pos : nat;
  trace : list event          (* observable effects, oldest first *)
}.

Definition W := Py.M World.

Definition next_random : W Z := fun w =>
  (inr (rand_tape w (rand_pos w)),
   {| rand_tape := rand_tape w; rand_pos := S (rand_pos w);
      clock_tape := clock_tape w; clock_pos := clock_pos w;
      peer := peer w; peer_pos := peer_pos w; trace := trace w |}).

Definition emit (ev : event) : W unit := fun w =>
  (inr tt,
   {| rand_tape := rand_tape w; rand_pos := rand_pos w;
      clock_tape := clock_tape w; clock_pos := clock_pos w;
      peer := peer w; peer_pos := peer_pos w; trace := trace w ++ [ev] |}).

Definition print (line : string) : W unit := emit (Printed line).

(** ** Floats *)

(** The integer nearest to [q], a tie going to the even one. *)
Definition round_half_even (q : Q) : Z :=
  let f := Qfloor q in
  match Qcompare ((q - inject_Z f) * 2) 1 with
  | Lt => f
  | Gt => f + 1
  | Eq => if Z.even f then f else f + 1
  end.

Module float.

(** The exponent [e] with [2^e <= q < 2^(e+1)], for [q > 0]. *)
Definition ilog2 (q : Q) : Z :=
  let e := Z.log2 (Qnum q) - Z.log2 (Zpos (Qden q)) in
  if Qle_bool (2 ^ e) q then e else e - 1.

(** binary64: 53 significant bits, the least exponent of a normal number
    is -1022. *)
Definition prec : Z := 53.
Definition emin : Z := -1022.

(** The exponent of the last bit a binary64 keeps of [q]. *)
Definition ulp_exp (q : Q) : Z := Z.max (ilog2 (Qabs q)) emin - (prec - 1).

(** The multiple of [2^e] nearest to [q], a tie going to the even
    multiple; the result is in lowest terms. *)
Definition round_at (e : Z) (q : Q) : Q :=
  Qred (inject_Z (round_half_even (q / 2 ^ e)) * 2 ^ e).

(** The binary64 nearest to [q]. *)
Definition b64 (q : Q) : Q := round_at (ulp_exp q) q.

(** The float a decimal literal of the source denotes. *)
Definition lit (q : Q) : Q := b64 q.

(** [x + y], [x - y] and [x * y] on floats. *)
Definition add (x y : Q) : Q := b64 (x + y).
Definition sub (x y : Q) : Q := b64 (x - y).
Definition mul (x y : Q) : Q := b64 (x * y).

End float.

(** [round(x, 2)] on a float: the exact value of [x] is rounded to two
    decimals, a tie going to the even one, and the decimal is read back as
    a float. *)
Definition round2 (x : Q) : Q :=
  float.b64 (Qmake (round_half_even (x * 100)) 100).

(** ** The [random] module *)

Module random.

(** [_randbelow(n)], n > 0 *)
Definition randbelow (n : Z) : W Z :=
  r <- next_random ;; Py.ret (r mod n).

(** [random.randint(a, b)]: a value of [a .. b], both included. *)
Definition randint (a b : Z) : W Z :=
  if b <? a then Py.raise (ValueError "empty range for randrange()")
  else r <- randbelow (b - a + 1) ;; Py.ret (a + r).

(** [random.choice(seq)] *)
Definition choice {A} (seq : list A) : W A :=
  match seq with
  | [] => Py.raise (IndexError "Cannot choose from an empty sequence")
  | _ =>
      j <- randbelow (Z.of_nat (length seq)) ;;
      match seq !! Z.to_nat j with
      | Some x => Py.ret x
      | None => Py.raise (IndexError "list index out of range")
      end
  end.

(** The loop of [random.sample]: [k] times, draw a position among the
    first [n] of the pool, take what is there and move the last of the
    [n] into the vacancy. *)
Fixpoint sample_loop {A} (k : nat) (n : nat) (pool : list A) : W (list A) :=
  match k with
  | O => Py.ret []
  | S k' =>
      j <- randbelow (Z.of_nat n) ;;
      match pool !! Z.to_nat j, pool !! (n - 1)%nat with
      | Some x, Some last =>
          rest <- sample_loop k' (n - 1)%nat (<[Z.to_nat j := last]> pool) ;;
          Py.ret (x :: rest)
      | _, _ => Py.raise (IndexError "list index out of range")
      end
  end.

(** [random.sample(population, k)]: [k] elements at distinct positions. *)
Definition sample {A} (population : list A) (k : Z) : W (list A) :=
  if (k <? 0) || (Z.of_nat (length population) <? k)
  then Py.raise (ValueError "Sample larger than population or is negative")
  else sample_loop (Z.to_nat k) (length population) population.

(** [random.random()]: a multiple of 2^-53 in [0, 1), which a float holds
    exactly. *)
Definition random : W Q :=
  r <- next_random ;; Py.ret (Qmake (r mod 2 ^ 53) (2 ^ 53)).

(** [random.uniform(a, b)] is [a + (b - a) * random()], on floats. *)
Definition uniform (a b : Q) : W Q :=
  u <- random ;; Py.ret (float.add a (float.mul (float.sub b a) u)).

End random.

(** ** Formatting of integers *)

Definition digit (d : Z) : ascii := ascii_of_nat (48 + Z.to_nat d).

(** The last [width] decimal digits of [n]. *)
Fixpoint zfill (width : nat) (n : Z) : string :=
  match width with
  | O => ""
  | S w => zfill w (n / 10) +:+ String (digit (n mod 10)) ""
  end.

Fixpoint ndigits_fuel (fuel : nat) (n : Z) : nat :=
  match fuel with
  | O => 1
  | S f => if n <? 10 then 1%nat else S (ndigits_fuel f (n / 10))
  end.

(** The number of decimal digits of [n >= 0]. *)
Definition ndigits (n : Z) : nat := ndigits_fuel (Z.to_nat (Z.log2_up (n + 1))) n.

(** [f"{n:0{width}d}"] for [n >= 0]: the digits of [n], padded with zeros on
    the left up to [width]; [width = 0] is [f"{n}"]. *)
Definition format_d (width : nat) (n : Z) : string :=
  zfill (Nat.max width (ndigits n)) n.

(** ** [datetime] *)

Module datetime.

(** Microseconds since 0001-01-01T00:00:00. *)
Definition t : Type := Z.

Definition DI400Y : Z := 146097.
Definition DI100Y : Z := 36524.
Definition DI4Y : Z := 1461.

Definition DAYS_IN_MONTH : list Z :=
  [-1; 31; 28; 31; 30; 31; 30; 31; 31; 30; 31; 30; 31].

Definition DAYS_BEFORE_MONTH : list Z :=
  [-1; 0; 31; 59; 90; 120; 151; 181; 212; 243; 273; 304; 334].

Definition tbl (l : list Z) (i : Z) : Z := nth (Z.to_nat i) l 0.

Definition b2z (b : bool) : Z := if b then 1 else 0.

(** [_ord2ymd(n)]: ordinal (1 = 0001-01-01) to (year, month, day). *)
Definition ord2ymd (n : Z) : Z * Z * Z :=
  let n := n - 1 in
  let n400 := n / DI400Y in let n := n mod DI400Y in
  let year := n400 * 400 + 1 in
  let n100 := n / DI100Y in let n := n mod DI100Y in
  let n4 := n / DI4Y in let n := n mod DI4Y in
  let n1 := n / 365 in let n := n mod 365 in
  let year := year + n100 * 100 + n4 * 4 + n1 in
  if (n1 =? 4) || (n100 =? 4) then (year - 1, 12, 31)
  else
    let leapyear := (n1 =? 3) && (negb (n4 =? 24) || (n100 =? 3)) in
    let month := Z.shiftr (n + 50) 5 in
    let preceding := tbl DAYS_BEFORE_MONTH month + b2z ((2 <? month) && leapyear) in
    let '(month, preceding) :=
      if n <? preceding
      then (month - 1,
            preceding - (tbl DAYS_IN_MONTH (month - 1)
                         + b2z ((month - 1 =? 2) && leapyear)))
      else (month, preceding) in
    (year, month, n - preceding + 1).

Definition US_PER_SECOND : Z := 1000000.
Definition US_PER_DAY : Z := 86400 * US_PER_SECOND.

(** [timedelta(hours=h, minutes=m)] *)
Definition timedelta (hours minutes : Z) : Z :=
  (hours * 60 + minutes) * 60 * US_PER_SECOND.

(** [datetime.isoformat()]: YYYY-MM-DDTHH:MM:SS, and .ffffff unless the
    microsecond is 0. *)
Definition isoformat (d : t) : string :=
  let '(year, month, day) := ord2ymd (d / US_PER_DAY + 1) in
  let r := d mod US_PER_DAY in
  let us := r mod US_PER_SECOND in
  let s := r / US_PER_SECOND in
  format_d 4 year +:+ "-" +:+ format_d 2 month +:+ "-" +:+ format_d 2 day
  +:+ "T" +:+ format_d 2 (s / 3600) +:+ ":" +:+ format_d 2 (s / 60 mod 60)
  +:+ ":" +:+ format_d 2 (s mod 60)
  +:+ (if us =? 0 then "" else "." +:+ format_d 6 us).

(** [datetime.now()] *)
Definition now : W t := fun w =>
  (inr (clock_tape w (clock_pos w)),
   {| rand_tape := rand_tape w; rand_pos := rand_pos w;
      clock_tape := clock_tape w; clock_pos := S (clock_pos w);
      peer := peer w; peer_pos := peer_pos w; trace := trace w |}).

End datetime.

(** ** Lists the Python way *)

(** [range(n)] *)
Definition range (n : nat) : list Z := map Z.of_nat (seq 0 n).

(** [range(start, stop, step)] for [step > 0], the stop decided on [fuel]. *)
Fixpoint range_step (fuel : nat) (start stop step : Z) : list Z :=
  match fuel with
  | O => []
  | S f => if start <? stop then start :: range_step f (start + step) stop step
           else []
  end.

(** [l[i:j]] for [0 <= i <= j] *)
Definition slice {A} (l : list A) (i j : Z) : list A :=
  take (Z.to_nat (j - i)) (drop (Z.to_nat i) l).

(** [l[i]] for [i >= 0] *)
Definition getitem {S A} (l : list A) (i : Z) : Py.M S A :=
  match l !! Z.to_nat i with
  | Some x => Py.ret x
  | None => Py.raise (IndexError "list index out of range")
  end.

(** [d[k]] *)
Definition getkey {S} `{Countable K} {V} (d : gmap K V) (k : K) : Py.M S V :=
  match d !! k with
  | Some v => Py.ret v
  | None => Py.raise (KeyError "key")
  end.

(** [enumerate(l, start)] *)
Fixpoint enumerate {A} (l : list A) (start : Z) : list (Z * A) :=
  match l with
  | [] => []
  | x :: l' => (start, x) :: enumerate l' (start + 1)
  end.

(** [list.sort(key=...)] orders with [<] on the keys and is stable: an
    element goes in front of the first one whose key is not smaller. *)
Section Sort.
Context {A : Type} (key : A -> string).

Fixpoint insert_sorted (x : A) (l : list A) : list A :=
  match l with
  | [] => [x]
  | y :: l' => if String.ltb (key y) (key x) then y :: insert_sorted x l'
               else x :: y :: l'
  end.

Fixpoint list_sort (l : list A) : list A :=
  match l with
  | [] => []
  | x :: l' => insert_sorted x (list_sort l')
  end.
End Sort.

(** ** [class TestDataGenerator] *)

Record TestDataGenerator : Type := {
  base_url : string;
  device_ids : list string;
  owner_ids : list string;
  location_ids : list string;
  terrorist_cells : list (list string);
  cell_locations : gmap (list string) (list string)
}.

(** [__init__] *)
Definition init (base_url : string) : W TestDataGenerator :=
  let device_ids := map (fun i => "D" +:+ format_d 5 i) (range 50) in
  let owner_ids := map (fun i => "O" +:+ format_d 5 i) (range 30) in
  let location_ids := map (fun i => "L" +:+ format_d 5 i) (range 20) in
  let terrorist_cells :=
    map (fun i => slice owner_ids i (i + 5)) (range_step 15 0 15 5) in
  cell_locations <-
    Py.for_each terrorist_cells
      (fun cell d => s <- random.sample location_ids 5 ;;
                     Py.ret (<[cell := s]> d))
      (∅ : gmap (list string) (list string)) ;;
  Py.ret {| base_url := base_url; device_ids := device_ids;
            owner_ids := owner_ids; location_ids := location_ids;
            terrorist_cells := terrorist_cells;
            cell_locations := cell_locations |}.

Section Generators.
Variable self : TestDataGenerator.

Definition generate_normal_movement : W movement :=
  device_id <- random.choice (device_ids self) ;;
  owner_id <- random.choice (owner_ids self) ;;
  location_id <- random.choice (location_ids self) ;;
  now <- datetime.now ;;
  h <- random.randint 0 48 ;;
  mt <- random.choice ["walking"; "vehicle"] ;;
  c <- random.uniform (float.lit (7 # 10)) 1 ;;
  Py.ret {| device_id := device_id;
            owner_id := owner_id;
            timestamp := datetime.isoformat (now - datetime.timedelta h 0);
            loc := {| location_id := location_id |};
            movement_type := mt;
            confidence_level := round2 c |}.

(** One record of the cell pattern: [lo] and [hi] bound the minutes added
    to the base time. *)
Definition cell_record (device member : string) (base_time : datetime.t)
    (lo hi : Z) (loc_id : string) : W movement :=
  m <- random.randint lo hi ;;
  mt <- random.choice ["walking"; "vehicle"] ;;
  c <- random.uniform (float.lit (8 # 10)) 1 ;;
  Py.ret {| device_id := device;
            owner_id := member;
            timestamp := datetime.isoformat (base_time + datetime.timedelta 0 m);
            loc := {| location_id := loc_id |};
            movement_type := mt;
            confidence_level := round2 c |}.

(** The dict comprehension assigning devices to members. *)
Definition assign_devices (cell_members : list string)
  : W (gmap string (list string)) :=
  Py.for_each cell_members
    (fun member d =>
       k <- random.randint 1 3 ;;
       s <- random.sample (device_ids self) k ;;
       Py.ret (<[member := s]> d))
    (∅ : gmap string (list string)).

(** The two records one device of one member emits at one location step. *)
Definition cell_device_step (base_time : datetime.t)
    (current_loc next_loc member device : string) (movements : list movement)
  : W (list movement) :=
  r1 <- cell_record device member base_time 0 30 current_loc ;;
  let movements := movements ++ [r1] in
  r2 <- cell_record device member base_time 45 90 next_loc ;;
  Py.ret (movements ++ [r2]).

(** The body of the loop over the locations; the loop variables are the
    list [movements] and [base_time]. *)
Definition cell_location_step (cell_members locations : list string)
    (member_devices : gmap string (list string)) (i : Z)
    (st : list movement * datetime.t) : W (list movement * datetime.t) :=
  let '(movements, base_time) := st in
  current_loc <- getitem locations i ;;
  next_loc <- getitem locations ((i + 1) mod Z.of_nat (length locations)) ;;
  movements <-
    Py.for_each cell_members
      (fun member movements =>
         devices <- getkey member_devices member ;;
         Py.for_each devices
           (cell_device_step base_time current_loc next_loc member)
           movements)
      movements ;;
  Py.ret (movements, base_time + datetime.timedelta 2 0).

Definition generate_cell_movement_pattern (cell_members : list string)
  : W (list movement) :=
  locations <- getkey (cell_locations self) cell_members ;;
  now <- datetime.now ;;
  h <- random.randint 0 48 ;;
  let base_time := now - datetime.timedelta h 0 in
  member_devices <- assign_devices cell_members ;;
  st <- Py.for_each (range (length locations))
          (cell_location_step cell_members locations member_devices)
          ([], base_time) ;;
  Py.ret (fst st).

(** The body of the transfer loop. *)
Definition transfer_step (cell locations : list string) (device_id : string)
    (i : Z) (st : list movement * datetime.t)
  : W (list movement * datetime.t) :=
  let '(movements, base_time) := st in
  current_owner <- getitem cell i ;;
  next_owner <- getitem cell ((i + 1) mod Z.of_nat (length cell)) ;;
  transfer_location <- random.choice locations ;;
  let movements := movements ++ [
    {| device_id := device_id;
       owner_id := current_owner;
       timestamp := datetime.isoformat base_time;
       loc := {| location_id := transfer_location |};
       movement_type := "walking";
       confidence_level := float.lit (9 # 10) |} ] in
  m <- random.randint 15 30 ;;
  let movements := movements ++ [
    {| device_id := device_id;
       owner_id := next_owner;
       timestamp := datetime.isoformat (base_time + datetime.timedelta 0 m);
       loc := {| location_id := transfer_location |};
       movement_type := "walking";
       confidence_level := float.lit (9 # 10) |} ] in
  Py.ret (movements, base_time + datetime.timedelta 3 0).

Definition generate_device_transfer_pattern : W (list movement) :=
  cell <- random.choice (terrorist_cells self) ;;
  locations <- getkey (cell_locations self) cell ;;
  device_id <- random.choice (device_ids self) ;;
  now <- datetime.now ;;
  h <- random.randint 0 48 ;;
  let base_time := now - datetime.timedelta h 0 in
  st <- Py.for_each (range (length cell))
          (transfer_step cell locations device_id) ([], base_time) ;;
  Py.ret (fst st).

Definition generate_dataset : W (list movement) :=
  print "Generating normal movements..." ;;;
  all_movements <-
    Py.for_each (range 1000)
      (fun _ all_movements =>
         m <- generate_normal_movement ;; Py.ret (all_movements ++ [m]))
      [] ;;
  print "Generating cell movement patterns..." ;;;
  all_movements <-
    Py.for_each (terrorist_cells self)
      (fun cell all_movements =>
         ms <- generate_cell_movement_pattern cell ;;
         Py.ret (all_movements ++ ms))
      all_movements ;;
  print "Generating device transfer patterns..." ;;;
  all_movements <-
    Py.for_each (range 10)
      (fun _ all_movements =>
         ms <- generate_device_transfer_pattern ;;
         Py.ret (all_movements ++ ms))
      all_movements ;;
  Py.ret (list_sort timestamp all_movements).

End Generators.

(** ** The replay client *)

(** A result entry is a dict with the keys ['movement'] and ['status'], and
    ['response'] or ['error']; an absent key is [None]. *)
Record result_entry : Type := {
  r_movement : movement;
  r_status : Z + string;
  r_response : option string;
  r_error : option string
}.

Record response : Type := {
  status_code : Z;
  json_result : exn + string
}.

Module requests.

(** [requests.post(url, json=body)] *)
Definition post (url : string) (body : movement) : W response := fun w =>
  let w' := {| rand_tape := rand_tape w; rand_pos := rand_pos w;
               clock_tape := clock_tape w; clock_pos := clock_pos w;
               peer := peer w; peer_pos := S (peer_pos w);
               trace := trace w ++ [Posted url body] |} in
  match peer w (peer_pos w) url body with
  | PostRaises e => (inl e, w')
  | Responded code js =>
      (inr {| status_code := code; json_result := js |}, w')
  end.

(** [response.json()] *)
Definition json {S} (r : response) : Py.M S string :=
  match json_result r with
  | inl e => Py.raise e
  | inr body => Py.ret body
  end.

End requests.

(** The duration [time.sleep] makes of the float [secs]: the float product
    [secs * 1e9], rounded to a whole number of nanoseconds away from
    zero.  (Where the product is an infinity for Python it is a number
    beyond 2^1023 here: out of the range below in both.) *)
Definition sleep_ns (secs : Q) : Z :=
  let d := float.mul secs 1000000000 in
  if Qle_bool 0 d then Qceiling d else Qfloor d.

(** [time.sleep(secs)]: the nanoseconds have to fit a signed 64-bit count,
    and must not be negative. *)
Definition time_sleep (secs : Q) : W unit :=
  let ns := sleep_ns secs in
  if (ns <? - 2 ^ 63) || (2 ^ 63 <=? ns)
  then Py.raise (OverflowError "timestamp too large to convert to C _PyTime_t")
  else if ns <? 0
  then Py.raise (ValueError "sleep length must be non-negative")
  else emit (Slept secs).

(** The frame of [send_movements]: its local list [results], and the
    process state. *)
Definition Frame : Type := list result_entry * World.

Definition in_world {A} (m : W A) : Py.M Frame A := fun fr =>
  let '(r, w') := m (snd fr) in (r, (fst fr, w')).

Definition results_append (e : result_entry) : Py.M Frame unit :=
  Py.modify (fun fr => (fst fr ++ [e], snd fr)).

Section Replay.
Variable self : TestDataGenerator.

(** The body of the loop of [send_movements]. *)
Definition send_one (total : Z) (delay : Q) (im : Z * movement)
  : Py.M Frame unit :=
  let '(i, movement) := im in
  Py.try_except
    (response <- in_world (requests.post
                             (base_url self +:+ "/api/v1/movements")
                             movement) ;;
     body <- requests.json response ;;
     results_append {| r_movement := movement;
                       r_status := inl (status_code response);
                       r_response := Some body;
                       r_error := None |} ;;;
     (if i mod 100 =? 0
      then in_world (print ("Processed " +:+ format_d 0 i +:+ "/"
                            +:+ format_d 0 total +:+ " movements"))
      else Py.ret tt) ;;;
     in_world (time_sleep delay))
    (fun e =>
       in_world (print ("Error sending movement: " +:+ str_exn e)) ;;;
       results_append {| r_movement := movement;
                         r_status := inr "error";
                         r_response := None;
                         r_error := Some (str_exn e) |}).

(** The default of the parameter [delay]. *)
Definition default_delay : Q := float.lit (1 # 10).

Definition send_movements (movements : list movement) (delay : Q)
  : W (list result_entry) := fun w =>
  let total := Z.of_nat (length movements) in
  let run :=
    in_world (print ("Sending " +:+ format_d 0 total
                     +:+ " movements to API...")) ;;;
    Py.for_each_ (enumerate movements 1) (send_one total delay) in
  match run ([], w) with
  | (inl e, (_, w')) => (inl e, w')
  | (inr _, (results, w')) => (inr results, w')
  end.

End Replay.

(** ** The driver *)

(** What a file written by the script holds: the value given to
    [json.dump]. *)
Inductive file_content : Type :=
| MovementsFile (movements : list movement)
| ResultsFile (results : list result_entry).

(** The process together with its standard input and the file system. *)
Record Machine : Type := {
  process : World;
  stdin : nat -> exn + string;     (* what the n-th [input()] gives *)
  stdin_pos : nat;
  prompted : list string;          (* the prompts of [input], in order *)
  disk : string -> option exn;     (* what opening a file for writing raises *)
  files : gmap string file_content
}.

Definition Main := Py.M Machine.

Definition in_process {A} (m : W A) : Main A := fun mc =>
  let '(r, w') := m (process mc) in
  (r, {| process := w'; stdin := stdin mc; stdin_pos := stdin_pos mc;
         prompted := prompted mc; disk := disk mc; files := files mc |}).

(** [input(prompt)] *)
Definition input (prompt : string) : Main string := fun mc =>
  let mc' := {| process := process mc; stdin := stdin mc;
                stdin_pos := S (stdin_pos mc);
                prompted := prompted mc ++ [prompt];
                disk := disk mc; files := files mc |} in
  match stdin mc (stdin_pos mc) with
  | inl e => (inl e, mc')
  | inr line => (inr line, mc')
  end.

(** [with open(name, 'w') as f: json.dump(content, f, indent=2)] *)
Definition dump (name : string) (content : file_content) : Main unit := fun mc =>
  match disk mc name with
  | Some e => (inl e, mc)
  | None =>
      (inr tt,
       {| process := process mc; stdin := stdin mc; stdin_pos := stdin_pos mc;
          prompted := prompted mc; disk := disk mc;
          files := <[name := content]> (files mc) |})
  end.

(** [str.lower()] on the letters A to Z. *)
Definition lower_ascii (c : ascii) : ascii :=
  let n := nat_of_ascii c in
  if ((65 <=? n) && (n <=? 90))%nat then ascii_of_nat (n + 32) else c.

Fixpoint str_lower (s : string) : string :=
  match s with
  | EmptyString => EmptyString
  | String c s' => String (lower_ascii c) (str_lower s')
  end.

Definition nl : string := String (ascii_of_nat 10) "".

(** The body of the [try] of [main]. *)
Definition main_try (generator : TestDataGenerator) : Main unit :=
  movements <- in_process (generate_dataset generator) ;;
  dump "test_movements.json" (MovementsFile movements) ;;;
  in_process (print (nl +:+ "Saved "
                     +:+ format_d 0 (Z.of_nat (length movements))
                     +:+ " movements to test_movements.json")) ;;;
  answer <- input (nl +:+ "Send to API? (y/n): ") ;;
  if String.eqb (str_lower answer) "y"
  then
    results <- in_process
                 (send_movements generator movements default_delay) ;;
    dump "test_results.json" (ResultsFile results) ;;;
    in_process (print (nl +:+ "Saved results to test_results.json"))
  else Py.ret tt.

(** [main()] *)
Definition main : Main unit :=
  generator <- in_process (init "http://localhost:5001") ;;
  in_process (print "=== Intelligence System Test Data Generator ===") ;;;
  in_process (print (nl +:+ "This script will generate:")) ;;;
  in_process (print "1. Normal movement patterns") ;;;
  in_process (print "2. Terrorist cell movement patterns") ;;;
  in_process (print "3. Device transfer patterns") ;;;
  Py.try_except (main_try generator)
    (fun e => in_process (print (nl +:+ "Error: " +:+ str_exn e))).

(** ** Running the code on given streams *)

Definition a_world (rand clock : nat -> Z)
    (peer : nat -> string -> movement -> http_outcome) : World :=
  {| rand_tape := rand; rand_pos := 0; clock_tape := clock; clock_pos := 0;
     peer := peer; peer_pos := 0; trace := [] |}.


(** ** Notions the statements use *)

(** [m], run from [w], returns a value satisfying [Q] and leaves the clock
    stream as it was. *)
Definition returns {A} (m : W A) (w : World) (Q : A -> World -> Prop) : Prop :=
  exists a w', m w = (inr a, w') /\ clock_tape w' = clock_tape w /\ Q a w'.

(** [a] is what some run of [m] returns. *)
Definition produces {A} (m : W A) (a : A) : Prop :=
  exists w w', m w = (inr a, w').

(** [s1 <= s2] for Python strings: [s2 < s1] is false. *)
Definition str_le (s1 s2 : string) : Prop := String.ltb s2 s1 = false.

(** The generators built by [__init__]. *)
Definition constructed (g : TestDataGenerator) : Prop :=
  exists url w w', init url w = (inr g, w').

(** The three cells of [__init__]. *)
Definition the_cells : list (list string) :=
  [["O00000"; "O00001"; "O00002"; "O00003"; "O00004"];
   ["O00005"; "O00006"; "O00007"; "O00008"; "O00009"];
   ["O00010"; "O00011"; "O00012"; "O00013"; "O00014"]].

(** ** What the records and results are like, and data to run the code on *)

Record well_built (g : TestDataGenerator) : Prop := {
  wb_devices : device_ids g = map (fun i => "D" +:+ format_d 5 i) (range 50);
  wb_owners : owner_ids g = map (fun i => "O" +:+ format_d 5 i) (range 30);
  wb_locations :
    location_ids g = map (fun i => "L" +:+ format_d 5 i) (range 20);
  wb_cells : terrorist_cells g = the_cells;
  wb_cell_locations : forall cell, cell ∈ the_cells ->
    exists locs, cell_locations g !! cell = Some locs /\ length locs = 5%nat
                 /\ locs ⊆+ location_ids g;
  wb_no_other_key : forall cell, cell ∉ the_cells ->
    cell_locations g !! cell = None
}.

Definition movement_types : list string := ["walking"; "vehicle"].

(** [c] is the float of a decimal with two digits after the point, from
    [lo / 100] to [hi / 100]. *)
Definition two_decimals (lo hi : Z) (c : Q) : Prop :=
  exists k, lo <= k <= hi /\ c = float.lit (k # 100).

(** A record of [generate_normal_movement]. *)
Record normal_record (g : TestDataGenerator) (clock : nat -> Z) (m : movement)
  : Prop := {
  nr_device : device_id m ∈ device_ids g;
  nr_owner : owner_id m ∈ owner_ids g;
  nr_location : location_id (loc m) ∈ location_ids g;
  nr_type : movement_type m ∈ movement_types;
  nr_confidence : two_decimals 70 100 (confidence_level m);
  nr_time : exists n h, 0 <= h <= 48 /\
    timestamp m = datetime.isoformat (clock n - datetime.timedelta h 0)
}.

(** A record of the cell pattern of [cell] started at [base]. *)
Record cell_pattern_record (g : TestDataGenerator) (cell locations : list string)
    (base : datetime.t) (m : movement) : Prop := {
  cr_device : device_id m ∈ device_ids g;
  cr_owner : owner_id m ∈ cell;
  cr_location : location_id (loc m) ∈ locations;
  cr_type : movement_type m ∈ movement_types;
  cr_confidence : two_decimals 80 100 (confidence_level m);
  cr_time : exists (i : nat) mm, (i < length locations)%nat /\ 0 <= mm <= 90 /\
    timestamp m = datetime.isoformat
      (base + Z.of_nat i * datetime.timedelta 2 0 + datetime.timedelta 0 mm)
}.

(** The devices a dict of assignments gives a member. *)
Definition devices_of (member_devices : gmap string (list string))
    (member : string) : list string :=
  default [] (member_devices !! member).

(** The number of (member, device) pairs of an assignment over a cell. *)
Definition assigned_count (member_devices : gmap string (list string))
    (cell : list string) : nat :=
  sum_list_with (fun member => length (devices_of member_devices member)) cell.

(** A record of a transfer pattern of [device] within [cell], started at
    [base]. *)
Record transfer_record (cell locations : list string) (device : string)
    (base : datetime.t) (m : movement) : Prop := {
  tr_device : device_id m = device;
  tr_owner : owner_id m ∈ cell;
  tr_location : location_id (loc m) ∈ locations;
  tr_type : movement_type m = "walking";
  tr_confidence : confidence_level m = float.lit (9 # 10);
  tr_time : exists (i : nat) mm, (i < length cell)%nat /\ 0 <= mm <= 30 /\
    timestamp m = datetime.isoformat
      (base + Z.of_nat i * datetime.timedelta 3 0 + datetime.timedelta 0 mm)
}.

(** The [i]-th hand-over of a transfer pattern: the records at [2 i] and
    [2 i + 1] go from member [i] to member [(i + 1) mod len(cell)] at one
    location. *)
Definition hand_over (cell : list string) (movs : list movement) (i : nat)
  : Prop :=
  exists r1 r2,
    movs !! (2 * i)%nat = Some r1 /\ movs !! (2 * i + 1)%nat = Some r2
    /\ cell !! i = Some (owner_id r1)
    /\ cell !! ((i + 1) mod length cell)%nat = Some (owner_id r2)
    /\ location_id (loc r2) = location_id (loc r1).

(** The assignment of devices a call of [generate_cell_movement_pattern]
    makes: that of its dict comprehension, which runs after the reading of
    the clock and the draw of the base time. *)
Definition cell_assignment (g : TestDataGenerator) (cell : list string)
  : W (gmap string (list string)) :=
  datetime.now ;;; random.randint 0 48 ;;; assign_devices g cell.

(** What a dataset is assembled from, before the sort: the records of the
    three phases, in the order of the calls. *)
Record assembled (g : TestDataGenerator) (clock : nat -> Z)
    (normals : list movement) (patterns transfers : list (list movement))
  : Prop := {
  as_normals_count : length normals = 1000%nat;
  as_normals : Forall (fun m => produces (generate_normal_movement g) m
                                /\ normal_record g clock m) normals;
  as_patterns : Forall2 (fun cell ms =>
                   produces (generate_cell_movement_pattern g cell) ms
                   /\ exists locations n h, 0 <= h <= 48 /\
                        Forall (cell_pattern_record g cell locations
                                  (clock n - datetime.timedelta h 0)) ms
                        /\ length locations = 5%nat)
                  (terrorist_cells g) patterns;
  as_transfers_count : length transfers = 10%nat;
  as_transfers : Forall (fun ms =>
                   produces (generate_device_transfer_pattern g) ms
                   /\ exists cell locations device n h, 0 <= h <= 48 /\
                        length cell = 5%nat /\
                        Forall (transfer_record cell locations device
                                  (clock n - datetime.timedelta h 0)) ms)
                  transfers
}.

(** A date as one number: dates compare as their codes. *)
Definition datecode (ymd : Z * Z * Z) : Z :=
  let '(y, m, d) := ymd in (y * 100 + m) * 100 + d.

(** Day [n] is a date of the years 1..400 and comes before day [n + 1]. *)
Definition date_step_ok (n : Z) : bool :=
  let '(y, m, d) := datetime.ord2ymd n in
  (1 <=? y) && (y <=? 400) && (1 <=? m) && (m <=? 12) && (1 <=? d) && (d <=? 31)
  && (datecode (y, m, d) <? datecode (datetime.ord2ymd (n + 1))).

Fixpoint all_from (fuel : nat) (n : Z) (ok : Z -> bool) : bool :=
  match fuel with
  | O => true
  | S f => ok n && all_from f (n + 1) ok
  end.

Definition add_years (q : Z) (ymd : Z * Z * Z) : Z * Z * Z :=
  let '(y, m, d) := ymd in (y + 400 * q, m, d).

(** Ordinal of 9999-12-31, the last day a [datetime] can hold. *)
Definition MAXORDINAL : Z := 3652059.

(** The times a [datetime] can hold: 0001-01-01T00:00:00 up to
    9999-12-31T23:59:59.999999. *)
Definition representable (d : datetime.t) : Prop :=
  0 <= d < MAXORDINAL * datetime.US_PER_DAY.

Definition iso_fixed (y m d hh mi ss us : Z) : string :=
  zfill 4 y +:+ "-" +:+ zfill 2 m +:+ "-" +:+ zfill 2 d +:+ "T"
  +:+ zfill 2 hh +:+ ":" +:+ zfill 2 mi +:+ ":" +:+ zfill 2 ss
  +:+ (if us =? 0 then "" else "." +:+ zfill 6 us).

Definition refusing_peer : nat -> string -> movement -> http_outcome :=
  fun _ _ _ => PostRaises (RequestException "Connection refused").

(** The clock stands at 1997-05-23T16:00:00; the random source yields the
    multiples of 7. *)
Definition world0 : World :=
  a_world (fun n => Z.of_nat n * 7) (fun _ => 63000000000000000) refusing_peer.

Definition no_generator : TestDataGenerator :=
  {| base_url := ""; device_ids := []; owner_ids := []; location_ids := [];
     terrorist_cells := []; cell_locations := ∅ |}.

Definition generator0 : TestDataGenerator :=
  match fst (init "http://localhost:5001" world0) with
  | inr g => g
  | inl _ => no_generator
  end.

Definition cell0 : list string :=
  ["O00000"; "O00001"; "O00002"; "O00003"; "O00004"].

(** The clock reads times from which every timestamp of a dataset is a
    time a [datetime] can hold. *)
Definition clock_in_range (clock : nat -> Z) : Prop :=
  forall n, datetime.timedelta 48 0 <= clock n
            < MAXORDINAL * datetime.US_PER_DAY - datetime.timedelta 14 0.

(** The timestamp of [m] renders a representable time. *)
Definition timed (m : movement) : Prop :=
  exists t, timestamp m = datetime.isoformat t /\ representable t.

(** [random.seed(a)]: from then on the random source yields the stream that
    the generator [prng] of the library derives from the seed. *)
Definition seed (prng : Z -> nat -> Z) (a : Z) : W unit := fun w =>
  (inr tt,
   {| rand_tape := prng a; rand_pos := 0;
      clock_tape := clock_tape w; clock_pos := clock_pos w;
      peer := peer w; peer_pos := peer_pos w; trace := trace w |}).

Definition same_random (w1 w2 : World) : Prop :=
  rand_tape w1 = rand_tape w2 /\ rand_pos w1 = rand_pos w2.

(** A computation whose outcome depends on the random source only. *)
Definition random_only {A} (m : W A) : Prop :=
  forall w1 w2, same_random w1 w2 ->
    fst (m w1) = fst (m w2) /\ same_random (snd (m w1)) (snd (m w2)).

(** A random source that always yields 0. *)
Definition world_zero : World :=
  a_world (fun _ => 0) (fun _ => 63000000000000000) refusing_peer.

Definition shared_pattern : list movement :=
  match fst (generate_cell_movement_pattern generator0 cell0 world_zero) with
  | inr ms => ms
  | inl _ => []
  end.

(** Random sources on which the sum of [uniform] falls next to a rounding
    boundary of [round(x, 2)]: with the draw 150119987579017 / 2^53 the
    floats give 0.7 + 0.30000000000000004 * u just below 0.705, and with
    225179981368523 / 2^53 they give 0.8 + 0.19999999999999996 * u just
    above 0.805. *)
Definition world_low : World :=
  a_world (fun _ => 150119987579017) (fun _ => 63000000000000000)
    refusing_peer.

Definition world_high : World :=
  a_world (fun _ => 225179981368523) (fun _ => 63000000000000000)
    refusing_peer.

(** The same sum in the standard library's specification of IEEE 754
    arithmetic, at 53 bits of precision and exponents below 1024: [a10 / 10]
    and [k / 2^53] are float divisions of integers, correctly rounded as a
    literal is. *)
Definition SFint (n : Z) : spec_float := binary_normalize 53 1024 n 0 false.

Definition ieee_uniform (a10 k : Z) : spec_float :=
  let a := SFdiv 53 1024 (SFint a10) (SFint 10) in
  let u := SFdiv 53 1024 (SFint k) (SFint (2 ^ 53)) in
  SFadd 53 1024 a (SFmul 53 1024 (SFsub 53 1024 (SFint 1) a) u).

(** The rational a finite [spec_float] denotes. *)
Definition SF2Q (f : spec_float) : Q :=
  match f with
  | S754_finite s m e =>
      Qred ((if s then -1 else 1) * inject_Z (Zpos m) * 2 ^ e)
  | _ => 0
  end.

(** The records the generators make from these sources. *)
Definition normal_low : movement :=
  match fst (generate_normal_movement generator0 world_low) with
  | inr m => m
  | inl _ => {| device_id := ""; owner_id := ""; timestamp := "";
                loc := {| location_id := "" |}; movement_type := "";
                confidence_level := 0 |}
  end.

Definition pattern_high : list movement :=
  match fst (generate_cell_movement_pattern generator0 cell0 world_high) with
  | inr ms => ms
  | inl _ => []
  end.

Definition transfer_high : list movement :=
  match fst (generate_device_transfer_pattern generator0 world_high) with
  | inr ms => ms
  | inl _ => []
  end.

(** A result entry carries a numeric status and a response, or the status
    ["error"] and an error message. *)
Definition entry_ok (e : result_entry) : Prop :=
  (exists code body, r_status e = inl code /\ r_response e = Some body
                     /\ r_error e = None)
  \/ (r_status e = inr "error" /\ r_response e = None
      /\ exists msg, r_error e = Some msg).

(** A movement to replay. *)
Definition movement0 : movement :=
  {| device_id := "D00012"; owner_id := "O00000";
     timestamp := "1997-05-22T19:00:00";
     loc := {| location_id := "L00007" |};
     movement_type := "walking"; confidence_level := float.lit (9 # 10) |}.

(** A peer that accepts every request. *)
Definition accepting_peer : nat -> string -> movement -> http_outcome :=
  fun _ _ _ => Responded 201 (inr "{}").

Definition world_accepting : World :=
  a_world (fun _ => 0) (fun _ => 63000000000000000) accepting_peer.

(** A peer that refuses the 100th request and accepts the others. *)
Definition peer_refusing_100th : nat -> string -> movement -> http_outcome :=
  fun n _ _ =>
    if (n =? 99)%nat then PostRaises (RequestException "Connection refused")
    else Responded 201 (inr "{}").

Definition world_refusing_100th : World :=
  a_world (fun _ => 0) (fun _ => 63000000000000000) peer_refusing_100th.

Definition is_sleep (ev : event) : bool :=
  match ev with Slept _ => true | _ => false end.

Definition is_print_of (line : string) (ev : event) : bool :=
  match ev with Printed l => String.eqb l line | _ => false end.

(** The trace of replaying 101 records to that peer. *)
Definition trace_refused_100th : list event :=
  trace (snd (send_movements generator0 (replicate 101 movement0)
                default_delay world_refusing_100th)).

(** The requests of a trace, in order. *)
Definition posted (tr : list event) : list (string * movement) :=
  flat_map (fun ev => match ev with Posted u m => [(u, m)] | _ => [] end) tr.

(** The sleeps of a trace, in order. *)
Definition slept (tr : list event) : list Q :=
  flat_map (fun ev => match ev with Slept d => [d] | _ => [] end) tr.

(** The delays [time.sleep] accepts. *)
Definition sleepable (delay : Q) : Prop := 0 <= sleep_ns delay < 2 ^ 63.

(** The entry recorded for a movement whose request met [o], the sleep
    after it succeeding. *)
Definition entry_for (m : movement) (o : http_outcome) : result_entry :=
  match o with
  | Responded code (inr body) =>
      {| r_movement := m; r_status := inl code; r_response := Some body;
         r_error := None |}
  | PostRaises e | Responded _ (inl e) =>
      {| r_movement := m; r_status := inr "error"; r_response := None;
         r_error := Some (str_exn e) |}
  end.

Definition accepted (o : http_outcome) : bool :=
  match o with Responded _ (inr _) => true | _ => false end.

(** The entries for the movements [ms], the first of them being the
    request number [n] of the peer. *)
Fixpoint replay_entries (answers : nat -> string -> movement -> http_outcome)
    (url : string) (n : nat) (ms : list movement) : list result_entry :=
  match ms with
  | [] => []
  | m :: ms' =>
      entry_for m (answers n url m) :: replay_entries answers url (S n) ms'
  end.

(** The sleeps while replaying [ms]: one after each accepted request. *)
Fixpoint replay_sleeps (answers : nat -> string -> movement -> http_outcome)
    (url : string) (delay : Q) (n : nat) (ms : list movement) : list Q :=
  match ms with
  | [] => []
  | m :: ms' =>
      (if accepted (answers n url m) then [delay] else [])
      ++ replay_sleeps answers url delay (S n) ms'
  end.

Definition endpoint (self : TestDataGenerator) : string :=
  base_url self +:+ "/api/v1/movements".

(** The times of the records of a transfer pattern started at [base]: a
    hand-over starts at the base time and ends the drawn minutes later;
    the next one starts 3 hours after the start of this one. *)
Fixpoint transfer_times (base : datetime.t) (minutes : list Z) : list datetime.t :=
  match minutes with
  | [] => []
  | m :: rest =>
      base :: base + datetime.timedelta 0 m
      :: transfer_times (base + datetime.timedelta 3 0) rest
  end.

(** A computation that leaves the peer alone. *)
Definition offline {A} (m : W A) : Prop :=
  forall w, posted (trace (snd (m w))) = posted (trace w)
            /\ peer (snd (m w)) = peer w
            /\ peer_pos (snd (m w)) = peer_pos w.

Definition with_process (mc : Machine) (w : World) : Machine :=
  {| process := w; stdin := stdin mc; stdin_pos := stdin_pos mc;
     prompted := prompted mc; disk := disk mc; files := files mc |}.

(** The process state in which [main] enters its [try]. *)
Definition banner (w : World) : World :=
  snd (print "3. Device transfer patterns"
    (snd (print "2. Terrorist cell movement patterns"
      (snd (print "1. Normal movement patterns"
        (snd (print (nl +:+ "This script will generate:")
          (snd (print "=== Intelligence System Test Data Generator ==="
                  w))))))))).

Definition send_prompt : string := nl +:+ "Send to API? (y/n): ".

(** The order of the keys of the elements of a list. *)
Definition key_le {A} (key : A -> string) (x y : A) : Prop :=
  str_le (key x) (key y).

(** ** Reasoning about runs *)

Lemma returns_ret {A} (a : A) w (Q : A -> World -> Prop) :
  Q a w -> returns (Py.ret a) w Q.
Proof. intros HQ. exists a, w. auto. Qed.

Lemma returns_bind {A B} (m : W A) (k : A -> W B) w (Q : B -> World -> Prop) :
  returns m w (fun a w' => returns (k a) w' Q) ->
  returns (Py.bind m k) w Q.
Proof.
  intros (a & w1 & Hm & Hc1 & b & w2 & Hk & Hc2 & HQ).
  exists b, w2. unfold Py.bind. rewrite Hm. split; [exact Hk|].
  split; [congruence | exact HQ].
Qed.

Lemma returns_weaken {A} (m : W A) w (P Q : A -> World -> Prop) :
  returns m w P ->
  (forall a w', clock_tape w' = clock_tape w -> P a w' -> Q a w') ->
  returns m w Q.
Proof.
  intros (a & w' & Hm & Hc & HP) HPQ. exists a, w'. auto.
Qed.

Lemma returns_produces {A} (m : W A) w (Q : A -> World -> Prop) :
  returns m w Q -> returns m w (fun a w' => produces m a /\ Q a w').
Proof.
  intros (a & w' & Hm & Hc & HQ). exists a, w'.
  repeat split; auto. exists w, w'. exact Hm.
Qed.

(** A loop with an invariant [Inv i acc]: [i] iterations are done. *)
Lemma returns_for_each {X A} (xs : list X) (body : X -> A -> W A)
    (Inv : nat -> A -> Prop) (w0 : World) :
  (forall i x a w, clock_tape w = clock_tape w0 -> xs !! i = Some x ->
     Inv i a -> returns (body x a) w (fun a' _ => Inv (S i) a')) ->
  forall acc, Inv O acc ->
  returns (Py.for_each xs body acc) w0 (fun a' _ => Inv (length xs) a').
Proof.
  revert Inv w0. induction xs as [|x xs IH]; intros Inv w0 Hbody acc H0; simpl.
  - apply returns_ret. exact H0.
  - apply returns_bind.
    eapply returns_weaken;
      [apply (Hbody O x acc w0); [reflexivity | reflexivity | exact H0]|].
    intros a' w' Hclk Ha'. simpl in Ha'.
    eapply returns_weaken.
    + apply (IH (fun i a => Inv (S i) a) w'); [|exact Ha'].
      intros i y a w1 Hw1 Hy Hi.
      apply (Hbody (S i) y a w1); [congruence | assumption | assumption].
    + intros a'' w'' _ H. exact H.
Qed.

Ltac step := apply returns_bind; eapply returns_weaken.

(** The primitives. *)

Lemma next_random_returns w :
  returns next_random w (fun _ _ => True).
Proof. do 2 eexists. split; [reflexivity|]. split; [reflexivity | exact I]. Qed.

Lemma now_returns w :
  returns datetime.now w (fun d _ => exists n, d = clock_tape w n).
Proof.
  do 2 eexists. split; [reflexivity|]. split; [reflexivity|]. eauto.
Qed.

Lemma print_returns line w : returns (print line) w (fun _ _ => True).
Proof. do 2 eexists. split; [reflexivity|]. split; [reflexivity | exact I]. Qed.

Lemma randbelow_returns n w :
  0 < n -> returns (random.randbelow n) w (fun r _ => 0 <= r < n).
Proof.
  intros Hn. unfold random.randbelow. step; [apply next_random_returns|].
  intros r w' _ _. apply returns_ret. apply Z.mod_pos_bound. exact Hn.
Qed.

Lemma randint_returns a b w :
  a <= b -> returns (random.randint a b) w (fun r _ => a <= r <= b).
Proof.
  intros Hab. unfold random.randint.
  destruct (b <? a) eqn:E; [apply Z.ltb_lt in E; lia|].
  step; [apply randbelow_returns; lia|].
  intros r w' _ Hr. apply returns_ret. simpl in *. lia.
Qed.

Lemma choice_returns {A} (seq : list A) w :
  seq <> [] -> returns (random.choice seq) w (fun x _ => x ∈ seq).
Proof.
  intros Hne. unfold random.choice. destruct seq as [|x0 seq']; [done|].
  remember (x0 :: seq') as seq eqn:Hseq.
  assert (0 < length seq)%nat by (subst seq; simpl; lia).
  step; [apply (randbelow_returns (Z.of_nat (length seq))); lia|].
  intros j w' _ Hj. cbv beta in Hj.
  destruct (seq !! Z.to_nat j) as [x|] eqn:E.
  - apply returns_ret. apply list_elem_of_lookup. eauto.
  - apply lookup_ge_None in E. lia.
Qed.

(** ** [random.sample] draws at distinct positions *)

Lemma insert_swap_perm {A} (l : list A) j x y :
  l !! j = Some x -> x :: <[j := y]> l ≡ₚ y :: l.
Proof.
  revert j. induction l as [|a l IH]; intros [|j] Hj; simpl in *; try done.
  - injection Hj as ->. apply perm_swap.
  - rewrite perm_swap. rewrite (IH j Hj). apply perm_swap.
Qed.

Lemma swap_remove_perm {A} (pool : list A) (n j : nat) x last :
  (j < n)%nat -> pool !! j = Some x -> pool !! (n - 1)%nat = Some last ->
  x :: take (n - 1) (<[j := last]> pool) ≡ₚ take n pool.
Proof.
  intros Hjn Hx Hlast.
  replace n with (S (n - 1)) at 2 by lia.
  rewrite (take_S_r _ _ _ Hlast).
  destruct (decide (j = n - 1)%nat) as [->|Hne].
  - rewrite list_insert_id by exact Hlast.
    assert (x = last) by congruence. subst x.
    apply Permutation_cons_append.
  - rewrite take_insert_lt by lia.
    rewrite (insert_swap_perm (take (n - 1) pool) j x last).
    + apply Permutation_cons_append.
    + rewrite lookup_take_lt by lia. exact Hx.
Qed.

Lemma sample_loop_returns {A} (k : nat) : forall (n : nat) (pool : list A) w,
  (k <= n <= length pool)%nat ->
  returns (random.sample_loop k n pool) w
    (fun res _ => length res = k /\ res ⊆+ take n pool).
Proof.
  induction k as [|k IH]; intros n pool w Hn; simpl.
  - apply returns_ret. split; [reflexivity | apply submseteq_nil_l].
  - step; [apply (randbelow_returns (Z.of_nat n)); lia|].
    intros j w1 _ Hj. cbv beta in Hj.
    destruct (pool !! Z.to_nat j) as [x|] eqn:Ex;
      [|apply lookup_ge_None in Ex; lia].
    destruct (pool !! (n - 1)%nat) as [last|] eqn:El;
      [|apply lookup_ge_None in El; lia].
    step; [apply (IH (n - 1)%nat); rewrite length_insert; lia|].
    intros rest w2 _ [Hlen Hsub]. apply returns_ret. split.
    + simpl. congruence.
    + rewrite <- (swap_remove_perm pool n (Z.to_nat j) x last) by (auto; lia).
      apply submseteq_skip. exact Hsub.
Qed.

Lemma sample_returns {A} (population : list A) (k : Z) w :
  0 <= k <= Z.of_nat (length population) ->
  returns (random.sample population k) w
    (fun res _ => length res = Z.to_nat k /\ res ⊆+ population).
Proof.
  intros Hk. unfold random.sample.
  destruct (k <? 0) eqn:E1; [apply Z.ltb_lt in E1; lia|].
  destruct (Z.of_nat (length population) <? k) eqn:E2;
    [apply Z.ltb_lt in E2; lia|].
  simpl. eapply returns_weaken.
  - apply sample_loop_returns. lia.
  - intros res _ _ [Hlen Hsub]. split; [exact Hlen|].
    rewrite firstn_all in Hsub. exact Hsub.
Qed.

(** ** What [__init__] builds *)

Lemma init_returns url w :
  returns (init url) w (fun g _ => base_url g = url /\ well_built g).
Proof.
  unfold init.
  change (map (fun i => slice (map (fun i0 => "O" +:+ format_d 5 i0) (range 30))
                          i (i + 5)) (range_step 15 0 15 5)) with the_cells.
  set (locations := map (fun i => "L" +:+ format_d 5 i) (range 20)).
  step.
  - apply (returns_for_each the_cells _
      (fun i d =>
         (forall cell, cell ∈ take i the_cells ->
            exists locs, d !! cell = Some locs /\ length locs = 5%nat
                         /\ locs ⊆+ locations)
         /\ (forall cell, cell ∉ take i the_cells -> d !! cell = None))).
    + intros i cell d w0 _ Hcell [Hin Hout].
      step; [apply sample_returns; subst locations; simpl; lia|].
      intros s w1 _ [Hlen Hsub]. apply returns_ret.
      rewrite (take_S_r _ _ _ Hcell). split.
      * intros c Hc. destruct (decide (cell = c)) as [->|Hne].
        -- exists s. rewrite lookup_insert_eq. auto.
        -- rewrite lookup_insert_ne by exact Hne. apply Hin.
           apply elem_of_app in Hc as [Hc|Hc]; [exact Hc|].
           apply list_elem_of_singleton in Hc. congruence.
      * intros c Hc. rewrite lookup_insert_ne.
        -- apply Hout. intros Hc'. apply Hc. apply elem_of_app. auto.
        -- intros ->. apply Hc. apply elem_of_app. right.
           apply list_elem_of_singleton. reflexivity.
    + split; [intros cell Hc; simpl in Hc; inversion Hc | reflexivity].
  - intros d w1 _ [Hin Hout]. apply returns_ret. split; [reflexivity|].
    simpl in Hin, Hout.
    constructor; simpl; try reflexivity; assumption.
Qed.

Lemma constructed_well_built g : constructed g -> well_built g.
Proof.
  intros (url & w & w' & Hinit).
  destruct (init_returns url w) as (g' & w'' & Hrun & _ & _ & Hwb).
  congruence.
Qed.

(** ** Rounding and [uniform] *)

Lemma round_half_even_ge (z : Z) (q : Q) :
  (inject_Z z <= q)%Q -> z <= round_half_even q.
Proof.
  intros Hz. unfold round_half_even.
  assert (Hf : z <= Qfloor q).
  { rewrite <- (Qfloor_Z z). apply Qfloor_resp_le. exact Hz. }
  destruct (Qcompare _ _); [destruct (Z.even _)|..]; lia.
Qed.

Lemma round_half_even_le (z : Z) (q : Q) :
  (q <= inject_Z z)%Q -> round_half_even q <= z.
Proof.
  intros Hz. unfold round_half_even.
  assert (Hf : Qfloor q <= z).
  { rewrite <- (Qfloor_Z z). apply Qfloor_resp_le. exact Hz. }
  destruct (Z.eq_dec (Qfloor q) z) as [Heq|Hne].
  - assert (Hlt : ((q - inject_Z (Qfloor q)) * 2 < 1)%Q).
    { rewrite Heq. apply Qle_lt_trans with (y := ((inject_Z z - inject_Z z) * 2)%Q).
      - apply Qmult_le_compat_r; [|discriminate].
        apply Qplus_le_l with (z := inject_Z z). ring_simplify. exact Hz.
      - ring_simplify. reflexivity. }
    rewrite Qlt_alt in Hlt. rewrite Hlt. lia.
  - destruct (Qcompare _ _); [destruct (Z.even _)|..]; lia.
Qed.

(** The fractional part of [q], doubled, against 1. *)
Lemma frac_mono (f : Z) (x y : Q) :
  (x <= y)%Q -> ((x - inject_Z f) * 2 <= (y - inject_Z f) * 2)%Q.
Proof.
  intros H. apply Qmult_le_compat_r; [|discriminate].
  apply Qplus_le_l with (z := inject_Z f). ring_simplify. exact H.
Qed.

Lemma round_half_even_mono (x y : Q) :
  (x <= y)%Q -> round_half_even x <= round_half_even y.
Proof.
  intros Hxy. assert (Hf := Qfloor_resp_le x y Hxy).
  destruct (Z.eq_dec (Qfloor x) (Qfloor y)) as [Heq|Hne].
  - unfold round_half_even. rewrite <- Heq.
    assert (Hfr := frac_mono (Qfloor x) x y Hxy).
    destruct (Qcompare ((x - inject_Z (Qfloor x)) * 2) 1) eqn:Cx;
      destruct (Qcompare ((y - inject_Z (Qfloor x)) * 2) 1) eqn:Cy;
      try (destruct (Z.even (Qfloor x)); lia); try lia; exfalso.
    + apply Qeq_alt in Cx. apply Qlt_alt in Cy. rewrite Cx in Hfr.
      exact (Qlt_not_le _ _ Cy Hfr).
    + apply Qgt_alt in Cx. apply Qeq_alt in Cy. rewrite Cy in Hfr.
      exact (Qlt_not_le _ _ Cx Hfr).
    + apply Qgt_alt in Cx. apply Qlt_alt in Cy.
      exact (Qlt_not_le _ _ (Qlt_trans _ _ _ Cy Cx) Hfr).
  - assert (H1 : round_half_even x <= Qfloor x + 1).
    { unfold round_half_even.
      destruct (Qcompare _ _); [destruct (Z.even _)|..]; lia. }
    assert (H2 : Qfloor y <= round_half_even y).
    { unfold round_half_even.
      destruct (Qcompare _ _); [destruct (Z.even _)|..]; lia. }
    lia.
Qed.

(** A value more than [z - 1/2] rounds to [z] at least, and one less than
    [z + 1/2] to [z] at most. *)
Lemma round_half_even_above (z : Z) (q : Q) :
  (inject_Z z - (1 # 2) < q)%Q -> z <= round_half_even q.
Proof.
  intros Hz.
  assert (Hf : z - 1 <= Qfloor q).
  { rewrite <- (Qfloor_Z (z - 1)). apply Qfloor_resp_le.
    apply Qlt_le_weak. eapply Qle_lt_trans; [|exact Hz].
    unfold Qle, Qminus, Qplus, Qopp, inject_Z. simpl. lia. }
  destruct (Z.eq_dec (Qfloor q) (z - 1)) as [Heq|Hne].
  - unfold round_half_even. rewrite Heq.
    assert (Hgt : (1 < (q - inject_Z (z - 1)) * 2)%Q).
    { apply Qle_lt_trans
        with (y := ((inject_Z z - (1 # 2) - inject_Z (z - 1)) * 2)%Q).
      - unfold Qle, Qminus, Qplus, Qopp, Qmult, inject_Z. simpl. lia.
      - apply Qmult_lt_r; [reflexivity|].
        apply Qplus_lt_l with (z := inject_Z (z - 1)). ring_simplify.
        ring_simplify in Hz. exact Hz. }
    apply Qgt_alt in Hgt. rewrite Hgt. lia.
  - unfold round_half_even.
    destruct (Qcompare _ _); [destruct (Z.even _)|..]; lia.
Qed.

Lemma round_half_even_below (z : Z) (q : Q) :
  (q < inject_Z z + (1 # 2))%Q -> round_half_even q <= z.
Proof.
  intros Hz.
  assert (Hf : Qfloor q <= z).
  { assert (H := Qfloor_le q).
    assert (H' : (inject_Z (Qfloor q) < inject_Z (z + 1))%Q).
    { eapply Qle_lt_trans; [exact H|]. eapply Qlt_le_trans; [exact Hz|].
      unfold Qle, Qplus, inject_Z. simpl. lia. }
    rewrite <- Zlt_Qlt in H'. lia. }
  destruct (Z.eq_dec (Qfloor q) z) as [Heq|Hne].
  - unfold round_half_even. rewrite Heq.
    assert (Hlt : ((q - inject_Z z) * 2 < 1)%Q).
    { apply Qle_lt_trans with (y := ((q - inject_Z z) * 2 + 0)%Q);
        [rewrite Qplus_0_r; apply Qle_refl|].
      apply Qplus_lt_l with (z := (inject_Z z * 2)%Q). ring_simplify.
      apply Qlt_le_trans with (y := (2 * (inject_Z z + (1 # 2)))%Q).
      - apply Qmult_lt_l; [reflexivity | exact Hz].
      - ring_simplify. apply Qle_refl. }
    rewrite Qlt_alt in Hlt. rewrite Hlt. lia.
  - unfold round_half_even.
    destruct (Qcompare _ _); [destruct (Z.even _)|..]; lia.
Qed.

(** ** Binary64 *)

Lemma pow2_pos (e : Z) : (0 < 2 ^ e)%Q.
Proof. apply Qpower_0_lt. reflexivity. Qed.

Lemma pow2_add (a b : Z) : (2 ^ (a + b) == 2 ^ a * 2 ^ b)%Q.
Proof. apply Qpower_plus. discriminate. Qed.

Lemma pow2_le (a b : Z) : a <= b -> (2 ^ a <= 2 ^ b)%Q.
Proof. intros H. apply Qpower_le_compat_l; [exact H | discriminate]. Qed.

Lemma pow2_lt_inv (a b : Z) : (2 ^ a < 2 ^ b)%Q -> a < b.
Proof. intros H. apply (Qpower_lt_compat_l_inv 2); [exact H | reflexivity]. Qed.

Lemma pow2_inject (n : Z) : 0 <= n -> (inject_Z (2 ^ n) == 2 ^ n)%Q.
Proof. intros H. apply (Zpower_Qpower 2 n H). Qed.

Lemma ilog2_spec (q : Q) :
  (0 < q)%Q -> (2 ^ float.ilog2 q <= q)%Q /\ (q < 2 ^ (float.ilog2 q + 1))%Q.
Proof.
  intros Hq. destruct q as [n d].
  assert (Hn : 0 < n) by (unfold Qlt in Hq; simpl in Hq; lia).
  destruct (Z.log2_spec n Hn) as [Hn1 Hn2].
  destruct (Z.log2_spec (Zpos d) eq_refl) as [Hd1 Hd2].
  assert (Ha := Z.log2_nonneg n). assert (Hb := Z.log2_nonneg (Zpos d)).
  set (a := Z.log2 n) in *. set (b := Z.log2 (Zpos d)) in *.
  assert (Hval : (n # d == inject_Z n / inject_Z (Zpos d))%Q)
    by apply Qmake_Qdiv.
  assert (Hdpos : (0 < inject_Z (Zpos d))%Q) by reflexivity.
  (* the value lies between 2^(a-b-1) and 2^(a-b+1) *)
  assert (Hup : (n # d < 2 ^ (a - b + 1))%Q).
  { replace (a - b + 1) with ((a + 1) - b) by lia.
    rewrite Qpower_minus by discriminate.
    rewrite <- !pow2_inject by lia. rewrite Hval.
    apply Qlt_shift_div_l; [rewrite pow2_inject by lia; apply pow2_pos|].
    unfold Qdiv. rewrite <- Qmult_assoc, (Qmult_comm (/ _)), Qmult_assoc.
    apply Qlt_shift_div_r; [exact Hdpos|].
    rewrite <- !inject_Z_mult, <- Zlt_Qlt. nia. }
  assert (Hlow : (2 ^ (a - b - 1) <= n # d)%Q).
  { replace (a - b - 1) with (a - (b + 1)) by lia.
    rewrite Qpower_minus by discriminate.
    rewrite <- !pow2_inject by lia. rewrite Hval.
    apply Qle_shift_div_r; [rewrite pow2_inject by lia; apply pow2_pos|].
    unfold Qdiv. rewrite <- Qmult_assoc, (Qmult_comm (/ _)), Qmult_assoc.
    apply Qle_shift_div_l; [exact Hdpos|].
    rewrite <- !inject_Z_mult, <- Zle_Qle. nia. }
  unfold float.ilog2. cbn [Qnum Qden]. fold a b.
  destruct (Qle_bool (2 ^ (a - b)) (n # d)) eqn:E.
  - apply Qle_bool_iff in E. split; [exact E | exact Hup].
  - split; [exact Hlow|].
    replace (a - b - 1 + 1) with (a - b) by lia.
    apply Qnot_le_lt. intros H. apply Qle_bool_iff in H. congruence.
Qed.

Lemma ilog2_mono (x y : Q) :
  (0 < x)%Q -> (x <= y)%Q -> float.ilog2 x <= float.ilog2 y.
Proof.
  intros Hx Hxy.
  destruct (ilog2_spec x Hx) as [H1 _].
  destruct (ilog2_spec y (Qlt_le_trans _ _ _ Hx Hxy)) as [_ H2].
  assert (H : (2 ^ float.ilog2 x < 2 ^ (float.ilog2 y + 1))%Q).
  { eapply Qle_lt_trans; [exact H1|]. eapply Qle_lt_trans; eassumption. }
  apply pow2_lt_inv in H. lia.
Qed.

Lemma round_at_value (e : Z) (q : Q) :
  (float.round_at e q == inject_Z (round_half_even (q / 2 ^ e)) * 2 ^ e)%Q.
Proof. apply Qred_correct. Qed.

Lemma round_at_mono (e : Z) (x y : Q) :
  (x <= y)%Q -> (float.round_at e x <= float.round_at e y)%Q.
Proof.
  intros H. rewrite !round_at_value.
  apply Qmult_le_compat_r; [|apply Qlt_le_weak, pow2_pos].
  rewrite <- Zle_Qle. apply round_half_even_mono.
  apply Qmult_le_compat_r; [exact H|].
  apply Qlt_le_weak, Qinv_lt_0_compat, pow2_pos.
Qed.

Lemma round_at_ge (e n : Z) (q : Q) :
  (inject_Z n * 2 ^ e <= q)%Q -> (inject_Z n * 2 ^ e <= float.round_at e q)%Q.
Proof.
  intros H. rewrite round_at_value.
  apply Qmult_le_compat_r; [|apply Qlt_le_weak, pow2_pos].
  rewrite <- Zle_Qle. apply round_half_even_ge.
  apply Qle_shift_div_l; [apply pow2_pos | exact H].
Qed.

Lemma round_at_le (e n : Z) (q : Q) :
  (q <= inject_Z n * 2 ^ e)%Q -> (float.round_at e q <= inject_Z n * 2 ^ e)%Q.
Proof.
  intros H. rewrite round_at_value.
  apply Qmult_le_compat_r; [|apply Qlt_le_weak, pow2_pos].
  rewrite <- Zle_Qle. apply round_half_even_le.
  apply Qle_shift_div_r; [apply pow2_pos | exact H].
Qed.

Lemma Qabs_nonneg_eq (x : Q) : (0 <= x)%Q -> Qabs x = x.
Proof.
  destruct x as [n d]. unfold Qle. simpl. intros H.
  unfold Qabs. f_equal. apply Z.abs_eq. lia.
Qed.

Lemma b64_nonneg (x : Q) : (0 <= x)%Q -> (0 <= float.b64 x)%Q.
Proof.
  intros H. unfold float.b64.
  assert (H0 := round_at_ge (float.ulp_exp x) 0 x).
  rewrite Qmult_0_l in H0. apply H0. exact H.
Qed.

Lemma b64_zero (x : Q) : (x == 0)%Q -> (float.b64 x == 0)%Q.
Proof.
  intros H. apply Qle_antisym.
  - assert (H0 := round_at_le (float.ulp_exp x) 0 x).
    rewrite Qmult_0_l in H0. apply H0. rewrite H. apply Qle_refl.
  - apply b64_nonneg. rewrite H. apply Qle_refl.
Qed.

(** Rounding to binary64 keeps the order of what it rounds. *)
Lemma b64_mono (x y : Q) :
  (0 <= x)%Q -> (x <= y)%Q -> (float.b64 x <= float.b64 y)%Q.
Proof.
  intros Hx Hxy. assert (Hy : (0 <= y)%Q) by (eapply Qle_trans; eassumption).
  destruct (Qlt_le_dec 0 x) as [Hpos|Hzero].
  2: { rewrite (b64_zero x) by (apply Qle_antisym; assumption).
       apply b64_nonneg. exact Hy. }
  assert (Hposy : (0 < y)%Q) by (eapply Qlt_le_trans; eassumption).
  assert (HE := ilog2_mono x y Hpos Hxy).
  destruct (ilog2_spec x Hpos) as [_ Hx2].
  destruct (ilog2_spec y Hposy) as [Hy1 _].
  unfold float.b64, float.ulp_exp.
  rewrite (Qabs_nonneg_eq x Hx), (Qabs_nonneg_eq y Hy).
  unfold float.prec.
  set (Ex := float.ilog2 x) in *. set (Ey := float.ilog2 y) in *.
  destruct (Z.eq_dec (Z.max Ex float.emin) (Z.max Ey float.emin)) as [Heq|Hne].
  - rewrite Heq. apply round_at_mono. exact Hxy.
  - assert (Hlt : Z.max Ex float.emin + 1 <= Ey) by lia.
    assert (HeyE : Z.max Ey float.emin = Ey) by lia. rewrite HeyE.
    set (Mx := Z.max Ex float.emin) in *.
    apply Qle_trans with (y := (2 ^ (Mx + 1))%Q);
      [|apply Qle_trans with (y := (2 ^ Ey)%Q)].
    + assert (Hgrid : (inject_Z (2 ^ 53) * 2 ^ (Mx - (53 - 1)) == 2 ^ (Mx + 1))%Q).
      { rewrite pow2_inject by lia. rewrite <- pow2_add.
        replace (53 + (Mx - (53 - 1))) with (Mx + 1) by lia. reflexivity. }
      rewrite <- Hgrid. apply round_at_le. rewrite Hgrid.
      apply Qlt_le_weak. eapply Qlt_le_trans; [exact Hx2|].
      apply pow2_le. lia.
    + apply pow2_le. exact Hlt.
    + assert (Hgrid : (inject_Z (2 ^ 52) * 2 ^ (Ey - (53 - 1)) == 2 ^ Ey)%Q).
      { rewrite pow2_inject by lia. rewrite <- pow2_add.
        replace (52 + (Ey - (53 - 1))) with Ey by lia. reflexivity. }
      rewrite <- Hgrid. apply round_at_ge. rewrite Hgrid. exact Hy1.
Qed.

(** What [round(a + (b - a) * u, 2)] can be, [u] a value of [random()]:
    the least and the greatest sum the floats allow decide it. *)
Lemma uniform_round2 (a b : Q) (lo hi : Z) (u : Q) :
  (0 <= a)%Q -> (a <= b)%Q -> (0 <= u)%Q -> (u <= 1)%Q ->
  (inject_Z lo - (1 # 2) < float.b64 a * 100)%Q ->
  (float.b64 (a + float.b64 (float.b64 (b - a))) * 100
   < inject_Z hi + (1 # 2))%Q ->
  two_decimals lo hi (round2 (float.add a (float.mul (float.sub b a) u))).
Proof.
  intros Ha Hab Hu0 Hu1 Hlo Hhi.
  set (c := float.sub b a). set (p := float.mul c u).
  assert (Hc : (0 <= c)%Q).
  { apply b64_nonneg. apply Qplus_le_l with (z := a). ring_simplify. exact Hab. }
  assert (Hp0 : (0 <= p)%Q).
  { apply b64_nonneg. apply Qmult_le_0_compat; assumption. }
  assert (Hp1 : (p <= float.b64 c)%Q).
  { apply b64_mono; [apply Qmult_le_0_compat; assumption|].
    apply Qle_trans with (y := (c * 1)%Q);
      [|rewrite Qmult_1_r; apply Qle_refl].
    apply Qmult_le_compat_nonneg; split;
      assumption || apply Qle_refl. }
  set (x := float.add a p).
  assert (Hx0 : (float.b64 a <= x)%Q).
  { apply b64_mono; [exact Ha|].
    rewrite <- (Qplus_0_r a) at 1. apply Qplus_le_r. exact Hp0. }
  assert (Hx1 : (x <= float.b64 (a + float.b64 c))%Q).
  { apply b64_mono.
    - rewrite <- (Qplus_0_r 0). apply Qplus_le_compat; assumption.
    - apply Qplus_le_r. exact Hp1. }
  exists (round_half_even (x * 100)).
  split; [|unfold round2, float.lit; reflexivity]. split.
  - apply round_half_even_above. eapply Qlt_le_trans; [exact Hlo|].
    apply Qmult_le_compat_r; [exact Hx0 | discriminate].
  - apply round_half_even_below. eapply Qle_lt_trans; [|exact Hhi].
    apply Qmult_le_compat_r; [exact Hx1 | discriminate].
Qed.

Lemma two_decimals_range (lo hi : Z) (c : Q) :
  0 <= lo -> two_decimals lo hi c ->
  (float.lit (lo # 100) <= c)%Q /\ (c <= float.lit (hi # 100))%Q.
Proof.
  intros Hlo (k & Hk & ->). unfold float.lit. split.
  - apply b64_mono; unfold Qle; simpl; lia.
  - apply b64_mono; unfold Qle; simpl; lia.
Qed.

Lemma random_returns w :
  returns random.random w (fun u _ => (0 <= u)%Q /\ (u < 1)%Q).
Proof.
  unfold random.random. step; [apply next_random_returns|].
  intros r w' _ _. apply returns_ret.
  assert (H := Z.mod_pos_bound r (2 ^ 53) eq_refl).
  unfold Qle, Qlt. simpl Qnum. simpl Qden.
  change (Z.pos (2 ^ 53)) with (2 ^ 53). lia.
Qed.

Lemma uniform_returns (a : Q) (lo : Z) w :
  (0 <= a)%Q -> (a <= 1)%Q ->
  (inject_Z lo - (1 # 2) < float.b64 a * 100)%Q ->
  (float.b64 (a + float.b64 (float.b64 (1 - a))) * 100
   < inject_Z 100 + (1 # 2))%Q ->
  returns (random.uniform a 1) w (fun x _ => two_decimals lo 100 (round2 x)).
Proof.
  intros Ha Ha1 Hlo Hhi. unfold random.uniform.
  step; [apply random_returns|].
  intros u w' _ [Hu0 Hu1]. apply returns_ret. cbv beta.
  apply uniform_round2; try assumption. apply Qlt_le_weak. exact Hu1.
Qed.

(** The two calls of the script. *)
Lemma uniform_07_returns w :
  returns (random.uniform (float.lit (7 # 10)) 1) w
    (fun x _ => two_decimals 70 100 (round2 x)).
Proof.
  apply uniform_returns.
  - vm_compute. discriminate.
  - vm_compute. discriminate.
  - vm_compute. reflexivity.
  - vm_compute. reflexivity.
Qed.

Lemma uniform_08_returns w :
  returns (random.uniform (float.lit (8 # 10)) 1) w
    (fun x _ => two_decimals 80 100 (round2 x)).
Proof.
  apply uniform_returns.
  - vm_compute. discriminate.
  - vm_compute. discriminate.
  - vm_compute. reflexivity.
  - vm_compute. reflexivity.
Qed.

(** ** What the generators return *)

Lemma getitem_returns {A} (l : list A) (i : Z) x w :
  l !! Z.to_nat i = Some x -> returns (getitem l i) w (fun y _ => y = x).
Proof. intros Hx. unfold getitem. rewrite Hx. apply returns_ret. reflexivity. Qed.

Lemma getkey_returns `{Countable K} {V} (d : gmap K V) (k : K) v w :
  d !! k = Some v -> returns (getkey d k) w (fun v' _ => v' = v).
Proof. intros Hv. unfold getkey. rewrite Hv. apply returns_ret. reflexivity. Qed.

Lemma range_lookup (n i : nat) (x : Z) :
  range n !! i = Some x -> x = Z.of_nat i /\ (i < n)%nat.
Proof.
  unfold range. rewrite list_lookup_fmap. intros Hx.
  destruct (seq 0 n !! i) as [y|] eqn:E; [|discriminate].
  apply lookup_seq in E as [-> Hi]. simpl in Hx. injection Hx as <-. auto.
Qed.

Lemma length_range n : length (range n) = n.
Proof. unfold range. rewrite length_map. apply length_seq. Qed.

Lemma movement_type_choice w :
  returns (random.choice ["walking"; "vehicle"]) w
    (fun mt _ => mt ∈ movement_types).
Proof. apply choice_returns. discriminate. Qed.

Section WellBuilt.
Variable g : TestDataGenerator.
Hypothesis Hg : well_built g.

Lemma device_ids_nonempty : device_ids g <> [].
Proof. rewrite (wb_devices g Hg). discriminate. Qed.

Lemma owner_ids_nonempty : owner_ids g <> [].
Proof. rewrite (wb_owners g Hg). discriminate. Qed.

Lemma location_ids_nonempty : location_ids g <> [].
Proof. rewrite (wb_locations g Hg). discriminate. Qed.

Lemma length_device_ids : length (device_ids g) = 50%nat.
Proof. rewrite (wb_devices g Hg). reflexivity. Qed.

Lemma generate_normal_movement_returns w :
  returns (generate_normal_movement g) w
    (fun m _ => normal_record g (clock_tape w) m).
Proof.
  unfold generate_normal_movement.
  step; [apply choice_returns, device_ids_nonempty|]. intros d w1 Hc1 Hd.
  step; [apply choice_returns, owner_ids_nonempty|]. intros o w2 Hc2 Ho.
  step; [apply choice_returns, location_ids_nonempty|]. intros l w3 Hc3 Hl.
  step; [apply now_returns|]. intros now w4 Hc4 [n Hnow].
  step; [apply (randint_returns 0 48); lia|]. intros h w5 Hc5 Hh.
  step; [apply movement_type_choice|]. intros mt w6 Hc6 Hmt.
  step; [apply uniform_07_returns|].
  intros c w7 Hc7 Hconf.
  apply returns_ret. constructor; simpl; try assumption.
  exists n, h. split; [exact Hh|]. rewrite Hnow, Hc3, Hc2, Hc1. reflexivity.
Qed.

Lemma cell_record_returns device member base lo hi loc_id w :
  lo <= hi ->
  returns (cell_record device member base lo hi loc_id) w
    (fun m _ =>
       device_id m = device /\ owner_id m = member
       /\ location_id (loc m) = loc_id
       /\ movement_type m ∈ movement_types
       /\ two_decimals 80 100 (confidence_level m)
       /\ exists mm, lo <= mm <= hi /\
            timestamp m = datetime.isoformat (base + datetime.timedelta 0 mm)).
Proof.
  intros Hlohi. unfold cell_record.
  step; [apply (randint_returns lo hi); exact Hlohi|]. intros mm w1 _ Hmm.
  step; [apply movement_type_choice|]. intros mt w2 _ Hmt.
  step; [apply uniform_08_returns|].
  intros c w3 _ Hconf.
  apply returns_ret. simpl. repeat split; try assumption.
  exists mm. auto.
Qed.

Lemma assign_devices_returns cell w :
  returns (assign_devices g cell) w
    (fun md _ => forall member, member ∈ cell ->
       exists devices, md !! member = Some devices
         /\ (1 <= length devices <= 3)%nat /\ devices ⊆+ device_ids g).
Proof.
  unfold assign_devices.
  eapply returns_weaken.
  - apply (returns_for_each cell _
      (fun i md => forall member, member ∈ take i cell ->
         exists devices, md !! member = Some devices
           /\ (1 <= length devices <= 3)%nat /\ devices ⊆+ device_ids g)).
    + intros i member md w0 _ Hmember Hin.
      step; [apply (randint_returns 1 3); lia|]. intros k w1 _ Hk.
      cbv beta in Hk.
      step; [apply sample_returns; rewrite length_device_ids; lia|].
      intros s w2 _ [Hlen Hsub]. apply returns_ret.
      rewrite (take_S_r _ _ _ Hmember). intros m Hm.
      destruct (decide (member = m)) as [->|Hne].
      * exists s. rewrite lookup_insert_eq. repeat split; auto; lia.
      * rewrite lookup_insert_ne by exact Hne. apply Hin.
        apply elem_of_app in Hm as [Hm|Hm]; [exact Hm|].
        apply list_elem_of_singleton in Hm. congruence.
    + intros member Hm. simpl in Hm. inversion Hm.
  - intros md w' _ Hmd. rewrite firstn_all in Hmd. exact Hmd.
Qed.

End WellBuilt.

Lemma returns_run {A} (m : W A) w (Q : A -> World -> Prop) :
  returns m w Q -> returns m w (fun a w' => m w = (inr a, w') /\ Q a w').
Proof.
  intros (a & w' & Hm & Hc & HQ). exists a, w'. auto.
Qed.

Lemma assigned_count_snoc md (l : list string) member :
  assigned_count md (l ++ [member])
  = (assigned_count md l + length (devices_of md member))%nat.
Proof. unfold assigned_count. rewrite sum_list_with_app. simpl. lia. Qed.

Section CellLoops.
Variable g : TestDataGenerator.
Variables cell locations : list string.
Variable member_devices : gmap string (list string).
Variable base : datetime.t.

Hypothesis Hmd : forall member, member ∈ cell ->
  exists devices, member_devices !! member = Some devices
    /\ (1 <= length devices <= 3)%nat /\ devices ⊆+ device_ids g.

Let P := cell_pattern_record g cell locations base.

Lemma cell_device_step_returns (i : nat) cur next member device movs w :
  (i < length locations)%nat -> cur ∈ locations -> next ∈ locations ->
  member ∈ cell -> device ∈ device_ids g -> Forall P movs ->
  returns (cell_device_step
             (base + Z.of_nat i * datetime.timedelta 2 0) cur next member
             device movs) w
    (fun movs' _ => length movs' = (length movs + 2)%nat /\ Forall P movs').
Proof.
  intros Hi Hcur Hnext Hmember Hdevice HP. unfold cell_device_step.
  step; [apply (cell_record_returns _ _ _ 0 30); lia|].
  intros r1 w1 _ (Hd1 & Ho1 & Hl1 & Ht1 & Hc1 & mm1 & Hmm1 & Hts1).
  step; [apply (cell_record_returns _ _ _ 45 90); lia|].
  intros r2 w2 _ (Hd2 & Ho2 & Hl2 & Ht2 & Hc2 & mm2 & Hmm2 & Hts2).
  apply returns_ret. split.
  - rewrite !length_app. simpl. lia.
  - rewrite !Forall_app. repeat split; [exact HP| |].
    + apply Forall_singleton. constructor; try congruence.
      exists i, mm1. repeat split; [exact Hi | lia | lia | exact Hts1].
    + apply Forall_singleton. constructor; try congruence.
      exists i, mm2. repeat split; [exact Hi | lia | lia | exact Hts2].
Qed.

Lemma cell_devices_loop_returns (i : nat) cur next member devices movs w :
  (i < length locations)%nat -> cur ∈ locations -> next ∈ locations ->
  member ∈ cell -> devices ⊆+ device_ids g -> Forall P movs ->
  returns (Py.for_each devices
             (cell_device_step
                (base + Z.of_nat i * datetime.timedelta 2 0) cur next member)
             movs) w
    (fun movs' _ => length movs' = (length movs + 2 * length devices)%nat
                    /\ Forall P movs').
Proof.
  intros Hi Hcur Hnext Hmember Hdevices HP.
  apply (returns_for_each devices _
    (fun k movs' => length movs' = (length movs + 2 * k)%nat /\ Forall P movs')).
  - intros k device movs' w0 _ Hdevice [Hlen HP'].
    eapply returns_weaken.
    + apply cell_device_step_returns; try assumption.
      apply (elem_of_submseteq _ _ _ (list_elem_of_lookup_2 _ _ _ Hdevice) Hdevices).
    + intros movs'' _ _ [Hlen'' HP'']. split; [lia | exact HP''].
  - split; [lia | exact HP].
Qed.

Lemma cell_members_loop_returns (i : nat) cur next movs w :
  (i < length locations)%nat -> cur ∈ locations -> next ∈ locations ->
  Forall P movs ->
  returns (Py.for_each cell
             (fun member movements =>
                devices <- getkey member_devices member ;;
                Py.for_each devices
                  (cell_device_step
                     (base + Z.of_nat i * datetime.timedelta 2 0) cur next
                     member)
                  movements)
             movs) w
    (fun movs' _ =>
       length movs' = (length movs + 2 * assigned_count member_devices cell)%nat
       /\ Forall P movs').
Proof.
  intros Hi Hcur Hnext HP.
  eapply returns_weaken.
  - apply (returns_for_each cell _
      (fun k movs' =>
         length movs'
         = (length movs + 2 * assigned_count member_devices (take k cell))%nat
         /\ Forall P movs')).
    + intros k member movs' w0 _ Hmember [Hlen HP'].
      assert (Hin : member ∈ cell) by (eapply list_elem_of_lookup_2; eauto).
      destruct (Hmd member Hin) as (devices & Hlk & _ & Hsub).
      step; [apply getkey_returns; exact Hlk|].
      intros devices' w1 _ ->.
      eapply returns_weaken.
      * apply cell_devices_loop_returns; eassumption.
      * intros movs'' _ _ [Hlen'' HP'']. split; [|exact HP''].
        rewrite (take_S_r _ _ _ Hmember), assigned_count_snoc.
        unfold devices_of. rewrite Hlk. simpl. lia.
    + split; [simpl; lia | exact HP].
  - intros movs' _ _ [Hlen HP']. rewrite firstn_all in Hlen. auto.
Qed.

Lemma cell_locations_loop_returns w :
  returns (Py.for_each (range (length locations))
             (cell_location_step cell locations member_devices) ([], base)) w
    (fun st _ =>
       length (fst st)
       = (2 * length locations * assigned_count member_devices cell)%nat
       /\ Forall P (fst st)).
Proof.
  eapply returns_weaken.
  - apply (returns_for_each (range (length locations)) _
      (fun i st =>
         snd st = base + Z.of_nat i * datetime.timedelta 2 0
         /\ length (fst st)
            = (2 * i * assigned_count member_devices cell)%nat
         /\ Forall P (fst st))).
    + intros i x [movs bt] w0 _ Hx (Hbt & Hlen & HP).
      simpl in Hbt, Hlen, HP. subst bt.
      apply range_lookup in Hx as [-> Hi].
      unfold cell_location_step.
      destruct (lookup_lt_is_Some_2 locations i Hi) as [cur Hcur].
      assert (Hnx : (Z.to_nat ((Z.of_nat i + 1) mod Z.of_nat (length locations))
                     < length locations)%nat).
      { assert (H := Z.mod_pos_bound (Z.of_nat i + 1)
                       (Z.of_nat (length locations))). lia. }
      destruct (lookup_lt_is_Some_2 locations _ Hnx) as [next Hnext].
      step; [apply (getitem_returns _ _ cur); rewrite Nat2Z.id; exact Hcur|].
      intros cur' w1 _ ->.
      step; [apply getitem_returns; exact Hnext|].
      intros next' w2 _ ->.
      step; [apply (cell_members_loop_returns i cur next movs); try assumption;
             eapply list_elem_of_lookup_2; eassumption|].
      intros movs' w3 _ [Hlen' HP']. apply returns_ret. simpl.
      repeat split; [|lia|exact HP'].
      unfold datetime.timedelta. lia.
    + simpl. repeat split; [lia | constructor].
  - intros st _ _ (_ & Hlen & HP). rewrite length_range in Hlen. auto.
Qed.

End CellLoops.

Lemma hand_over_app cell movs extra i :
  (2 * i + 1 < length movs)%nat -> hand_over cell movs i ->
  hand_over cell (movs ++ extra) i.
Proof.
  intros Hi (r1 & r2 & H1 & H2 & H). exists r1, r2.
  rewrite !lookup_app_l by lia. auto.
Qed.

Section TransferLoop.
Variables cell locations : list string.
Variable device : string.
Variable base : datetime.t.
Hypothesis Hlocations : locations <> [].

Let P := transfer_record cell locations device base.

Lemma transfer_loop_returns w :
  returns (Py.for_each (range (length cell))
             (transfer_step cell locations device) ([], base)) w
    (fun st _ =>
       length (fst st) = (2 * length cell)%nat
       /\ Forall P (fst st)
       /\ forall i, (i < length cell)%nat -> hand_over cell (fst st) i).
Proof.
  eapply returns_weaken.
  - apply (returns_for_each (range (length cell)) _
      (fun i st =>
         snd st = base + Z.of_nat i * datetime.timedelta 3 0
         /\ length (fst st) = (2 * i)%nat
         /\ Forall P (fst st)
         /\ forall k, (k < i)%nat -> hand_over cell (fst st) k)).
    + intros i x [movs bt] w0 _ Hx (Hbt & Hlen & HP & Hpairs).
      cbn [fst snd] in Hbt, Hlen, HP, Hpairs. subst bt.
      apply range_lookup in Hx as [-> Hi].
      unfold transfer_step.
      destruct (lookup_lt_is_Some_2 cell i Hi) as [cur Hcur].
      assert (Hnx : (Z.to_nat ((Z.of_nat i + 1) mod Z.of_nat (length cell))
                     = (i + 1) mod length cell)%nat).
      { rewrite <- (Nat2Z.id ((i + 1) mod length cell)). f_equal.
        rewrite Nat2Z.inj_mod. f_equal. lia. }
      assert (Hnx' : ((i + 1) mod length cell < length cell)%nat)
        by (apply Nat.mod_upper_bound; lia).
      destruct (lookup_lt_is_Some_2 cell _ Hnx') as [next Hnext].
      step; [apply (getitem_returns _ _ cur); rewrite Nat2Z.id; exact Hcur|].
      intros cur' w1 _ ->.
      step; [apply (getitem_returns _ _ next); rewrite Hnx; exact Hnext|].
      intros next' w2 _ ->.
      step; [apply choice_returns; exact Hlocations|].
      intros tl w3 _ Htl.
      step; [apply (randint_returns 15 30); lia|].
      intros mm w4 _ Hmm. cbv beta in Hmm.
      apply returns_ret. cbn [fst snd]. repeat split.
      * unfold datetime.timedelta. lia.
      * rewrite !length_app. cbn [length]. lia.
      * rewrite !Forall_app. repeat split; [exact HP| |].
        -- apply Forall_singleton. constructor; simpl; try reflexivity.
           ++ eapply list_elem_of_lookup_2; eassumption.
           ++ exact Htl.
           ++ exists i, 0. repeat split; [exact Hi | lia | lia|].
              f_equal. unfold datetime.timedelta. lia.
        -- apply Forall_singleton. constructor; simpl; try reflexivity.
           ++ eapply list_elem_of_lookup_2; eassumption.
           ++ exact Htl.
           ++ exists i, mm. repeat split; [exact Hi | lia | lia].
      * intros k Hk. rewrite <- app_assoc.
        destruct (decide (k = i)) as [->|Hne].
        -- eexists _, _. split; [|split; [|split; [|split]]].
           ++ rewrite lookup_app_r by lia.
              replace (2 * i - length movs)%nat with 0%nat by lia.
              reflexivity.
           ++ rewrite lookup_app_r by lia.
              replace (2 * i + 1 - length movs)%nat with 1%nat by lia.
              reflexivity.
           ++ exact Hcur.
           ++ exact Hnext.
           ++ reflexivity.
        -- apply hand_over_app; [lia|]. apply Hpairs. lia.
    + simpl. repeat split; [lia | constructor | intros k Hk; lia].
  - intros st _ _ (_ & Hlen & HP & Hpairs). rewrite length_range in *. auto.
Qed.

End TransferLoop.

Lemma generate_cell_movement_pattern_found g cell locations :
  cell_locations g !! cell = Some locations ->
  generate_cell_movement_pattern g cell
  = (now <- datetime.now ;;
     h <- random.randint 0 48 ;;
     member_devices <- assign_devices g cell ;;
     st <- Py.for_each (range (length locations))
             (cell_location_step cell locations member_devices)
             ([], now - datetime.timedelta h 0) ;;
     Py.ret (fst st)).
Proof.
  intros Hlk. unfold generate_cell_movement_pattern, getkey. rewrite Hlk.
  reflexivity.
Qed.

Lemma generate_cell_movement_pattern_missing g cell w :
  cell_locations g !! cell = None ->
  generate_cell_movement_pattern g cell w = (inl (KeyError "key"), w).
Proof.
  intros Hlk. unfold generate_cell_movement_pattern, getkey. rewrite Hlk.
  reflexivity.
Qed.

Section Patterns.
Variable g : TestDataGenerator.
Hypothesis Hg : well_built g.

Lemma generate_cell_movement_pattern_returns cell w :
  cell ∈ the_cells ->
  returns (generate_cell_movement_pattern g cell) w
    (fun movs _ => exists locations md n h,
       cell_locations g !! cell = Some locations
       /\ length locations = 5%nat
       /\ locations ⊆+ location_ids g
       /\ fst (cell_assignment g cell w) = inr md
       /\ (forall member, member ∈ cell ->
             exists devices, md !! member = Some devices
               /\ (1 <= length devices <= 3)%nat
               /\ devices ⊆+ device_ids g)
       /\ 0 <= h <= 48
       /\ length movs = (2 * length locations * assigned_count md cell)%nat
       /\ Forall (cell_pattern_record g cell locations
                    (clock_tape w n - datetime.timedelta h 0)) movs).
Proof.
  intros Hcell.
  destruct (wb_cell_locations g Hg cell Hcell) as (locations & Hlk & Hlen & Hsub).
  rewrite (generate_cell_movement_pattern_found g cell locations Hlk).
  step; [apply returns_run, now_returns|].
  intros now w1 Hc1 [Hnow [n Hn]].
  step; [apply returns_run, (randint_returns 0 48); lia|].
  intros h w2 Hc2 [Hrand Hh].
  step; [apply returns_run, (assign_devices_returns g Hg cell)|].
  intros md w3 Hc3 [Hassign Hmd].
  step; [apply (cell_locations_loop_returns g cell locations md
                  (now - datetime.timedelta h 0) Hmd)|].
  intros st w4 Hc4 [Hcount HP]. apply returns_ret.
  exists locations, md, n, h. repeat split; try assumption.
  - unfold cell_assignment, Py.bind. rewrite Hnow, Hrand, Hassign. reflexivity.
  - lia.
  - lia.
  - rewrite <- Hn. exact HP.
Qed.

Lemma generate_device_transfer_pattern_returns w :
  returns (generate_device_transfer_pattern g) w
    (fun movs _ => exists cell locations device n h,
       cell ∈ terrorist_cells g
       /\ cell_locations g !! cell = Some locations
       /\ locations ⊆+ location_ids g
       /\ device ∈ device_ids g
       /\ 0 <= h <= 48
       /\ length movs = (2 * length cell)%nat
       /\ Forall (transfer_record cell locations device
                    (clock_tape w n - datetime.timedelta h 0)) movs
       /\ forall i, (i < length cell)%nat -> hand_over cell movs i).
Proof.
  unfold generate_device_transfer_pattern.
  step; [apply choice_returns; rewrite (wb_cells g Hg); discriminate|].
  intros cell w1 Hc1 Hcell. cbv beta in Hcell.
  assert (Hcell' : cell ∈ the_cells) by (rewrite <- (wb_cells g Hg); exact Hcell).
  destruct (wb_cell_locations g Hg cell Hcell') as (locations & Hlk & Hlen & Hsub).
  step; [apply getkey_returns; exact Hlk|]. intros locations' w2 Hc2 ->.
  step; [apply choice_returns, (device_ids_nonempty g Hg)|].
  intros device w3 Hc3 Hdevice.
  step; [apply now_returns|]. intros now w4 Hc4 [n Hn].
  step; [apply (randint_returns 0 48); lia|]. intros h w5 Hc5 Hh.
  cbv beta in Hh.
  step; [apply (transfer_loop_returns cell locations device
                  (now - datetime.timedelta h 0))|].
  { intros ->. discriminate. }
  intros st w6 Hc6 (Hcount & HP & Hpairs). apply returns_ret.
  exists cell, locations, device, n, h. repeat split; try assumption.
  - lia.
  - lia.
  - rewrite Hn, Hc3, Hc2, Hc1 in HP. exact HP.
Qed.

End Patterns.

(** ** The order of Python strings *)

Lemma ascii_compare_refl (a : ascii) : Ascii.compare a a = Eq.
Proof. unfold Ascii.compare. apply N.compare_refl. Qed.

Lemma ascii_compare_lt_trans (a b c : ascii) :
  Ascii.compare a b = Lt -> Ascii.compare b c = Lt -> Ascii.compare a c = Lt.
Proof.
  unfold Ascii.compare. rewrite !N.compare_lt_iff. apply N.lt_trans.
Qed.

Lemma string_compare_refl (s : string) : String.compare s s = Eq.
Proof.
  induction s as [|a s IH]; simpl; [reflexivity|].
  rewrite ascii_compare_refl. exact IH.
Qed.

Lemma string_compare_lt_trans (s1 : string) : forall s2 s3,
  String.compare s1 s2 = Lt -> String.compare s2 s3 = Lt ->
  String.compare s1 s3 = Lt.
Proof.
  induction s1 as [|a s1 IH]; intros [|b s2] [|c s3]; simpl; try congruence.
  destruct (Ascii.compare a b) eqn:Eab; try discriminate;
    destruct (Ascii.compare b c) eqn:Ebc; try discriminate; intros H12 H23.
  - apply Ascii.compare_eq_iff in Eab, Ebc. subst.
    rewrite ascii_compare_refl. eauto.
  - apply Ascii.compare_eq_iff in Eab. subst. rewrite Ebc. reflexivity.
  - apply Ascii.compare_eq_iff in Ebc. subst. rewrite Eab. reflexivity.
  - rewrite (ascii_compare_lt_trans a b c Eab Ebc). reflexivity.
Qed.

Lemma str_le_compare (s1 s2 : string) :
  str_le s1 s2 <-> String.compare s2 s1 <> Lt.
Proof.
  unfold str_le, String.ltb.
  destruct (String.compare s2 s1); split; congruence.
Qed.

Lemma str_le_refl (s : string) : str_le s s.
Proof. apply str_le_compare. rewrite string_compare_refl. discriminate. Qed.

Lemma str_le_trans (s1 s2 s3 : string) :
  str_le s1 s2 -> str_le s2 s3 -> str_le s1 s3.
Proof.
  rewrite !str_le_compare. intros H21 H32 H31.
  destruct (String.compare s3 s2) eqn:E32; [| congruence |].
  - apply String.compare_eq_iff in E32. congruence.
  - rewrite String.compare_antisym in E32.
    destruct (String.compare s2 s3) eqn:E23; try discriminate.
    apply H21. apply (string_compare_lt_trans s2 s3 s1 E23 H31).
Qed.

Lemma str_le_of_not_lt (s1 s2 : string) :
  String.ltb s1 s2 = false -> str_le s2 s1.
Proof. intros H. exact H. Qed.

Lemma str_le_of_lt (s1 s2 : string) :
  String.ltb s1 s2 = true -> str_le s1 s2.
Proof.
  unfold str_le, String.ltb. rewrite (String.compare_antisym s1 s2).
  destruct (String.compare s2 s1); simpl; congruence.
Qed.

(** ** [list.sort]: a sorted, stable permutation *)

Section SortFacts.
Context {A : Type} (key : A -> string).

Lemma insert_sorted_perm (x : A) (l : list A) : insert_sorted key x l ≡ₚ x :: l.
Proof.
  induction l as [|y l IH]; simpl; [reflexivity|].
  destruct (String.ltb (key y) (key x)); [|reflexivity].
  rewrite IH. apply perm_swap.
Qed.

Lemma list_sort_perm (l : list A) : list_sort key l ≡ₚ l.
Proof.
  induction l as [|x l IH]; simpl; [reflexivity|].
  rewrite insert_sorted_perm, IH. reflexivity.
Qed.

Lemma insert_sorted_sorted (x : A) (l : list A) :
  StronglySorted (key_le key) l -> StronglySorted (key_le key) (insert_sorted key x l).
Proof.
  induction l as [|y l IH]; intros Hs; simpl.
  - repeat constructor.
  - apply StronglySorted_inv in Hs as [Hs Hy].
    destruct (String.ltb (key y) (key x)) eqn:E.
    + constructor; [apply IH, Hs|].
      rewrite Forall_forall. intros z Hz.
      rewrite list_elem_of_In, insert_sorted_perm in Hz.
      destruct Hz as [<-|Hz].
      * apply str_le_of_lt. exact E.
      * rewrite Forall_forall in Hy. apply Hy. apply list_elem_of_In. exact Hz.
    + constructor; [constructor; assumption|].
      constructor; [exact E|].
      eapply Forall_impl; [exact Hy|].
      intros z Hz. eapply str_le_trans; [exact E | exact Hz].
Qed.

Lemma list_sort_sorted (l : list A) : StronglySorted (key_le key) (list_sort key l).
Proof.
  induction l as [|x l IH]; simpl; [constructor|].
  apply insert_sorted_sorted, IH.
Qed.

Lemma insert_sorted_filter (k : string) (x : A) (l : list A) :
  filter (fun y => key y = k) (insert_sorted key x l)
  = filter (fun y => key y = k) (x :: l).
Proof.
  induction l as [|y l IH]; simpl; [reflexivity|].
  destruct (String.ltb (key y) (key x)) eqn:E; [|reflexivity].
  rewrite (filter_cons _ y (insert_sorted key x l)), IH.
  rewrite !filter_cons.
  destruct (decide (key y = k)) as [Hy|Hy]; [|reflexivity].
  destruct (decide (key x = k)) as [Hx|Hx]; [|reflexivity].
  exfalso. unfold String.ltb in E. rewrite Hy, Hx, string_compare_refl in E.
  discriminate.
Qed.

Lemma list_sort_stable (k : string) (l : list A) :
  filter (fun y => key y = k) (list_sort key l)
  = filter (fun y => key y = k) l.
Proof.
  induction l as [|x l IH]; simpl; [reflexivity|].
  rewrite insert_sorted_filter, !filter_cons, IH. reflexivity.
Qed.

Lemma sorted_keys (l : list A) :
  StronglySorted (key_le key) l -> StronglySorted str_le (map key l).
Proof.
  induction 1 as [|x l Hs IH Hx]; simpl; constructor; [exact IH|].
  apply Forall_map. exact Hx.
Qed.

End SortFacts.

(** ** The loops of [generate_dataset] *)

(** [for x in xs: acc.append(f(x))] *)
Lemma returns_append_loop {X B} (xs : list X) (f : X -> W B)
    (R : X -> B -> Prop) (w0 : World) (acc : list B) :
  (forall x w, x ∈ xs -> clock_tape w = clock_tape w0 ->
     returns (f x) w (fun b _ => R x b)) ->
  returns (Py.for_each xs (fun x all => b <- f x ;; Py.ret (all ++ [b])) acc) w0
    (fun all _ => exists bs, all = acc ++ bs /\ Forall2 R xs bs).
Proof.
  intros Hf. eapply returns_weaken.
  - apply (returns_for_each xs _
      (fun i all => exists bs, all = acc ++ bs /\ Forall2 R (take i xs) bs)).
    + intros i x all w Hw Hx (bs & -> & HR).
      step; [apply (Hf x w); [eapply list_elem_of_lookup_2; eauto | exact Hw]|].
      intros b w1 _ Hb. apply returns_ret. exists (bs ++ [b]).
      split; [symmetry; apply app_assoc|].
      rewrite (take_S_r _ _ _ Hx). apply Forall2_app; [exact HR|].
      constructor; [exact Hb | constructor].
    + exists []. split; [symmetry; apply app_nil_r | constructor].
  - intros all _ _ (bs & -> & HR). exists bs. rewrite firstn_all in HR. auto.
Qed.

(** [for x in xs: acc.extend(f(x))] *)
Lemma returns_extend_loop {X B} (xs : list X) (f : X -> W (list B))
    (R : X -> list B -> Prop) (w0 : World) (acc : list B) :
  (forall x w, x ∈ xs -> clock_tape w = clock_tape w0 ->
     returns (f x) w (fun b _ => R x b)) ->
  returns (Py.for_each xs (fun x all => bs <- f x ;; Py.ret (all ++ bs)) acc) w0
    (fun all _ => exists bss, all = acc ++ concat bss /\ Forall2 R xs bss).
Proof.
  intros Hf. eapply returns_weaken.
  - apply (returns_for_each xs _
      (fun i all => exists bss,
         all = acc ++ concat bss /\ Forall2 R (take i xs) bss)).
    + intros i x all w Hw Hx (bss & -> & HR).
      step; [apply (Hf x w); [eapply list_elem_of_lookup_2; eauto | exact Hw]|].
      intros bs w1 _ Hb. apply returns_ret. exists (bss ++ [bs]).
      split.
      * rewrite concat_app. simpl. rewrite app_nil_r. symmetry. apply app_assoc.
      * rewrite (take_S_r _ _ _ Hx). apply Forall2_app; [exact HR|].
        constructor; [exact Hb | constructor].
    + exists []. split; [symmetry; apply app_nil_r | constructor].
  - intros all _ _ (bss & -> & HR). exists bss. rewrite firstn_all in HR. auto.
Qed.

Lemma the_cells_length cell : cell ∈ the_cells -> length cell = 5%nat.
Proof.
  unfold the_cells. rewrite !elem_of_cons.
  intros [->|[->|[->|H]]]; try reflexivity. inversion H.
Qed.

Lemma Forall2_const_l {X B} (P : B -> Prop) (xs : list X) (bs : list B) :
  Forall2 (fun _ b => P b) xs bs -> length bs = length xs /\ Forall P bs.
Proof.
  induction 1 as [|x b xs bs Hb _ [IH1 IH2]]; simpl; split; auto.
Qed.

Lemma generate_dataset_returns g w :
  well_built g ->
  returns (generate_dataset g) w
    (fun ds _ => exists normals patterns transfers,
       assembled g (clock_tape w) normals patterns transfers
       /\ ds = list_sort timestamp
                 (normals ++ concat patterns ++ concat transfers)).
Proof.
  intros Hg. unfold generate_dataset.
  step; [apply print_returns|]. intros _ w1 Hc1 _.
  step.
  { apply (returns_append_loop (range 1000) (fun _ => generate_normal_movement g)
             (fun _ m => produces (generate_normal_movement g) m
                         /\ normal_record g (clock_tape w) m)).
    intros _ w' _ Hw'. eapply returns_weaken.
    - apply returns_produces, (generate_normal_movement_returns g Hg).
    - intros m _ _ [Hp Hr]. split; [exact Hp|].
      rewrite Hw', Hc1 in Hr. exact Hr. }
  intros all1 w2 Hc2 (normals & -> & Hnormals).
  apply Forall2_const_l in Hnormals as [Hn1 Hn2]. rewrite length_range in Hn1.
  step; [apply print_returns|]. intros _ w3 Hc3 _.
  step.
  { apply (returns_extend_loop (terrorist_cells g)
             (generate_cell_movement_pattern g)
             (fun cell ms =>
                produces (generate_cell_movement_pattern g cell) ms
                /\ exists locations n h, 0 <= h <= 48 /\
                     Forall (cell_pattern_record g cell locations
                               (clock_tape w n - datetime.timedelta h 0)) ms
                     /\ length locations = 5%nat)).
    intros cell w' Hcell Hw'. rewrite (wb_cells g Hg) in Hcell.
    eapply returns_weaken.
    - apply returns_produces, (generate_cell_movement_pattern_returns g Hg cell w' Hcell).
    - intros ms _ _ [Hp (locations & md & n & h & _ & Hlen & _ & _ & _ & Hh & _ & HP)].
      split; [exact Hp|]. exists locations, n, h. repeat split; try tauto.
      rewrite Hw', Hc3, Hc2, Hc1 in HP. exact HP. }
  intros all2 w4 Hc4 (patterns & -> & Hpatterns).
  step; [apply print_returns|]. intros _ w5 Hc5 _.
  step.
  { apply (returns_extend_loop (range 10)
             (fun _ => generate_device_transfer_pattern g)
             (fun _ ms =>
                produces (generate_device_transfer_pattern g) ms
                /\ exists cell locations device n h, 0 <= h <= 48 /\
                     length cell = 5%nat /\
                     Forall (transfer_record cell locations device
                               (clock_tape w n - datetime.timedelta h 0)) ms)).
    intros _ w' _ Hw'. eapply returns_weaken.
    - apply returns_produces, (generate_device_transfer_pattern_returns g Hg).
    - intros ms _ _ [Hp (cell & locations & device & n & h & Hcell & _ & _ & _
                          & Hh & _ & HP & _)].
      split; [exact Hp|]. exists cell, locations, device, n, h.
      repeat split; try tauto.
      + apply the_cells_length. rewrite <- (wb_cells g Hg). exact Hcell.
      + rewrite Hw', Hc5, Hc4, Hc3, Hc2, Hc1 in HP. exact HP. }
  intros all3 w6 Hc6 (transfers & -> & Htransfers).
  apply Forall2_const_l in Htransfers as [Ht1 Ht2]. rewrite length_range in Ht1.
  apply returns_ret. exists normals, patterns, transfers. split.
  - constructor; assumption.
  - rewrite app_nil_l, <- app_assoc. reflexivity.
Qed.

(** ** ISO timestamps compare as the times they render *)

Lemma string_compare_app (a1 : string) : forall a2 b1 b2,
  String.length a1 = String.length a2 ->
  String.compare (a1 +:+ b1) (a2 +:+ b2)
  = match String.compare a1 a2 with
    | Eq => String.compare b1 b2
    | c => c
    end.
Proof.
  induction a1 as [|x a1 IH]; intros [|y a2] b1 b2 Hlen; simpl in *;
    try discriminate; [reflexivity|].
  destruct (Ascii.compare x y); try reflexivity.
  apply IH. congruence.
Qed.

Lemma string_compare_app_same (a b1 b2 : string) :
  String.compare (a +:+ b1) (a +:+ b2) = String.compare b1 b2.
Proof.
  rewrite string_compare_app by reflexivity.
  rewrite string_compare_refl. reflexivity.
Qed.

Lemma string_length_app (a b : string) :
  String.length (a +:+ b) = (String.length a + String.length b)%nat.
Proof. induction a as [|x a IH]; simpl; [reflexivity|]. rewrite IH. reflexivity. Qed.

Lemma length_zfill (w : nat) : forall n, String.length (zfill w n) = w.
Proof.
  induction w as [|w IH]; intros n; simpl; [reflexivity|].
  rewrite string_length_app, IH. simpl. lia.
Qed.

Lemma digit_compare (d1 d2 : Z) :
  0 <= d1 < 10 -> 0 <= d2 < 10 -> d1 < d2 ->
  Ascii.compare (digit d1) (digit d2) = Lt.
Proof.
  intros H1 H2 Hlt.
  assert (C1 : d1 = 0 \/ d1 = 1 \/ d1 = 2 \/ d1 = 3 \/ d1 = 4 \/ d1 = 5
               \/ d1 = 6 \/ d1 = 7 \/ d1 = 8 \/ d1 = 9) by lia.
  assert (C2 : d2 = 0 \/ d2 = 1 \/ d2 = 2 \/ d2 = 3 \/ d2 = 4 \/ d2 = 5
               \/ d2 = 6 \/ d2 = 7 \/ d2 = 8 \/ d2 = 9) by lia.
  repeat (destruct C1 as [->|C1]); try subst d1;
    repeat (destruct C2 as [->|C2]); try subst d2;
    try lia; reflexivity.
Qed.

Lemma zfill_compare_lt (w : nat) : forall n1 n2,
  0 <= n1 -> n1 < n2 -> n2 < 10 ^ Z.of_nat w ->
  String.compare (zfill w n1) (zfill w n2) = Lt.
Proof.
  induction w as [|w IH]; intros n1 n2 H0 Hlt Hhi.
  - change (10 ^ Z.of_nat 0) with 1 in Hhi. lia.
  - cbn [zfill].
    rewrite string_compare_app by (rewrite !length_zfill; reflexivity).
    rewrite Nat2Z.inj_succ, Z.pow_succ_r in Hhi by lia.
    assert (Hd1 := Z.mod_pos_bound n1 10 eq_refl).
    assert (Hd2 := Z.mod_pos_bound n2 10 eq_refl).
    assert (Hq1 := Z.div_mod n1 10 ltac:(lia)).
    assert (Hq2 := Z.div_mod n2 10 ltac:(lia)).
    destruct (Z.eq_dec (n1 / 10) (n2 / 10)) as [Heq|Hne].
    + rewrite Heq, string_compare_refl. cbn [String.compare].
      rewrite digit_compare by lia. reflexivity.
    + rewrite IH; [reflexivity | lia | lia | lia].
Qed.

Lemma ndigits_fuel_le (fuel : nat) : forall (w : nat) n,
  (1 <= w)%nat -> 0 <= n < 10 ^ Z.of_nat w -> (ndigits_fuel fuel n <= w)%nat.
Proof.
  induction fuel as [|fuel IH]; intros w n Hw Hn; simpl; [exact Hw|].
  destruct (n <? 10) eqn:E; [exact Hw|].
  apply Z.ltb_ge in E.
  destruct w as [|w]; [lia|].
  destruct w as [|w]; [change (10 ^ Z.of_nat 1) with 10 in Hn; lia|].
  apply le_n_S. apply IH; [lia|].
  rewrite (Nat2Z.inj_succ (S w)), Z.pow_succ_r in Hn by lia.
  assert (Hq := Z.div_mod n 10 ltac:(lia)).
  assert (Hd := Z.mod_pos_bound n 10 eq_refl).
  lia.
Qed.

Lemma format_d_zfill (w : nat) (n : Z) :
  (1 <= w)%nat -> 0 <= n < 10 ^ Z.of_nat w -> format_d w n = zfill w n.
Proof.
  intros Hw Hn. unfold format_d, ndigits.
  rewrite Nat.max_l; [reflexivity|]. apply ndigits_fuel_le; assumption.
Qed.

(** *** The calendar *)

Lemma all_from_spec (ok : Z -> bool) (fuel : nat) : forall n,
  all_from fuel n ok = true ->
  forall k, n <= k < n + Z.of_nat fuel -> ok k = true.
Proof.
  induction fuel as [|fuel IH]; intros n Hall k Hk; [lia|].
  cbn [all_from] in Hall. apply andb_true_iff in Hall as [Hn Hrest].
  destruct (Z.eq_dec k n) as [->|Hne]; [exact Hn|].
  apply (IH (n + 1) Hrest). lia.
Qed.

(** The 146097 days of the first 400 years, checked one by one. *)
Lemma cycle_checked : all_from 146097 1 date_step_ok = true.
Proof. vm_compute. reflexivity. Qed.

Lemma ord2ymd_period (k q : Z) :
  1 <= k -> 0 <= q ->
  datetime.ord2ymd (k + datetime.DI400Y * q) = add_years q (datetime.ord2ymd k).
Proof.
  intros Hk Hq. unfold datetime.ord2ymd.
  replace (k + datetime.DI400Y * q - 1) with (k - 1 + q * datetime.DI400Y) by lia.
  rewrite Z.div_add, Z.mod_add by discriminate.
  cbv zeta.
  set (n := (k - 1) mod datetime.DI400Y).
  set (n100 := n / datetime.DI100Y).
  set (r100 := n mod datetime.DI100Y).
  set (n4 := r100 / datetime.DI4Y).
  set (r4 := r100 mod datetime.DI4Y).
  set (n1 := r4 / 365).
  set (r1 := r4 mod 365).
  destruct ((n1 =? 4) || (n100 =? 4)).
  - unfold add_years. f_equal. f_equal. lia.
  - set (leapyear := (n1 =? 3) && (negb (n4 =? 24) || (n100 =? 3))).
    destruct (r1 <? _); unfold add_years; f_equal; f_equal; lia.
Qed.

Lemma date_step (n : Z) :
  1 <= n ->
  exists y m d, datetime.ord2ymd n = (y, m, d)
    /\ 1 <= y /\ 1 <= m <= 12 /\ 1 <= d <= 31
    /\ datecode (y, m, d) < datecode (datetime.ord2ymd (n + 1)).
Proof.
  intros Hn.
  set (q := (n - 1) / datetime.DI400Y).
  set (k := (n - 1) mod datetime.DI400Y + 1).
  assert (Hk : 1 <= k < 1 + Z.of_nat 146097).
  { assert (H := Z.mod_pos_bound (n - 1) datetime.DI400Y eq_refl).
    replace (Z.of_nat 146097) with datetime.DI400Y by (vm_compute; reflexivity).
    unfold k. lia. }
  assert (Hq : 0 <= q).
  { apply Z.div_pos; [lia | reflexivity]. }
  assert (Hnk : n = k + datetime.DI400Y * q).
  { assert (H := Z.div_mod (n - 1) datetime.DI400Y ltac:(discriminate)).
    unfold k, q. lia. }
  assert (Hok := all_from_spec _ _ _ cycle_checked k Hk).
  unfold date_step_ok in Hok.
  rewrite Hnk. replace (k + datetime.DI400Y * q + 1)
    with (k + 1 + datetime.DI400Y * q) by lia.
  rewrite !ord2ymd_period by lia.
  destruct (datetime.ord2ymd k) as [[y m] d].
  destruct (datetime.ord2ymd (k + 1)) as [[y' m'] d'].
  rewrite !andb_true_iff in Hok.
  destruct Hok as [[[[[[H1 H2] H3] H4] H5] H6] H7].
  apply Z.leb_le in H1, H2, H3, H4, H5, H6. apply Z.ltb_lt in H7.
  unfold add_years, datecode in *.
  exists (y + 400 * q), m, d. repeat split; lia.
Qed.

Lemma datecode_increasing (n1 n2 : Z) :
  1 <= n1 -> n1 < n2 ->
  datecode (datetime.ord2ymd n1) < datecode (datetime.ord2ymd n2).
Proof.
  intros H1 Hlt.
  replace n2 with (n1 + 1 + (n2 - n1 - 1)) by lia.
  assert (Hd : 0 <= n2 - n1 - 1) by lia.
  revert Hd. generalize (n2 - n1 - 1). clear n2 Hlt.
  apply natlike_ind.
  - rewrite Z.add_0_r.
    destruct (date_step n1 H1) as (y & m & d & -> & _ & _ & _ & H). exact H.
  - intros x Hx IH.
    destruct (date_step (n1 + 1 + x) ltac:(lia)) as (y & m & d & E & _ & _ & _ & H).
    rewrite E in IH. replace (n1 + 1 + Z.succ x) with (n1 + 1 + x + 1) by lia.
    lia.
Qed.

Lemma ord2ymd_range (n : Z) :
  1 <= n <= MAXORDINAL ->
  exists y m d, datetime.ord2ymd n = (y, m, d)
    /\ 1 <= y <= 9999 /\ 1 <= m <= 12 /\ 1 <= d <= 31.
Proof.
  intros [Hlo Hhi].
  destruct (date_step n Hlo) as (y & m & d & E & Hy & Hm & Hd & _).
  exists y, m, d.
  split; [exact E|]. split; [|split; assumption]. split; [exact Hy|].
  assert (Hlast : datetime.ord2ymd MAXORDINAL = (9999, 12, 31))
    by (vm_compute; reflexivity).
  destruct (Z.eq_dec n MAXORDINAL) as [->|Hne].
  - rewrite Hlast in E. injection E as <- <- <-. lia.
  - assert (H := datecode_increasing n MAXORDINAL Hlo ltac:(lia)).
    rewrite E, Hlast in H. unfold datecode in H. lia.
Qed.

(** *** The rendering *)

Ltac field_lt H :=
  let Hlt := fresh "Hlt" in
  destruct H as [Hlt | [-> H]];
  [ rewrite string_compare_app by (rewrite !length_zfill; reflexivity);
    rewrite zfill_compare_lt by (simpl; lia); reflexivity
  | rewrite string_compare_app_same ].

Lemma iso_fixed_lt y1 m1 d1 hh1 mi1 ss1 us1 y2 m2 d2 hh2 mi2 ss2 us2 :
  0 <= y1 < 10000 -> 0 <= m1 < 100 -> 0 <= d1 < 100 -> 0 <= hh1 < 100 ->
  0 <= mi1 < 100 -> 0 <= ss1 < 100 -> 0 <= us1 < 1000000 ->
  0 <= y2 < 10000 -> 0 <= m2 < 100 -> 0 <= d2 < 100 -> 0 <= hh2 < 100 ->
  0 <= mi2 < 100 -> 0 <= ss2 < 100 -> 0 <= us2 < 1000000 ->
  (y1 < y2 \/ y1 = y2 /\
   (m1 < m2 \/ m1 = m2 /\
    (d1 < d2 \/ d1 = d2 /\
     (hh1 < hh2 \/ hh1 = hh2 /\
      (mi1 < mi2 \/ mi1 = mi2 /\
       (ss1 < ss2 \/ ss1 = ss2 /\ us1 < us2)))))) ->
  String.compare (iso_fixed y1 m1 d1 hh1 mi1 ss1 us1)
                 (iso_fixed y2 m2 d2 hh2 mi2 ss2 us2) = Lt.
Proof.
  intros Hy1 Hm1 Hd1 Hh1 Hmi1 Hs1 Hu1 Hy2 Hm2 Hd2 Hh2 Hmi2 Hs2 Hu2 H.
  unfold iso_fixed.
  field_lt H. rewrite (string_compare_app_same "-").
  field_lt H. rewrite (string_compare_app_same "-").
  field_lt H. rewrite (string_compare_app_same "T").
  field_lt H. rewrite (string_compare_app_same ":").
  field_lt H. rewrite (string_compare_app_same ":").
  field_lt H.
  destruct (us2 =? 0) eqn:E2; [apply Z.eqb_eq in E2; lia|].
  destruct (us1 =? 0) eqn:E1; [reflexivity|].
  rewrite (string_compare_app_same ".").
  apply zfill_compare_lt; simpl; lia.
Qed.

Lemma isoformat_fixed (t : datetime.t) :
  representable t ->
  exists y m d,
    datetime.ord2ymd (t / datetime.US_PER_DAY + 1) = (y, m, d)
    /\ 1 <= y <= 9999 /\ 1 <= m <= 12 /\ 1 <= d <= 31
    /\ datetime.isoformat t
       = iso_fixed y m d
           (t mod datetime.US_PER_DAY / datetime.US_PER_SECOND / 3600)
           (t mod datetime.US_PER_DAY / datetime.US_PER_SECOND / 60 mod 60)
           (t mod datetime.US_PER_DAY / datetime.US_PER_SECOND mod 60)
           (t mod datetime.US_PER_DAY mod datetime.US_PER_SECOND).
Proof.
  intros [Hlo Hhi].
  assert (Hday : 1 <= t / datetime.US_PER_DAY + 1 <= MAXORDINAL).
  { split.
    - assert (0 <= t / datetime.US_PER_DAY) by (apply Z.div_pos; [lia | reflexivity]).
      lia.
    - assert (t / datetime.US_PER_DAY < MAXORDINAL); [|lia].
      apply Z.div_lt_upper_bound; [reflexivity | lia]. }
  destruct (ord2ymd_range _ Hday) as (y & m & d & E & Hy & Hm & Hd).
  exists y, m, d. repeat split; try lia; try exact E.
  unfold datetime.isoformat. rewrite E.
  set (r := t mod datetime.US_PER_DAY).
  assert (Hr : 0 <= r < datetime.US_PER_DAY) by (apply Z.mod_pos_bound; reflexivity).
  set (s := r / datetime.US_PER_SECOND).
  assert (Hs : 0 <= s < 86400).
  { split.
    - apply Z.div_pos; [lia | reflexivity].
    - apply Z.div_lt_upper_bound; [reflexivity|].
      unfold datetime.US_PER_DAY in Hr. lia. }
  assert (Hus : 0 <= r mod datetime.US_PER_SECOND < 1000000)
    by (apply Z.mod_pos_bound; reflexivity).
  assert (Hss : 0 <= s mod 60 < 60) by (apply Z.mod_pos_bound; reflexivity).
  assert (Hmi : 0 <= s / 60 mod 60 < 60) by (apply Z.mod_pos_bound; reflexivity).
  assert (Hhh : 0 <= s / 3600 < 24).
  { split; [apply Z.div_pos; lia | apply Z.div_lt_upper_bound; lia]. }
  unfold iso_fixed.
  rewrite (format_d_zfill 4 y), (format_d_zfill 2 m), (format_d_zfill 2 d),
    (format_d_zfill 2 (s / 3600)), (format_d_zfill 2 (s / 60 mod 60)),
    (format_d_zfill 2 (s mod 60)) by (simpl; lia).
  destruct (r mod datetime.US_PER_SECOND =? 0) eqn:E0; [reflexivity|].
  rewrite (format_d_zfill 6) by (simpl; lia). reflexivity.
Qed.

Lemma isoformat_lt (t1 t2 : datetime.t) :
  representable t1 -> representable t2 -> t1 < t2 ->
  String.compare (datetime.isoformat t1) (datetime.isoformat t2) = Lt.
Proof.
  intros Hr1 Hr2 Hlt.
  destruct (isoformat_fixed t1 Hr1) as (y1 & m1 & d1 & E1 & Hy1 & Hm1 & Hd1 & ->).
  destruct (isoformat_fixed t2 Hr2) as (y2 & m2 & d2 & E2 & Hy2 & Hm2 & Hd2 & ->).
  destruct Hr1 as [Hlo1 _]. destruct Hr2 as [Hlo2 _].
  assert (HD : 0 < datetime.US_PER_DAY) by reflexivity.
  assert (HS : 0 < datetime.US_PER_SECOND) by reflexivity.
  assert (Hq1 := Z.div_mod t1 datetime.US_PER_DAY ltac:(lia)).
  assert (Hq2 := Z.div_mod t2 datetime.US_PER_DAY ltac:(lia)).
  set (r1 := t1 mod datetime.US_PER_DAY) in *.
  set (r2 := t2 mod datetime.US_PER_DAY) in *.
  assert (Hr1 : 0 <= r1 < datetime.US_PER_DAY) by (apply Z.mod_pos_bound; lia).
  assert (Hr2 : 0 <= r2 < datetime.US_PER_DAY) by (apply Z.mod_pos_bound; lia).
  assert (Hs1 := Z.div_mod r1 datetime.US_PER_SECOND ltac:(lia)).
  assert (Hs2 := Z.div_mod r2 datetime.US_PER_SECOND ltac:(lia)).
  set (s1 := r1 / datetime.US_PER_SECOND) in *.
  set (s2 := r2 / datetime.US_PER_SECOND) in *.
  assert (Hu1 : 0 <= r1 mod datetime.US_PER_SECOND < datetime.US_PER_SECOND)
    by (apply Z.mod_pos_bound; lia).
  assert (Hu2 : 0 <= r2 mod datetime.US_PER_SECOND < datetime.US_PER_SECOND)
    by (apply Z.mod_pos_bound; lia).
  set (u1 := r1 mod datetime.US_PER_SECOND) in *.
  set (u2 := r2 mod datetime.US_PER_SECOND) in *.
  assert (Hb1 : 0 <= s1 < 86400).
  { unfold datetime.US_PER_DAY, datetime.US_PER_SECOND in *. lia. }
  assert (Hb2 : 0 <= s2 < 86400).
  { unfold datetime.US_PER_DAY, datetime.US_PER_SECOND in *. lia. }
  assert (Hm1' := Z.div_mod s1 60 ltac:(lia)).
  assert (Hm2' := Z.div_mod s2 60 ltac:(lia)).
  assert (Hx1 := Z.mod_pos_bound s1 60 eq_refl).
  assert (Hx2 := Z.mod_pos_bound s2 60 eq_refl).
  assert (Hh1' := Z.div_mod (s1 / 60) 60 ltac:(lia)).
  assert (Hh2' := Z.div_mod (s2 / 60) 60 ltac:(lia)).
  assert (Hz1 := Z.mod_pos_bound (s1 / 60) 60 eq_refl).
  assert (Hz2 := Z.mod_pos_bound (s2 / 60) 60 eq_refl).
  replace (s1 / 3600) with (s1 / 60 / 60)
    by (rewrite Z.div_div by lia; reflexivity).
  replace (s2 / 3600) with (s2 / 60 / 60)
    by (rewrite Z.div_div by lia; reflexivity).
  set (ss1 := s1 mod 60) in *. set (ss2 := s2 mod 60) in *.
  set (mi1 := s1 / 60 mod 60) in *. set (mi2 := s2 / 60 mod 60) in *.
  set (hh1 := s1 / 60 / 60) in *. set (hh2 := s2 / 60 / 60) in *.
  set (q1 := t1 / datetime.US_PER_DAY) in *.
  set (q2 := t2 / datetime.US_PER_DAY) in *.
  assert (Hq : 0 <= q1 <= q2).
  { split; [apply Z.div_pos; lia | apply Z.div_le_mono; lia]. }
  assert (Hcode : q1 < q2 ->
            (y1 * 100 + m1) * 100 + d1 < (y2 * 100 + m2) * 100 + d2).
  { intros Hqq.
    assert (H := datecode_increasing (q1 + 1) (q2 + 1) ltac:(lia) ltac:(lia)).
    rewrite E1, E2 in H. exact H. }
  assert (Hsame : q1 = q2 -> y1 = y2 /\ m1 = m2 /\ d1 = d2).
  { intros Hqq. rewrite Hqq in E1. rewrite E1 in E2.
    injection E2 as -> -> ->. auto. }
  unfold datetime.US_PER_DAY, datetime.US_PER_SECOND in *.
  apply iso_fixed_lt; lia.
Qed.

(** Timestamps in string order are in time order. *)
Lemma isoformat_le_inv (t1 t2 : datetime.t) :
  representable t1 -> representable t2 ->
  str_le (datetime.isoformat t1) (datetime.isoformat t2) -> t1 <= t2.
Proof.
  intros Hr1 Hr2 Hle. apply str_le_compare in Hle.
  destruct (Z_lt_le_dec t2 t1) as [Hlt|Hge]; [|exact Hge].
  exfalso. apply Hle. apply isoformat_lt; assumption.
Qed.

(** ** A generator and a process state to run the code on *)

Lemma generator0_constructed : constructed generator0.
Proof.
  exists "http://localhost:5001", world0,
    (snd (init "http://localhost:5001" world0)).
  vm_compute. reflexivity.
Qed.

Lemma cell0_defined : cell0 ∈ terrorist_cells generator0.
Proof. vm_compute. apply list_elem_of_here. Qed.

Lemma returns_at {A} (m : W A) w (Q : A -> World -> Prop) a w' :
  returns m w Q -> m w = (inr a, w') -> Q a w'.
Proof.
  intros (a0 & w0 & Hm & _ & HQ) Hrun. congruence.
Qed.

Lemma constructed_cells g : constructed g -> terrorist_cells g = the_cells.
Proof. intros Hc. apply (wb_cells g (constructed_well_built g Hc)). Qed.

(** ** The cell movement pattern *)

(** C3: for a cell defined at construction, the cell pattern has
    2 x 5 x (the number of devices assigned, summed over the members)
    records, and every location of a record is one of the 5 locations of
    the cell. *)
Theorem cell_pattern_count g cell w :
  constructed g -> cell ∈ terrorist_cells g ->
  exists locations member_devices movements w',
    cell_locations g !! cell = Some locations
    /\ length locations = 5%nat
    /\ fst (cell_assignment g cell w) = inr member_devices
    /\ generate_cell_movement_pattern g cell w = (inr movements, w')
    /\ length movements = (2 * 5 * assigned_count member_devices cell)%nat
    /\ Forall (fun m => location_id (loc m) ∈ locations) movements.
Proof.
  intros Hc Hcell.
  assert (Hg := constructed_well_built g Hc).
  rewrite (wb_cells g Hg) in Hcell.
  destruct (generate_cell_movement_pattern_returns g Hg cell w Hcell)
    as (movements & w' & Hrun & _ & locations & md & n & h & Hlk & Hlen & _
        & Hassign & _ & _ & Hcount & HP).
  exists locations, md, movements, w'. repeat split; try assumption.
  - rewrite Hcount, Hlen. reflexivity.
  - eapply Forall_impl; [exact HP|]. intros m Hm. apply (cr_location _ _ _ _ _ Hm).
Qed.

Lemma cell_pattern_count_witness :
  exists locations member_devices movements w',
    cell_locations generator0 !! cell0 = Some locations
    /\ length locations = 5%nat
    /\ fst (cell_assignment generator0 cell0 world0) = inr member_devices
    /\ generate_cell_movement_pattern generator0 cell0 world0
       = (inr movements, w')
    /\ length movements = (2 * 5 * assigned_count member_devices cell0)%nat
    /\ Forall (fun m => location_id (loc m) ∈ locations) movements.
Proof.
  apply (cell_pattern_count generator0 cell0 world0).
  - exists "http://localhost:5001", world0,
      (snd (init "http://localhost:5001" world0)).
    vm_compute. reflexivity.
  - vm_compute. apply list_elem_of_here.
Defined.

(** ** The device transfer pattern *)

(** C4: a transfer pattern has 2 x (cell size) = 10 records of one device;
    the records at 2 i and 2 i + 1 go from member i of the chosen cell to
    member (i + 1) mod (cell size), both at one location of the cell, both
    walking with confidence 0.9. *)
Theorem transfer_pattern_shape g w :
  constructed g ->
  exists cell locations device movements w',
    generate_device_transfer_pattern g w = (inr movements, w')
    /\ cell ∈ terrorist_cells g
    /\ cell_locations g !! cell = Some locations
    /\ length movements = (2 * length cell)%nat
    /\ length movements = 10%nat
    /\ Forall (fun m => device_id m = device) movements
    /\ forall i, (i < length cell)%nat ->
         exists r1 r2,
           movements !! (2 * i)%nat = Some r1
           /\ movements !! (2 * i + 1)%nat = Some r2
           /\ cell !! i = Some (owner_id r1)
           /\ cell !! ((i + 1) mod length cell)%nat = Some (owner_id r2)
           /\ location_id (loc r1) ∈ locations
           /\ location_id (loc r2) = location_id (loc r1)
           /\ movement_type r1 = "walking" /\ movement_type r2 = "walking"
           /\ confidence_level r1 = float.lit (9 # 10)
           /\ confidence_level r2 = float.lit (9 # 10).
Proof.
  intros Hc. assert (Hg := constructed_well_built g Hc).
  destruct (generate_device_transfer_pattern_returns g Hg w)
    as (movements & w' & Hrun & _ & cell & locations & device & n & h & Hcell
        & Hlk & _ & _ & _ & Hcount & HP & Hpairs).
  assert (Hlen : length cell = 5%nat).
  { apply the_cells_length. rewrite <- (wb_cells g Hg). exact Hcell. }
  exists cell, locations, device, movements, w'.
  repeat split; try assumption.
  - rewrite Hcount, Hlen. reflexivity.
  - eapply Forall_impl; [exact HP|]. intros m Hm. apply (tr_device _ _ _ _ _ Hm).
  - intros i Hi. destruct (Hpairs i Hi) as (r1 & r2 & H1 & H2 & Ho1 & Ho2 & Hl).
    rewrite Forall_forall in HP.
    assert (HP1 := HP r1 (list_elem_of_lookup_2 _ _ _ H1)).
    assert (HP2 := HP r2 (list_elem_of_lookup_2 _ _ _ H2)).
    exists r1, r2. repeat split; try assumption.
    + apply (tr_location _ _ _ _ _ HP1).
    + apply (tr_type _ _ _ _ _ HP1).
    + apply (tr_type _ _ _ _ _ HP2).
    + apply (tr_confidence _ _ _ _ _ HP1).
    + apply (tr_confidence _ _ _ _ _ HP2).
Qed.

Lemma transfer_pattern_shape_witness :
  exists cell locations device movements w',
    generate_device_transfer_pattern generator0 world0 = (inr movements, w')
    /\ cell ∈ terrorist_cells generator0
    /\ cell_locations generator0 !! cell = Some locations
    /\ length movements = (2 * length cell)%nat
    /\ length movements = 10%nat
    /\ Forall (fun m => device_id m = device) movements
    /\ forall i, (i < length cell)%nat ->
         exists r1 r2,
           movements !! (2 * i)%nat = Some r1
           /\ movements !! (2 * i + 1)%nat = Some r2
           /\ cell !! i = Some (owner_id r1)
           /\ cell !! ((i + 1) mod length cell)%nat = Some (owner_id r2)
           /\ location_id (loc r1) ∈ locations
           /\ location_id (loc r2) = location_id (loc r1)
           /\ movement_type r1 = "walking" /\ movement_type r2 = "walking"
           /\ confidence_level r1 = float.lit (9 # 10)
           /\ confidence_level r2 = float.lit (9 # 10).
Proof.
  apply (transfer_pattern_shape generator0 world0).
  exists "http://localhost:5001", world0,
    (snd (init "http://localhost:5001" world0)).
  vm_compute. reflexivity.
Defined.

(** ** Confidence levels *)

Lemma produced_cell_defined g cell ms :
  well_built g -> produces (generate_cell_movement_pattern g cell) ms ->
  cell ∈ the_cells.
Proof.
  intros Hg (w & w' & Hrun).
  destruct (decide (cell ∈ the_cells)) as [Hin|Hout]; [exact Hin|].
  rewrite (generate_cell_movement_pattern_missing g cell w
             (wb_no_other_key g Hg cell Hout)) in Hrun.
  discriminate.
Qed.

Lemma two_decimals_bounds (lo : Z) (a c : Q) :
  0 <= lo -> float.lit (lo # 100) = a -> two_decimals lo 100 c ->
  (a <= c)%Q /\ (c <= 1)%Q.
Proof.
  intros Hlo <- H. destruct (two_decimals_range lo 100 c Hlo H) as [H1 H2].
  split; [exact H1|]. eapply Qle_trans; [exact H2|]. vm_compute. discriminate.
Qed.

(** C5: the confidence level of a record of a normal movement lies in
    [0.70, 1.00], that of a record of a cell pattern in [0.80, 1.00], and
    that of a record of a transfer pattern is 0.90.  The bounds are the
    floats of the literals, the order is that of the floats, and the
    levels in the two ranges are floats of decimals with two digits. *)
Theorem confidence_ranges g :
  constructed g ->
  (forall m, produces (generate_normal_movement g) m ->
     (float.lit (7 # 10) <= confidence_level m)%Q
     /\ (confidence_level m <= 1)%Q
     /\ two_decimals 70 100 (confidence_level m))
  /\ (forall cell ms m,
        produces (generate_cell_movement_pattern g cell) ms -> m ∈ ms ->
        (float.lit (8 # 10) <= confidence_level m)%Q
        /\ (confidence_level m <= 1)%Q
        /\ two_decimals 80 100 (confidence_level m))
  /\ (forall ms m,
        produces (generate_device_transfer_pattern g) ms -> m ∈ ms ->
        confidence_level m = float.lit (9 # 10)).
Proof.
  intros Hc. assert (Hg := constructed_well_built g Hc).
  split; [|split].
  - intros m (w & w' & Hrun).
    assert (H : two_decimals 70 100 (confidence_level m)).
    { apply (nr_confidence g (clock_tape w) m).
      apply (returns_at _ _ _ _ _ (generate_normal_movement_returns g Hg w)
               Hrun). }
    destruct (two_decimals_bounds 70 (float.lit (7 # 10)) _
                ltac:(lia) ltac:(vm_compute; reflexivity) H) as [H1 H2].
    auto.
  - intros cell ms m H Hm.
    assert (Hcell := produced_cell_defined g cell ms Hg H).
    destruct H as (w & w' & Hrun).
    destruct (returns_at _ _ _ _ _
                (generate_cell_movement_pattern_returns g Hg cell w Hcell) Hrun)
      as (locations & md & n & h & _ & _ & _ & _ & _ & _ & _ & HP).
    rewrite Forall_forall in HP.
    assert (H := cr_confidence _ _ _ _ _ (HP m Hm)).
    destruct (two_decimals_bounds 80 (float.lit (8 # 10)) _
                ltac:(lia) ltac:(vm_compute; reflexivity) H) as [H1 H2].
    auto.
  - intros ms m (w & w' & Hrun) Hm.
    destruct (returns_at _ _ _ _ _
                (generate_device_transfer_pattern_returns g Hg w) Hrun)
      as (cell & locations & device & n & h & _ & _ & _ & _ & _ & _ & HP & _).
    rewrite Forall_forall in HP. apply (tr_confidence _ _ _ _ _ (HP m Hm)).
Qed.

Lemma confidence_ranges_witness :
  ((float.lit (7 # 10) <= confidence_level normal_low)%Q
   /\ (confidence_level normal_low <= 1)%Q
   /\ two_decimals 70 100 (confidence_level normal_low))
  /\ Forall (fun m => (float.lit (8 # 10) <= confidence_level m)%Q
                      /\ (confidence_level m <= 1)%Q
                      /\ two_decimals 80 100 (confidence_level m))
       pattern_high
  /\ Forall (fun m => confidence_level m = float.lit (9 # 10)) transfer_high.
Proof.
  destruct (confidence_ranges generator0) as (Hn & Hp & Ht).
  { exists "http://localhost:5001", world0,
      (snd (init "http://localhost:5001" world0)).
    vm_compute. reflexivity. }
  split; [|split].
  - apply Hn.
    exists world_low, (snd (generate_normal_movement generator0 world_low)).
    vm_compute. reflexivity.
  - apply Forall_forall. intros m Hm. apply (Hp cell0 pattern_high m); [|exact Hm].
    exists world_high,
      (snd (generate_cell_movement_pattern generator0 cell0 world_high)).
    vm_compute. reflexivity.
  - apply Forall_forall. intros m Hm. apply (Ht transfer_high m); [|exact Hm].
    exists world_high,
      (snd (generate_device_transfer_pattern generator0 world_high)).
    vm_compute. reflexivity.
Defined.

(** On these draws, and for the literals and the product of [time.sleep],
    the floats of the embedding are those of the library's IEEE 754. *)
Lemma floats_as_specified :
  SF2Q (ieee_uniform 7 150119987579017)
  = float.add (float.lit (7 # 10))
      (float.mul (float.sub 1 (float.lit (7 # 10)))
         (150119987579017 # 2 ^ 53))
  /\ SF2Q (ieee_uniform 8 225179981368523)
     = float.add (float.lit (8 # 10))
         (float.mul (float.sub 1 (float.lit (8 # 10)))
            (225179981368523 # 2 ^ 53))
  /\ SF2Q (SFdiv 53 1024 (SFint 9) (SFint 10)) = float.lit (9 # 10)
  /\ SF2Q (SFdiv 53 1024 (SFint 81) (SFint 100)) = float.lit (81 # 100)
  /\ SF2Q (SFmul 53 1024 (SFdiv 53 1024 (SFint 1) (SFint 10))
             (SFint 1000000000))
     = float.mul default_delay 1000000000.
Proof. vm_compute. repeat split. Qed.

(** On these draws the floats decide the level: exact arithmetic would
    round 0.7 + 0.3 u to 0.71 and 0.8 + 0.2 u to 0.80. *)
Lemma confidence_next_to_a_boundary :
  confidence_level normal_low = float.lit (70 # 100)
  /\ round_half_even
       (((7 # 10) + (1 - (7 # 10)) * (150119987579017 # 2 ^ 53)) * 100) = 71
  /\ option_map confidence_level (pattern_high !! 0%nat)
     = Some (float.lit (81 # 100))
  /\ round_half_even
       (((8 # 10) + (1 - (8 # 10)) * (225179981368523 # 2 ^ 53)) * 100) = 80.
Proof. vm_compute. repeat split. Qed.

(** ** The cell pattern is defined on the cells of the generator only *)

(** C8: the cells of the generator are exactly the keys of its
    cell-to-locations mapping; on a list of owners that is none of them the
    lookup raises KeyError with nothing drawn, read or recorded, and on a
    cell of the generator the call returns its records. *)
Theorem cell_pattern_partial g cell w :
  constructed g ->
  (cell ∈ terrorist_cells g <-> is_Some (cell_locations g !! cell))
  /\ (cell ∉ terrorist_cells g ->
      generate_cell_movement_pattern g cell w = (inl (KeyError "key"), w))
  /\ (cell ∈ terrorist_cells g ->
      exists movements w',
        generate_cell_movement_pattern g cell w = (inr movements, w')).
Proof.
  intros Hc. assert (Hg := constructed_well_built g Hc).
  rewrite (wb_cells g Hg). split; [|split].
  - split.
    + intros Hin.
      destruct (wb_cell_locations g Hg cell Hin) as (locs & Hlk & _).
      rewrite Hlk. eauto.
    + intros [locs Hlk].
      destruct (decide (cell ∈ the_cells)) as [Hin|Hout]; [exact Hin|].
      rewrite (wb_no_other_key g Hg cell Hout) in Hlk. discriminate.
  - intros Hout. apply generate_cell_movement_pattern_missing.
    apply (wb_no_other_key g Hg cell Hout).
  - intros Hin.
    destruct (generate_cell_movement_pattern_returns g Hg cell w Hin)
      as (movements & w' & Hrun & _).
    eauto.
Qed.

Lemma cell_pattern_partial_witness :
  (cell0 ∈ terrorist_cells generator0
   <-> is_Some (cell_locations generator0 !! cell0))
  /\ (cell0 ∉ terrorist_cells generator0 ->
      generate_cell_movement_pattern generator0 cell0 world0
      = (inl (KeyError "key"), world0))
  /\ (cell0 ∈ terrorist_cells generator0 ->
      exists movements w',
        generate_cell_movement_pattern generator0 cell0 world0
        = (inr movements, w')).
Proof.
  apply (cell_pattern_partial generator0 cell0 world0).
  exists "http://localhost:5001", world0,
    (snd (init "http://localhost:5001" world0)).
  vm_compute. reflexivity.
Defined.

(** ** The dataset *)

Lemma normal_record_timed g clock m :
  clock_in_range clock -> normal_record g clock m -> timed m.
Proof.
  intros Hclk Hm. destruct (nr_time g clock m Hm) as (n & h & Hh & Hts).
  exists (clock n - datetime.timedelta h 0). split; [exact Hts|].
  specialize (Hclk n). unfold representable, datetime.timedelta in *.
  unfold MAXORDINAL, datetime.US_PER_DAY, datetime.US_PER_SECOND in *. lia.
Qed.

Lemma cell_pattern_record_timed g cell locations clock n h m :
  clock_in_range clock -> 0 <= h <= 48 -> length locations = 5%nat ->
  cell_pattern_record g cell locations (clock n - datetime.timedelta h 0) m ->
  timed m.
Proof.
  intros Hclk Hh Hlen Hm.
  destruct (cr_time _ _ _ _ _ Hm) as (i & mm & Hi & Hmm & Hts).
  eexists. split; [exact Hts|].
  specialize (Hclk n). unfold representable, datetime.timedelta in *.
  unfold MAXORDINAL, datetime.US_PER_DAY, datetime.US_PER_SECOND in *. lia.
Qed.

Lemma transfer_record_timed cell locations device clock n h m :
  clock_in_range clock -> 0 <= h <= 48 -> length cell = 5%nat ->
  transfer_record cell locations device (clock n - datetime.timedelta h 0) m ->
  timed m.
Proof.
  intros Hclk Hh Hlen Hm.
  destruct (tr_time _ _ _ _ _ Hm) as (i & mm & Hi & Hmm & Hts).
  eexists. split; [exact Hts|].
  specialize (Hclk n). unfold representable, datetime.timedelta in *.
  unfold MAXORDINAL, datetime.US_PER_DAY, datetime.US_PER_SECOND in *. lia.
Qed.

Lemma assembled_timed g clock normals patterns transfers :
  clock_in_range clock -> assembled g clock normals patterns transfers ->
  Forall timed (normals ++ concat patterns ++ concat transfers).
Proof.
  intros Hclk Has. rewrite !Forall_app. repeat split.
  - eapply Forall_impl; [apply (as_normals _ _ _ _ _ Has)|].
    intros m [_ Hm]. eapply normal_record_timed; eassumption.
  - apply Forall_concat.
    assert (H := as_patterns _ _ _ _ _ Has). clear Has.
    induction H as [|cell ms cells mss [_ (locs & n & h & Hh & HP & Hlen)] _ IH];
      [constructor|].
    constructor; [|exact IH].
    eapply Forall_impl; [exact HP|]. intros m Hm.
    eapply cell_pattern_record_timed; eassumption.
  - apply Forall_concat.
    eapply Forall_impl; [apply (as_transfers _ _ _ _ _ Has)|].
    intros ms [_ (cell & locs & device & n & h & Hh & Hlen & HP)].
    eapply Forall_impl; [exact HP|]. intros m Hm.
    eapply transfer_record_timed; eassumption.
Qed.

(** Records in the order of their timestamps are in the order of the times
    the timestamps render. *)
Lemma sorted_times (ds : list movement) :
  Forall timed ds -> StronglySorted str_le (map timestamp ds) ->
  exists times, map timestamp ds = map datetime.isoformat times
                /\ Forall representable times
                /\ StronglySorted Z.le times.
Proof.
  induction ds as [|m ds IH]; intros Ht Hs.
  - exists []. repeat split; constructor.
  - apply Forall_cons in Ht as [(t & Hts & Hrep) Ht].
    simpl in Hs. apply StronglySorted_inv in Hs as [Hs Hm].
    destruct (IH Ht Hs) as (times & Heq & Hreps & Hsorted).
    exists (t :: times). simpl. repeat split.
    + rewrite Hts, Heq. reflexivity.
    + constructor; assumption.
    + constructor; [exact Hsorted|].
      rewrite Heq, Hts in Hm. clear - Hm Hrep Hreps.
      induction Hreps as [|t' times Hrep' _ IH']; constructor.
      * simpl in Hm. apply Forall_cons in Hm as [Hle _].
        apply isoformat_le_inv; assumption.
      * apply IH'. simpl in Hm. apply Forall_cons in Hm as [_ Hm]. exact Hm.
Qed.

(** In a sorted list an earlier element is related to every later one. *)
Lemma StronglySorted_lookup {A} (R : A -> A -> Prop) (l : list A) :
  StronglySorted R l ->
  forall i j x y, (i < j)%nat -> l !! i = Some x -> l !! j = Some y -> R x y.
Proof.
  induction 1 as [|a l Hs IH Hall]; intros i j x y Hij Hi Hj;
    [discriminate Hi|].
  destruct i as [|i], j as [|j]; try lia; simpl in Hi, Hj.
  - injection Hi as <-. rewrite Forall_forall in Hall. apply Hall.
    apply (list_elem_of_lookup_2 _ j). exact Hj.
  - apply (IH i j); [lia | assumption | assumption].
Qed.

Lemma sorted_keys_lookup {A} (key : A -> string) (l : list A) :
  StronglySorted (key_le key) l ->
  forall i j x y, (i <= j)%nat -> l !! i = Some x -> l !! j = Some y ->
    str_le (key x) (key y).
Proof.
  intros Hs i j x y Hij Hi Hj.
  destruct (decide (i = j)) as [->|Hne].
  - rewrite Hi in Hj. injection Hj as <-. apply str_le_refl.
  - apply (StronglySorted_lookup _ _ Hs i j); [lia | assumption | assumption].
Qed.

(** C9: the dataset is the records the three phases made, ordered by the
    comparison of their timestamp strings: every run returns these
    records, all of them, sorted with the key ['timestamp'], and no
    record of the result has a timestamp string smaller than that of a
    record before it. *)
Theorem dataset_sorted_by_string g w :
  constructed g ->
  exists normals patterns transfers ds w',
    generate_dataset g w = (inr ds, w')
    /\ assembled g (clock_tape w) normals patterns transfers
    /\ ds = list_sort timestamp (normals ++ concat patterns ++ concat transfers)
    /\ ds ≡ₚ normals ++ concat patterns ++ concat transfers
    /\ StronglySorted str_le (map timestamp ds)
    /\ (forall i j mi mj, (i <= j)%nat ->
          ds !! i = Some mi -> ds !! j = Some mj ->
          String.ltb (timestamp mj) (timestamp mi) = false).
Proof.
  intros Hc. assert (Hg := constructed_well_built g Hc).
  destruct (generate_dataset_returns g w Hg)
    as (ds & w' & Hrun & _ & normals & patterns & transfers & Has & ->).
  exists normals, patterns, transfers,
    (list_sort timestamp (normals ++ concat patterns ++ concat transfers)), w'.
  split; [exact Hrun|]. split; [exact Has|]. split; [reflexivity|].
  split; [apply list_sort_perm|].
  split; [apply sorted_keys, list_sort_sorted|].
  intros i j mi mj Hij Hi Hj.
  exact (sorted_keys_lookup timestamp _ (list_sort_sorted timestamp _)
           i j mi mj Hij Hi Hj).
Qed.

Lemma dataset_sorted_by_string_witness :
  exists normals patterns transfers ds w',
    generate_dataset generator0 world0 = (inr ds, w')
    /\ assembled generator0 (clock_tape world0) normals patterns transfers
    /\ ds = list_sort timestamp (normals ++ concat patterns ++ concat transfers)
    /\ ds ≡ₚ normals ++ concat patterns ++ concat transfers
    /\ StronglySorted str_le (map timestamp ds)
    /\ (forall i j mi mj, (i <= j)%nat ->
          ds !! i = Some mi -> ds !! j = Some mj ->
          String.ltb (timestamp mj) (timestamp mi) = false).
Proof.
  apply (dataset_sorted_by_string generator0 world0).
  exists "http://localhost:5001", world0,
    (snd (init "http://localhost:5001" world0)).
  vm_compute. reflexivity.
Defined.

(** C1: the dataset is made of 1000 normal movements, then the cell
    pattern of each of the 3 cells in the order of the cells, then 10
    transfer patterns, concatenated in that order and sorted by timestamp;
    the sort is stable and keeps every record, and the timestamps of the
    result are non-decreasing, as strings and (the clock reading times a
    datetime can hold) as times: every timestamp renders a time a
    datetime can hold, and of two records the later one never renders an
    earlier time. *)
Theorem dataset_assembled_and_sorted g w :
  constructed g ->
  exists normals patterns transfers ds w',
    generate_dataset g w = (inr ds, w')
    /\ assembled g (clock_tape w) normals patterns transfers
    /\ length normals = 1000%nat
    /\ length patterns = 3%nat
    /\ length transfers = 10%nat
    /\ ds = list_sort timestamp (normals ++ concat patterns ++ concat transfers)
    /\ ds ≡ₚ normals ++ concat patterns ++ concat transfers
    /\ (forall k, filter (fun m => timestamp m = k) ds
                  = filter (fun m => timestamp m = k)
                      (normals ++ concat patterns ++ concat transfers))
    /\ StronglySorted str_le (map timestamp ds)
    /\ (clock_in_range (clock_tape w) ->
        Forall timed ds
        /\ (exists times, map timestamp ds = map datetime.isoformat times
                          /\ Forall representable times
                          /\ StronglySorted Z.le times)
        /\ (forall i j mi mj ti tj, (i <= j)%nat ->
              ds !! i = Some mi -> ds !! j = Some mj ->
              representable ti -> representable tj ->
              timestamp mi = datetime.isoformat ti ->
              timestamp mj = datetime.isoformat tj ->
              ti <= tj)).
Proof.
  intros Hc. assert (Hg := constructed_well_built g Hc).
  destruct (generate_dataset_returns g w Hg)
    as (ds & w' & Hrun & _ & normals & patterns & transfers & Has & ->).
  exists normals, patterns, transfers,
    (list_sort timestamp (normals ++ concat patterns ++ concat transfers)), w'.
  assert (Hsorted : StronglySorted str_le
            (map timestamp
               (list_sort timestamp
                  (normals ++ concat patterns ++ concat transfers))))
    by apply sorted_keys, list_sort_sorted.
  split; [exact Hrun|]. split; [exact Has|].
  split; [apply (as_normals_count _ _ _ _ _ Has)|].
  split.
  { rewrite <- (Forall2_length _ _ _ (as_patterns _ _ _ _ _ Has)).
    rewrite (wb_cells g Hg). reflexivity. }
  split; [apply (as_transfers_count _ _ _ _ _ Has)|].
  split; [reflexivity|].
  split; [apply list_sort_perm|].
  split; [intros k; apply list_sort_stable|].
  split; [exact Hsorted|].
  intros Hclk.
  assert (Htimed : Forall timed
            (list_sort timestamp
               (normals ++ concat patterns ++ concat transfers))).
  { rewrite Forall_forall. intros m Hm.
    rewrite list_sort_perm in Hm.
    assert (H := assembled_timed _ _ _ _ _ Hclk Has).
    rewrite Forall_forall in H. apply H. exact Hm. }
  split; [exact Htimed|]. split.
  - apply sorted_times; assumption.
  - intros i j mi mj ti tj Hij Hi Hj Hri Hrj Hti Htj.
    apply isoformat_le_inv; [assumption | assumption|].
    rewrite <- Hti, <- Htj.
    exact (sorted_keys_lookup timestamp _ (list_sort_sorted timestamp _)
             i j mi mj Hij Hi Hj).
Qed.

Lemma dataset_assembled_and_sorted_witness :
  clock_in_range (clock_tape world0)
  /\ exists normals patterns transfers ds w',
    generate_dataset generator0 world0 = (inr ds, w')
    /\ assembled generator0 (clock_tape world0) normals patterns transfers
    /\ length normals = 1000%nat
    /\ length patterns = 3%nat
    /\ length transfers = 10%nat
    /\ ds = list_sort timestamp (normals ++ concat patterns ++ concat transfers)
    /\ ds ≡ₚ normals ++ concat patterns ++ concat transfers
    /\ (forall k, filter (fun m => timestamp m = k) ds
                  = filter (fun m => timestamp m = k)
                      (normals ++ concat patterns ++ concat transfers))
    /\ StronglySorted str_le (map timestamp ds)
    /\ (clock_in_range (clock_tape world0) ->
        Forall timed ds
        /\ (exists times, map timestamp ds = map datetime.isoformat times
                          /\ Forall representable times
                          /\ StronglySorted Z.le times)
        /\ (forall i j mi mj ti tj, (i <= j)%nat ->
              ds !! i = Some mi -> ds !! j = Some mj ->
              representable ti -> representable tj ->
              timestamp mi = datetime.isoformat ti ->
              timestamp mj = datetime.isoformat tj ->
              ti <= tj)).
Proof.
  split.
  - intros n. vm_compute. split; [discriminate | reflexivity].
  - apply (dataset_assembled_and_sorted generator0 world0).
    exists "http://localhost:5001", world0,
      (snd (init "http://localhost:5001" world0)).
    vm_compute. reflexivity.
Defined.

(** ** Seeding *)

Lemma random_only_ret {A} (a : A) : random_only (Py.ret a).
Proof. intros w1 w2 H. split; [reflexivity | exact H]. Qed.

Lemma random_only_raise {A} (e : exn) : random_only (@Py.raise World A e).
Proof. intros w1 w2 H. split; [reflexivity | exact H]. Qed.

Lemma random_only_bind {A B} (m : W A) (k : A -> W B) :
  random_only m -> (forall a, random_only (k a)) -> random_only (Py.bind m k).
Proof.
  intros Hm Hk w1 w2 H. unfold Py.bind.
  destruct (Hm w1 w2 H) as [Hv Hw].
  destruct (m w1) as [[e1|a1] w1'], (m w2) as [[e2|a2] w2']; simpl in *;
    try discriminate.
  - split; [congruence | exact Hw].
  - injection Hv as <-. apply Hk. exact Hw.
Qed.

Lemma random_only_next_random : random_only next_random.
Proof.
  intros w1 w2 [Ht Hp]. unfold next_random, same_random. simpl.
  rewrite Ht, Hp. auto.
Qed.

Lemma random_only_randbelow n : random_only (random.randbelow n).
Proof.
  apply random_only_bind; [apply random_only_next_random|].
  intros r. apply random_only_ret.
Qed.

Lemma random_only_sample_loop {A} (k : nat) : forall n (pool : list A),
  random_only (random.sample_loop k n pool).
Proof.
  induction k as [|k IH]; intros n pool; simpl.
  - apply random_only_ret.
  - apply random_only_bind; [apply random_only_randbelow|]. intros j.
    destruct (pool !! Z.to_nat j); [|apply random_only_raise].
    destruct (pool !! (n - 1)%nat); [|apply random_only_raise].
    apply random_only_bind; [apply IH|]. intros rest. apply random_only_ret.
Qed.

Lemma random_only_sample {A} (population : list A) k :
  random_only (random.sample population k).
Proof.
  unfold random.sample.
  destruct ((k <? 0) || (Z.of_nat (length population) <? k));
    [apply random_only_raise | apply random_only_sample_loop].
Qed.

Lemma random_only_for_each {X A} (xs : list X) (body : X -> A -> W A) :
  (forall x a, random_only (body x a)) ->
  forall acc, random_only (Py.for_each xs body acc).
Proof.
  intros Hbody. induction xs as [|x xs IH]; intros acc; simpl.
  - apply random_only_ret.
  - apply random_only_bind; [apply Hbody | exact IH].
Qed.

Lemma random_only_init url : random_only (init url).
Proof.
  unfold init. apply random_only_bind.
  - apply random_only_for_each. intros cell d.
    apply random_only_bind; [apply random_only_sample|].
    intros s. apply random_only_ret.
  - intros d. apply random_only_ret.
Qed.

(** The cells and their locations do not depend on the URL given. *)
Lemma init_url_irrelevant url1 url2 w :
  match fst (init url1 w), fst (init url2 w) with
  | inr g1, inr g2 => terrorist_cells g1 = terrorist_cells g2
                      /\ cell_locations g1 = cell_locations g2
  | inl e1, inl e2 => e1 = e2
  | _, _ => False
  end.
Proof.
  unfold init, Py.bind.
  destruct (Py.for_each _ _ _ w) as [[e|d] w']; simpl; auto.
Qed.

(** C7: two constructions that start from the same seed yield the same
    cells and the same cell-to-locations mapping, whatever else differs
    between the two process states. *)
Theorem same_seed_same_cells (prng : Z -> nat -> Z) (a : Z) url1 url2 w1 w2 :
  exists g1 g2,
    fst ((seed prng a ;;; init url1) w1) = inr g1
    /\ fst ((seed prng a ;;; init url2) w2) = inr g2
    /\ terrorist_cells g1 = terrorist_cells g2
    /\ cell_locations g1 = cell_locations g2.
Proof.
  unfold Py.bind. simpl.
  set (s1 := {| rand_tape := prng a; rand_pos := 0;
                clock_tape := clock_tape w1; clock_pos := clock_pos w1;
                peer := peer w1; peer_pos := peer_pos w1; trace := trace w1 |}).
  set (s2 := {| rand_tape := prng a; rand_pos := 0;
                clock_tape := clock_tape w2; clock_pos := clock_pos w2;
                peer := peer w2; peer_pos := peer_pos w2; trace := trace w2 |}).
  destruct (init_returns url1 s1) as (g1 & s1' & H1 & _).
  destruct (init_returns url2 s2) as (g2 & s2' & H2 & _).
  exists g1, g2.
  change (seed prng a w1) with (@inr exn unit tt, s1).
  change (seed prng a w2) with (@inr exn unit tt, s2).
  cbv iota beta. rewrite H1, H2. repeat split.
  - assert (Hu := init_url_irrelevant url1 url2 s1).
    destruct (random_only_init url2 s1 s2) as [Hv _]; [split; reflexivity|].
    rewrite H1, Hv, H2 in Hu. apply Hu.
  - assert (Hu := init_url_irrelevant url1 url2 s1).
    destruct (random_only_init url2 s1 s2) as [Hv _]; [split; reflexivity|].
    rewrite H1, Hv, H2 in Hu. apply Hu.
Qed.

(** ** Devices are assigned member by member *)

Lemma submseteq_keeps_NoDup {A} (l k : list A) :
  l ⊆+ k -> NoDup k -> NoDup l.
Proof.
  intros Hsub Hk. apply submseteq_Permutation in Hsub as [k' Hk'].
  rewrite Hk' in Hk. apply NoDup_app in Hk as [Hl _]. exact Hl.
Qed.

Lemma device_ids_NoDup g : well_built g -> NoDup (device_ids g).
Proof.
  intros Hg. rewrite (wb_devices g Hg).
  apply (bool_decide_unpack _). vm_compute. reflexivity.
Qed.

Lemma assign_devices_within w g cell :
  well_built g ->
  returns (assign_devices g cell) w
    (fun md _ => forall member devices, md !! member = Some devices ->
       devices ⊆+ device_ids g).
Proof.
  intros Hg. unfold assign_devices.
  eapply returns_weaken.
  - apply (returns_for_each cell _
      (fun _ md => forall member devices, md !! member = Some devices ->
         devices ⊆+ device_ids g)).
    + intros i member md w0 _ _ Hin.
      step; [apply (randint_returns 1 3); lia|]. intros k w1 _ Hk.
      cbv beta in Hk.
      step; [apply sample_returns; rewrite (length_device_ids g Hg); lia|].
      intros s w2 _ [_ Hsub]. apply returns_ret.
      intros m devices. destruct (decide (member = m)) as [->|Hne].
      * rewrite lookup_insert_eq. intros [= <-]. exact Hsub.
      * rewrite lookup_insert_ne by exact Hne. apply Hin.
    + intros member devices Hlk. rewrite lookup_empty in Hlk. discriminate.
  - intros md w' _ H. exact H.
Qed.

(** C10: the devices of one member are distinct, but every member draws
    from the whole pool: there is a run of the cell pattern in which one
    device carries records of two different owners. *)
Theorem devices_distinct_within_member_only :
  (forall g cell w md member devices,
      constructed g -> fst (cell_assignment g cell w) = inr md ->
      md !! member = Some devices -> NoDup devices)
  /\ exists g cell w movements w' r1 r2,
       constructed g /\ cell ∈ terrorist_cells g
       /\ generate_cell_movement_pattern g cell w = (inr movements, w')
       /\ r1 ∈ movements /\ r2 ∈ movements
       /\ device_id r1 = device_id r2 /\ owner_id r1 <> owner_id r2.
Proof.
  split.
  - intros g cell w md member devices Hc Hrun Hlk.
    assert (Hg := constructed_well_built g Hc).
    unfold cell_assignment, Py.bind in Hrun.
    destruct (datetime.now w) as [[e|now] w1]; [discriminate|].
    destruct (random.randint 0 48 w1) as [[e|h] w2]; [discriminate|].
    destruct (assign_devices_within w2 g cell Hg) as (md' & w3 & Hrun' & _ & Hsub).
    rewrite Hrun' in Hrun. simpl in Hrun. injection Hrun as ->.
    eapply submseteq_keeps_NoDup; [|apply (device_ids_NoDup g Hg)].
    eapply Hsub. exact Hlk.
  - exists generator0, cell0, world_zero, shared_pattern,
      (snd (generate_cell_movement_pattern generator0 cell0 world_zero)).
    eexists (default _ (shared_pattern !! 0%nat)),
            (default _ (shared_pattern !! 2%nat)).
    split; [exact generator0_constructed|].
    split; [exact cell0_defined|].
    split; [vm_compute; reflexivity|].
    split; [apply (list_elem_of_lookup_2 _ 0%nat); vm_compute; reflexivity|].
    split; [apply (list_elem_of_lookup_2 _ 2%nat); vm_compute; reflexivity|].
    split; [vm_compute; reflexivity | vm_compute; discriminate].
    Unshelve. all: exact {| device_id := ""; owner_id := ""; timestamp := "";
                            loc := {| location_id := "" |};
                            movement_type := ""; confidence_level := 0 |}.
Qed.

(** ** The replay client *)

Lemma time_sleep_accepted secs w :
  sleepable secs -> time_sleep secs w = emit (Slept secs) w.
Proof.
  intros [H0 H1]. unfold time_sleep.
  replace ((sleep_ns secs <? - 2 ^ 63) || (2 ^ 63 <=? sleep_ns secs))
    with false by (symmetry; apply orb_false_iff; split; lia).
  replace (sleep_ns secs <? 0) with false by (symmetry; lia).
  reflexivity.
Qed.

(** [time.sleep] sleeps, or raises and leaves the process as it was. *)
Lemma time_sleep_cases secs w :
  time_sleep secs w = emit (Slept secs) w
  \/ exists e, time_sleep secs w = (inl e, w).
Proof.
  unfold time_sleep.
  destruct ((sleep_ns secs <? - 2 ^ 63) || (2 ^ 63 <=? sleep_ns secs));
    [right; eexists; reflexivity|].
  destruct (sleep_ns secs <? 0); [right; eexists; reflexivity|].
  left. reflexivity.
Qed.

Ltac run_send_one :=
  unfold send_one, Py.try_except, Py.bind, in_world, requests.post,
    requests.json, results_append, Py.modify, Py.ret, Py.raise,
    print, emit;
  cbn [fst snd json_result status_code].


(** *** Pacing and progress on a failed request *)

(** C6, where the code departs from it: replaying 101 records of which the
    100th is refused, the client sleeps 100 times only, goes from the
    refused request to the next one with no sleep in between, and prints
    no notice for the 100th record. *)
Theorem no_sleep_no_notice_after_failure :
  length (List.filter is_sleep trace_refused_100th) = 100%nat
  /\ take 3 (drop 199 trace_refused_100th)
     = [Posted "http://localhost:5001/api/v1/movements" movement0;
        Printed "Error sending movement: Connection refused";
        Posted "http://localhost:5001/api/v1/movements" movement0]
  /\ existsb (is_print_of "Processed 100/101 movements") trace_refused_100th
     = false.
Proof. vm_compute. repeat split. Qed.

(** * Further properties of the code *)

(** ** [__init__] *)

Lemma location_pool_NoDup :
  NoDup (map (fun i => "L" +:+ format_d 5 i) (range 20)).
Proof. apply (bool_decide_unpack _). vm_compute. reflexivity. Qed.

Lemma owner_pool_NoDup :
  NoDup (map (fun i => "O" +:+ format_d 5 i) (range 30)).
Proof. apply (bool_decide_unpack _). vm_compute. reflexivity. Qed.

(** X1: the constructor returns for every random outcome; the three pools
    hold 50, 30 and 20 distinct ids, and every cell is mapped to 5 distinct
    locations of the location pool. *)
Theorem init_samples_distinct_locations url w :
  exists g w',
    init url w = (inr g, w')
    /\ base_url g = url
    /\ (length (device_ids g) = 50%nat /\ NoDup (device_ids g))
    /\ (length (owner_ids g) = 30%nat /\ NoDup (owner_ids g))
    /\ (length (location_ids g) = 20%nat /\ NoDup (location_ids g))
    /\ forall cell, cell ∈ terrorist_cells g ->
         exists locations,
           cell_locations g !! cell = Some locations
           /\ length locations = 5%nat /\ NoDup locations
           /\ forall l, l ∈ locations -> l ∈ location_ids g.
Proof.
  destruct (init_returns url w) as (g & w' & Hrun & _ & Hurl & Hg).
  exists g, w'. split; [exact Hrun|]. split; [exact Hurl|].
  split; [split; [apply (length_device_ids g Hg)
                 | apply (device_ids_NoDup g Hg)]|].
  split; [rewrite (wb_owners g Hg); split;
          [reflexivity | apply owner_pool_NoDup]|].
  split; [rewrite (wb_locations g Hg); split;
          [reflexivity | apply location_pool_NoDup]|].
  intros cell Hcell. rewrite (wb_cells g Hg) in Hcell.
  destruct (wb_cell_locations g Hg cell Hcell) as (locs & Hlk & Hlen & Hsub).
  exists locs. repeat split; try assumption.
  - eapply submseteq_keeps_NoDup; [exact Hsub|].
    rewrite (wb_locations g Hg). apply location_pool_NoDup.
  - intros l Hl. eapply elem_of_submseteq; eassumption.
Qed.

(** ** The reading of the clock a record is stamped with *)

Lemma randbelow_clock n w :
  clock_pos (snd (random.randbelow n w)) = clock_pos w.
Proof. reflexivity. Qed.

Lemma randint_clock a b w :
  clock_pos (snd (random.randint a b w)) = clock_pos w.
Proof. unfold random.randint. destruct (b <? a); reflexivity. Qed.

Lemma choice_clock {A} (seq : list A) w :
  clock_pos (snd (random.choice seq w)) = clock_pos w.
Proof.
  unfold random.choice. destruct seq as [|x seq]; [reflexivity|].
  unfold Py.bind. simpl.
  destruct (_ !! _); reflexivity.
Qed.

Lemma uniform_clock a b w :
  clock_pos (snd (random.uniform a b w)) = clock_pos w.
Proof. reflexivity. Qed.

Lemma run_clock {A} (m : W A) w a w' :
  (forall w0, clock_pos (snd (m w0)) = clock_pos w0) ->
  m w = (inr a, w') -> clock_pos w' = clock_pos w.
Proof. intros Hm Hrun. rewrite <- (Hm w), Hrun. reflexivity. Qed.

(** X2: a normal movement takes its ids from the three pools, its movement
    type from walking and vehicle, and is stamped with the reading of the
    clock at the call less a whole number of hours from 0 to 48; the call
    reads the clock once. *)
Theorem normal_movement_fields g w :
  constructed g ->
  exists m w' h,
    generate_normal_movement g w = (inr m, w')
    /\ device_id m ∈ device_ids g
    /\ owner_id m ∈ owner_ids g
    /\ location_id (loc m) ∈ location_ids g
    /\ movement_type m ∈ ["walking"; "vehicle"]
    /\ 0 <= h <= 48
    /\ timestamp m
       = datetime.isoformat
           (clock_tape w (clock_pos w) - datetime.timedelta h 0)
    /\ clock_pos w' = S (clock_pos w).
Proof.
  intros Hc. assert (Hg := constructed_well_built g Hc).
  unfold generate_normal_movement.
  destruct (returns_run _ _ _
              (choice_returns (device_ids g) w (device_ids_nonempty g Hg)))
    as (d & w1 & _ & _ & Hr1 & Hd).
  destruct (returns_run _ _ _
              (choice_returns (owner_ids g) w1 (owner_ids_nonempty g Hg)))
    as (o & w2 & _ & _ & Hr2 & Ho).
  destruct (returns_run _ _ _
              (choice_returns (location_ids g) w2 (location_ids_nonempty g Hg)))
    as (l & w3 & _ & _ & Hr3 & Hl).
  assert (Hp3 : clock_pos w3 = clock_pos w).
  { rewrite (run_clock _ _ _ _ (choice_clock _) Hr3),
      (run_clock _ _ _ _ (choice_clock _) Hr2),
      (run_clock _ _ _ _ (choice_clock _) Hr1). reflexivity. }
  assert (Ht3 : clock_tape w3 = clock_tape w).
  { destruct (choice_returns (device_ids g) w (device_ids_nonempty g Hg))
      as (d' & w1' & E1 & C1 & _).
    destruct (choice_returns (owner_ids g) w1 (owner_ids_nonempty g Hg))
      as (o' & w2' & E2 & C2 & _).
    destruct (choice_returns (location_ids g) w2 (location_ids_nonempty g Hg))
      as (l' & w3' & E3 & C3 & _).
    congruence. }
  set (w4 := snd (datetime.now w3)).
  destruct (returns_run _ _ _ (randint_returns 0 48 w4 ltac:(lia)))
    as (h & w5 & _ & _ & Hr5 & Hh).
  destruct (returns_run _ _ _ (movement_type_choice w5))
    as (mt & w6 & _ & _ & Hr6 & Hmt).
  destruct (random.uniform (float.lit (7 # 10)) 1 w6)
    as [[e|c] w7] eqn:Hr7;
    [discriminate Hr7|].
  eexists _, w7, h. split.
  - unfold Py.bind. rewrite Hr1, Hr2, Hr3.
    change (datetime.now w3) with (@inr exn Z (clock_tape w3 (clock_pos w3)), w4).
    cbv iota beta. rewrite Hr5, Hr6, Hr7. reflexivity.
  - cbn [device_id owner_id loc location_id movement_type timestamp].
    repeat split; try assumption; try (cbv beta in Hh; lia).
    + rewrite Hp3, Ht3. reflexivity.
    + rewrite (run_clock _ _ _ _ (uniform_clock _ _) Hr7),
        (run_clock _ _ _ _ (choice_clock _) Hr6),
        (run_clock _ _ _ _ (randint_clock _ _) Hr5).
      subst w4. simpl. rewrite Hp3. reflexivity.
Qed.

Lemma normal_movement_fields_witness :
  exists m w' h,
    generate_normal_movement generator0 world0 = (inr m, w')
    /\ device_id m ∈ device_ids generator0
    /\ owner_id m ∈ owner_ids generator0
    /\ location_id (loc m) ∈ location_ids generator0
    /\ movement_type m ∈ ["walking"; "vehicle"]
    /\ 0 <= h <= 48
    /\ timestamp m
       = datetime.isoformat
           (clock_tape world0 (clock_pos world0) - datetime.timedelta h 0)
    /\ clock_pos w' = S (clock_pos world0).
Proof.
  apply (normal_movement_fields generator0 world0).
  exists "http://localhost:5001", world0,
    (snd (init "http://localhost:5001" world0)).
  vm_compute. reflexivity.
Defined.

(** ** Sizes *)

Lemma assigned_count_bounds md (l : list string) :
  (forall member, member ∈ l ->
     exists devices : list string, md !! member = Some devices
       /\ (1 <= length devices <= 3)%nat) ->
  (length l <= assigned_count md l <= 3 * length l)%nat.
Proof.
  induction l as [|x l IH]; intros H; [simpl; lia|].
  destruct (H x (list_elem_of_here _ _)) as (devices & Hlk & Hlen).
  assert (IH' := IH (fun member Hm => H member (list_elem_of_further _ _ _ Hm))).
  change (assigned_count md (x :: l))
    with (length (devices_of md x) + assigned_count md l)%nat.
  assert (Hx : length (devices_of md x) = length devices)
    by (unfold devices_of; rewrite Hlk; reflexivity).
  cbn [length]. lia.
Qed.

Lemma cell_pattern_length g cell ms :
  well_built g -> produces (generate_cell_movement_pattern g cell) ms ->
  (50 <= length ms <= 150)%nat.
Proof.
  intros Hg Hp. assert (Hcell := produced_cell_defined g cell ms Hg Hp).
  destruct Hp as (w & w' & Hrun).
  destruct (returns_at _ _ _ _ _
              (generate_cell_movement_pattern_returns g Hg cell w Hcell) Hrun)
    as (locations & md & n & h & _ & Hlen & _ & _ & Hmd & _ & Hcount & _).
  assert (Hb := assigned_count_bounds md cell).
  rewrite (the_cells_length cell Hcell) in Hb.
  rewrite Hcount, Hlen.
  assert ((5 <= assigned_count md cell <= 3 * 5)%nat); [|lia].
  apply Hb. intros member Hm.
  destruct (Hmd member Hm) as (devices & Hlk & Hl & _). eauto.
Qed.

Lemma transfer_pattern_length g ms :
  well_built g -> produces (generate_device_transfer_pattern g) ms ->
  length ms = 10%nat.
Proof.
  intros Hg (w & w' & Hrun).
  destruct (returns_at _ _ _ _ _
              (generate_device_transfer_pattern_returns g Hg w) Hrun)
    as (cell & locations & device & n & h & Hcell & _ & _ & _ & _ & Hcount & _).
  rewrite Hcount, (the_cells_length cell); [reflexivity|].
  rewrite <- (wb_cells g Hg). exact Hcell.
Qed.

(** X3: a cell pattern has between 50 and 150 records, a multiple of 10; its
    records are owned by members of the cell and carry devices of the
    pool. *)
Theorem cell_pattern_bounds g cell w :
  constructed g -> cell ∈ terrorist_cells g ->
  exists movements w',
    generate_cell_movement_pattern g cell w = (inr movements, w')
    /\ (50 <= length movements <= 150)%nat
    /\ (length movements mod 10 = 0)%nat
    /\ Forall (fun m => owner_id m ∈ cell /\ device_id m ∈ device_ids g
                        /\ movement_type m ∈ ["walking"; "vehicle"])
         movements.
Proof.
  intros Hc Hcell. assert (Hg := constructed_well_built g Hc).
  rewrite (wb_cells g Hg) in Hcell.
  destruct (generate_cell_movement_pattern_returns g Hg cell w Hcell)
    as (movements & w' & Hrun & _ & locations & md & n & h & _ & Hlen & _ & _
        & _ & _ & Hcount & HP).
  exists movements, w'. split; [exact Hrun|]. split; [|split].
  - apply (cell_pattern_length g cell movements Hg). exists w, w'. exact Hrun.
  - rewrite Hcount, Hlen.
    replace (2 * 5 * assigned_count md cell)%nat
      with (assigned_count md cell * 10)%nat by lia.
    apply Nat.Div0.mod_mul.
  - eapply Forall_impl; [exact HP|]. intros m Hm. repeat split.
    + apply (cr_owner _ _ _ _ _ Hm).
    + apply (cr_device _ _ _ _ _ Hm).
    + apply (cr_type _ _ _ _ _ Hm).
Qed.

Lemma cell_pattern_bounds_witness :
  exists movements w',
    generate_cell_movement_pattern generator0 cell0 world0 = (inr movements, w')
    /\ (50 <= length movements <= 150)%nat
    /\ (length movements mod 10 = 0)%nat
    /\ Forall (fun m => owner_id m ∈ cell0
                        /\ device_id m ∈ device_ids generator0
                        /\ movement_type m ∈ ["walking"; "vehicle"])
         movements.
Proof.
  apply (cell_pattern_bounds generator0 cell0 world0).
  - exists "http://localhost:5001", world0,
      (snd (init "http://localhost:5001" world0)).
    vm_compute. reflexivity.
  - vm_compute. apply list_elem_of_here.
Defined.

Lemma Forall2_right {X B} (R : X -> B -> Prop) (P : B -> Prop) xs bs :
  Forall2 R xs bs -> (forall x b, R x b -> P b) -> Forall P bs.
Proof.
  intros H HRP. induction H as [|x b xs bs Hxb _ IH]; constructor; eauto.
Qed.

Lemma concat_length_bounds {A} (lo hi : nat) (ls : list (list A)) :
  Forall (fun l => (lo <= length l <= hi)%nat) ls ->
  (lo * length ls <= length (concat ls) <= hi * length ls)%nat.
Proof.
  induction 1 as [|l ls Hl _ IH]; simpl; [lia|].
  rewrite length_app. lia.
Qed.

Lemma assembled_size g clock normals patterns transfers :
  well_built g -> assembled g clock normals patterns transfers ->
  (1250 <= length (normals ++ concat patterns ++ concat transfers) <= 1550)%nat.
Proof.
  intros Hg Has.
  rewrite !length_app, (as_normals_count _ _ _ _ _ Has).
  assert (Hp : (50 * length patterns <= length (concat patterns)
                <= 150 * length patterns)%nat).
  { apply concat_length_bounds.
    eapply Forall2_right; [apply (as_patterns _ _ _ _ _ Has)|].
    intros cell ms [Hprod _]. apply (cell_pattern_length g cell ms Hg Hprod). }
  assert (Ht : (10 * length transfers <= length (concat transfers)
                <= 10 * length transfers)%nat).
  { apply concat_length_bounds.
    eapply Forall_impl; [apply (as_transfers _ _ _ _ _ Has)|].
    intros ms [Hprod _]. rewrite (transfer_pattern_length g ms Hg Hprod). lia. }
  rewrite (as_transfers_count _ _ _ _ _ Has) in Ht.
  assert (Hn : length patterns = 3%nat).
  { rewrite <- (Forall2_length _ _ _ (as_patterns _ _ _ _ _ Has)).
    rewrite (wb_cells g Hg). reflexivity. }
  rewrite Hn in Hp. lia.
Qed.

(** X4: a dataset has between 1250 and 1550 records: 1000 normal
    movements, three cell patterns of 50 to 150 records and ten transfer
    patterns of 10 records. *)
Theorem dataset_size g w :
  constructed g ->
  exists ds w',
    generate_dataset g w = (inr ds, w')
    /\ (1250 <= length ds <= 1550)%nat.
Proof.
  intros Hc. assert (Hg := constructed_well_built g Hc).
  destruct (generate_dataset_returns g w Hg)
    as (ds & w' & Hrun & _ & normals & patterns & transfers & Has & ->).
  eexists _, w'. split; [exact Hrun|].
  rewrite (Permutation_length (list_sort_perm timestamp _)).
  apply (assembled_size g (clock_tape w)); assumption.
Qed.

Lemma dataset_size_witness :
  exists ds w',
    generate_dataset generator0 world0 = (inr ds, w')
    /\ (1250 <= length ds <= 1550)%nat.
Proof.
  apply (dataset_size generator0 world0).
  exists "http://localhost:5001", world0,
    (snd (init "http://localhost:5001" world0)).
  vm_compute. reflexivity.
Defined.

(** ** What the replay client sends, records and waits for *)

Lemma posted_app tr1 tr2 : posted (tr1 ++ tr2) = posted tr1 ++ posted tr2.
Proof. apply flat_map_app. Qed.

Lemma slept_app tr1 tr2 : slept (tr1 ++ tr2) = slept tr1 ++ slept tr2.
Proof. apply flat_map_app. Qed.

Lemma send_one_step self total delay i m rs w :
  sleepable delay ->
  exists w',
    send_one self total delay (i, m) (rs, w)
    = (inr tt,
       (rs ++ [entry_for m (peer w (peer_pos w) (endpoint self) m)], w'))
    /\ peer w' = peer w /\ peer_pos w' = S (peer_pos w)
    /\ posted (trace w') = posted (trace w) ++ [(endpoint self, m)]
    /\ slept (trace w')
       = slept (trace w)
         ++ (if accepted (peer w (peer_pos w) (endpoint self) m)
             then [delay] else []).
Proof.
  intros Hdelay. run_send_one.
  fold (endpoint self).
  destruct (peer w (peer_pos w) (endpoint self) m) as [e|code [e|body]];
    cbn [fst snd json_result status_code entry_for accepted].
  - eexists. split; [reflexivity|]. cbn [peer peer_pos trace].
    rewrite !posted_app, !slept_app. simpl.
    rewrite !app_nil_r. auto.
  - eexists. split; [reflexivity|]. cbn [peer peer_pos trace].
    rewrite !posted_app, !slept_app. simpl.
    rewrite !app_nil_r. auto.
  - destruct (i mod 100 =? 0); cbn [fst snd];
      rewrite (time_sleep_accepted _ _ Hdelay); unfold emit; cbn [fst snd].
    + eexists. split; [reflexivity|]. cbn [peer peer_pos trace].
      rewrite !posted_app, !slept_app. simpl.
      rewrite !app_nil_r. auto.
    + eexists. split; [reflexivity|]. cbn [peer peer_pos trace].
      rewrite !posted_app, !slept_app. simpl.
      rewrite !app_nil_r. auto.
Qed.

Lemma send_loop_steps self total delay movements : forall i rs w,
  sleepable delay ->
  exists w',
    Py.for_each_ (enumerate movements i) (send_one self total delay) (rs, w)
    = (inr tt,
       (rs ++ replay_entries (peer w) (endpoint self) (peer_pos w) movements,
        w'))
    /\ peer w' = peer w
    /\ peer_pos w' = (peer_pos w + length movements)%nat
    /\ posted (trace w')
       = posted (trace w) ++ map (fun m => (endpoint self, m)) movements
    /\ slept (trace w')
       = slept (trace w)
         ++ replay_sleeps (peer w) (endpoint self) delay (peer_pos w) movements.
Proof.
  induction movements as [|m movements IH]; intros i rs w Hdelay.
  - exists w. simpl. rewrite !app_nil_r. repeat split. lia.
  - cbn [enumerate Py.for_each_]. unfold Py.bind at 1.
    destruct (send_one_step self total delay i m rs w Hdelay)
      as (w1 & -> & Hp1 & Hn1 & Hposted1 & Hslept1).
    destruct (IH (i + 1) (rs ++ [entry_for m (peer w (peer_pos w) (endpoint self) m)])
                w1 Hdelay) as (w' & -> & Hp & Hn & Hposted & Hslept).
    exists w'. rewrite Hp1, Hn1 in *. rewrite <- app_assoc.
    cbn [replay_entries replay_sleeps map length].
    split; [reflexivity|]. split; [congruence|]. split; [lia|].
    split.
    + rewrite Hposted, Hposted1, <- app_assoc. reflexivity.
    + rewrite Hslept, Hslept1, <- !app_assoc. reflexivity.
Qed.

Lemma send_movements_steps self movements delay w :
  sleepable delay ->
  exists w',
    send_movements self movements delay w
    = (inr (replay_entries (peer w) (endpoint self) (peer_pos w) movements), w')
    /\ posted (trace w')
       = posted (trace w) ++ map (fun m => (endpoint self, m)) movements
    /\ slept (trace w')
       = slept (trace w)
         ++ replay_sleeps (peer w) (endpoint self) delay (peer_pos w) movements
    /\ peer_pos w' = (peer_pos w + length movements)%nat.
Proof.
  intros Hdelay. unfold send_movements.
  unfold Py.bind at 1. unfold in_world at 1. cbn [fst snd print emit].
  set (w0 := {| rand_tape := rand_tape w; rand_pos := rand_pos w;
                clock_tape := clock_tape w; clock_pos := clock_pos w;
                peer := peer w; peer_pos := peer_pos w;
                trace := trace w ++
                  [Printed ("Sending "
                            +:+ format_d 0 (Z.of_nat (length movements))
                            +:+ " movements to API...")] |}).
  destruct (send_loop_steps self (Z.of_nat (length movements)) delay
              movements 1 [] w0 Hdelay)
    as (w' & Hrun & Hp & Hn & Hposted & Hslept).
  exists w'. split.
  - unfold print, emit. cbn [fst snd]. fold w0. rewrite Hrun. reflexivity.
  - subst w0. cbn [peer peer_pos trace] in *.
    rewrite posted_app, slept_app in *. simpl in Hposted, Hslept.
    rewrite !app_nil_r in *. auto.
Qed.

(** X5: with a delay that [time.sleep] accepts, the replay client posts
    every record once, in order, to [base_url/api/v1/movements]; the i-th entry
    records what the i-th request met (the status and body of the answer,
    or the message of the exception); and it sleeps for the delay once
    after each accepted request and not after a failed one. *)
Theorem send_movements_answers self movements delay w :
  sleepable delay ->
  exists w',
    send_movements self movements delay w
    = (inr (replay_entries (peer w) (endpoint self) (peer_pos w) movements), w')
    /\ posted (trace w')
       = posted (trace w) ++ map (fun m => (endpoint self, m)) movements
    /\ slept (trace w')
       = slept (trace w)
         ++ replay_sleeps (peer w) (endpoint self) delay (peer_pos w) movements
    /\ peer_pos w' = (peer_pos w + length movements)%nat.
Proof.
  intros Hdelay.
  destruct (send_movements_steps self movements delay w Hdelay)
    as (w' & Hrun & Hposted & Hslept & Hpos).
  exists w'. split; [exact Hrun|]. split; [exact Hposted|].
  split; [exact Hslept | exact Hpos].
Qed.

Lemma send_movements_answers_witness :
  exists w',
    send_movements generator0 [movement0; movement0] default_delay
      world_refusing_100th
    = (inr (replay_entries (peer world_refusing_100th) (endpoint generator0)
              (peer_pos world_refusing_100th) [movement0; movement0]), w')
    /\ posted (trace w')
       = posted (trace world_refusing_100th)
         ++ map (fun m => (endpoint generator0, m)) [movement0; movement0]
    /\ slept (trace w')
       = slept (trace world_refusing_100th)
         ++ replay_sleeps (peer world_refusing_100th) (endpoint generator0)
              default_delay (peer_pos world_refusing_100th)
              [movement0; movement0]
    /\ peer_pos w'
       = (peer_pos world_refusing_100th + length [movement0; movement0])%nat.
Proof.
  apply (send_movements_answers generator0 [movement0; movement0]
           default_delay world_refusing_100th).
  vm_compute. split; [discriminate | reflexivity].
Defined.

Lemma send_one_any self total delay i m rs w :
  exists es w',
    send_one self total delay (i, m) (rs, w) = (inr tt, (rs ++ es, w'))
    /\ (1 <= length es <= 2)%nat
    /\ Forall (fun e => r_movement e = m /\ entry_ok e) es
    /\ posted (trace w') = posted (trace w) ++ [(endpoint self, m)].
Proof.
  run_send_one. fold (endpoint self).
  destruct (peer w (peer_pos w) (endpoint self) m) as [e|code [e|body]];
    cbn [fst snd json_result status_code].
  - eexists [_], _. split; [reflexivity|]. split; [simpl; lia|]. split.
    + constructor; [|constructor]. split; [reflexivity|]. right. simpl. eauto.
    + cbn [trace]. rewrite !posted_app. simpl. rewrite !app_nil_r. reflexivity.
  - eexists [_], _. split; [reflexivity|]. split; [simpl; lia|]. split.
    + constructor; [|constructor]. split; [reflexivity|]. right. simpl. eauto.
    + cbn [trace]. rewrite !posted_app. simpl. rewrite !app_nil_r. reflexivity.
  - destruct (i mod 100 =? 0); cbn [fst snd];
      match goal with
      | |- context [time_sleep delay ?w0] =>
          destruct (time_sleep_cases delay w0) as [-> | [e' ->]]
      end;
      unfold emit;
      cbn [fst snd rand_tape rand_pos clock_tape clock_pos peer peer_pos
           trace].
    + eexists [_], _. split; [reflexivity|]. split; [simpl; lia|]. split.
      * constructor; [|constructor]. split; [reflexivity|]. left. simpl. eauto.
      * cbn [trace]. rewrite !posted_app. simpl. rewrite !app_nil_r.
        reflexivity.
    + eexists [_; _], _. split; [rewrite <- app_assoc; reflexivity|].
      split; [simpl; lia|]. split.
      * constructor; [|constructor; [|constructor]].
        -- split; [reflexivity|]. left. simpl. eauto.
        -- split; [reflexivity|]. right. simpl. eauto.
      * cbn [trace]. rewrite !posted_app. simpl. rewrite !app_nil_r.
        reflexivity.
    + eexists [_], _. split; [reflexivity|]. split; [simpl; lia|]. split.
      * constructor; [|constructor]. split; [reflexivity|]. left. simpl. eauto.
      * cbn [trace]. rewrite !posted_app. simpl. rewrite !app_nil_r.
        reflexivity.
    + eexists [_; _], _. split; [rewrite <- app_assoc; reflexivity|].
      split; [simpl; lia|]. split.
      * constructor; [|constructor; [|constructor]].
        -- split; [reflexivity|]. left. simpl. eauto.
        -- split; [reflexivity|]. right. simpl. eauto.
      * cbn [trace]. rewrite !posted_app. simpl. rewrite !app_nil_r.
        reflexivity.
Qed.

Lemma send_loop_any self total delay movements : forall i rs w,
  exists rs' w',
    Py.for_each_ (enumerate movements i) (send_one self total delay) (rs, w)
    = (inr tt, (rs ++ rs', w'))
    /\ (length movements <= length rs' <= 2 * length movements)%nat
    /\ Forall entry_ok rs'
    /\ (forall e, e ∈ rs' -> r_movement e ∈ movements)
    /\ posted (trace w')
       = posted (trace w) ++ map (fun m => (endpoint self, m)) movements.
Proof.
  induction movements as [|m movements IH]; intros i rs w.
  - exists [], w. simpl. rewrite !app_nil_r. repeat split; try lia.
    + constructor.
    + intros e He. inversion He.
  - cbn [enumerate Py.for_each_]. unfold Py.bind at 1.
    destruct (send_one_any self total delay i m rs w)
      as (es & w1 & -> & Hlen & Hes & Hposted1).
    destruct (IH (i + 1) (rs ++ es) w1)
      as (rs' & w' & -> & Hlen' & Hoks & Hms & Hposted).
    exists (es ++ rs'), w'. rewrite <- app_assoc.
    split; [reflexivity|]. split; [rewrite length_app; simpl; lia|].
    split; [|split].
    + apply Forall_app. split; [|exact Hoks].
      eapply Forall_impl; [exact Hes|]. intros e [_ He]. exact He.
    + intros e He. apply elem_of_app in He as [He|He].
      * rewrite Forall_forall in Hes. destruct (Hes e He) as [-> _].
        apply list_elem_of_here.
      * apply list_elem_of_further. apply Hms. exact He.
    + rewrite Hposted, Hposted1, <- app_assoc. reflexivity.
Qed.

(** X6: whatever the finite delay, also one that [time.sleep] refuses: when
    a call of the replay client returns, every record has been posted once,
    in order and with no retry, and the result holds between N and 2 N
    well-formed entries for the N records, each for a record of the
    input. *)
Theorem send_movements_any_delay self movements delay w results w' :
  send_movements self movements delay w = (inr results, w') ->
  (length movements <= length results <= 2 * length movements)%nat
  /\ Forall entry_ok results
  /\ (forall e, e ∈ results -> r_movement e ∈ movements)
  /\ posted (trace w')
     = posted (trace w) ++ map (fun m => (endpoint self, m)) movements.
Proof.
  unfold send_movements.
  unfold Py.bind at 1. unfold in_world at 1. cbn [fst snd print emit].
  set (w0 := {| rand_tape := rand_tape w; rand_pos := rand_pos w;
                clock_tape := clock_tape w; clock_pos := clock_pos w;
                peer := peer w; peer_pos := peer_pos w;
                trace := trace w ++
                  [Printed ("Sending "
                            +:+ format_d 0 (Z.of_nat (length movements))
                            +:+ " movements to API...")] |}).
  destruct (send_loop_any self (Z.of_nat (length movements)) delay
              movements 1 [] w0)
    as (rs & w1 & Hrun & Hlen & Hoks & Hms & Hposted).
  unfold print, emit. cbn [fst snd]. fold w0. rewrite Hrun.
  intros Heq. injection Heq as <- <-.
  subst w0. cbn [trace] in Hposted. rewrite posted_app in Hposted.
  simpl in Hposted. rewrite app_nil_r in Hposted. auto.
Qed.

Lemma send_movements_any_delay_witness :
  (length [movement0] <= 2 <= 2 * length [movement0])%nat
  /\ Forall entry_ok
       [ {| r_movement := movement0; r_status := inl 201;
            r_response := Some "{}"; r_error := None |};
         {| r_movement := movement0; r_status := inr "error";
            r_response := None;
            r_error := Some "sleep length must be non-negative" |} ]
  /\ (forall e,
        e ∈ [ {| r_movement := movement0; r_status := inl 201;
                 r_response := Some "{}"; r_error := None |};
              {| r_movement := movement0; r_status := inr "error";
                 r_response := None;
                 r_error := Some "sleep length must be non-negative" |} ] ->
        r_movement e ∈ [movement0])
  /\ posted (trace (snd (send_movements generator0 [movement0] (-1)
                           world_accepting)))
     = posted (trace world_accepting)
       ++ map (fun m => (endpoint generator0, m)) [movement0].
Proof.
  apply (send_movements_any_delay generator0 [movement0] (-1) world_accepting
           [ {| r_movement := movement0; r_status := inl 201;
                r_response := Some "{}"; r_error := None |};
             {| r_movement := movement0; r_status := inr "error";
                r_response := None;
                r_error := Some "sleep length must be non-negative" |} ]
           (snd (send_movements generator0 [movement0] (-1) world_accepting))).
  vm_compute. reflexivity.
Defined.

(** ** The times of a transfer pattern *)

Lemma transfer_times_snoc minutes : forall base m,
  transfer_times base (minutes ++ [m])
  = transfer_times base minutes
    ++ [base + Z.of_nat (length minutes) * datetime.timedelta 3 0;
        base + Z.of_nat (length minutes) * datetime.timedelta 3 0
        + datetime.timedelta 0 m].
Proof.
  induction minutes as [|x minutes IH]; intros base m.
  - simpl. rewrite Z.add_0_r. reflexivity.
  - cbn [app transfer_times]. rewrite IH. cbn [app length].
    assert (E : base + datetime.timedelta 3 0
                + Z.of_nat (length minutes) * datetime.timedelta 3 0
                = base + Z.of_nat (S (length minutes)) * datetime.timedelta 3 0)
      by (unfold datetime.timedelta, datetime.US_PER_SECOND; lia).
    rewrite E. reflexivity.
Qed.

Lemma transfer_times_ge minutes : forall base,
  Forall (fun m => 15 <= m <= 30) minutes ->
  Forall (fun t => base <= t) (transfer_times base minutes).
Proof.
  induction minutes as [|m minutes IH]; intros base Hm; [constructor|].
  apply Forall_cons in Hm as [Hm Hms]. cbn [transfer_times].
  constructor; [lia|]. constructor; [unfold datetime.timedelta, datetime.US_PER_SECOND; lia|].
  eapply Forall_impl; [apply IH, Hms|].
  intros t Ht. cbv beta in Ht. unfold datetime.timedelta, datetime.US_PER_SECOND in *. lia.
Qed.

(** The times of a transfer pattern increase strictly. *)
Lemma transfer_times_increasing minutes : forall base,
  Forall (fun m => 15 <= m <= 30) minutes ->
  StronglySorted Z.lt (transfer_times base minutes).
Proof.
  induction minutes as [|m minutes IH]; intros base Hm; [constructor|].
  apply Forall_cons in Hm as [Hm Hms]. cbn [transfer_times].
  assert (Hge := transfer_times_ge minutes (base + datetime.timedelta 3 0) Hms).
  constructor; [constructor; [apply IH, Hms|]|].
  - eapply Forall_impl; [exact Hge|].
    intros t Ht. cbv beta in Ht. unfold datetime.timedelta, datetime.US_PER_SECOND in *. lia.
  - constructor; [unfold datetime.timedelta, datetime.US_PER_SECOND; lia|].
    eapply Forall_impl; [exact Hge|].
    intros t Ht. cbv beta in Ht. unfold datetime.timedelta, datetime.US_PER_SECOND in *. lia.
Qed.

Lemma transfer_loop_times cell locations device base w :
  locations <> [] ->
  returns (Py.for_each (range (length cell))
             (transfer_step cell locations device) ([], base)) w
    (fun st _ => exists minutes,
       length minutes = length cell
       /\ Forall (fun m => 15 <= m <= 30) minutes
       /\ map timestamp (fst st)
          = map datetime.isoformat (transfer_times base minutes)).
Proof.
  intros Hlocations. eapply returns_weaken.
  - apply (returns_for_each (range (length cell)) _
      (fun i st => exists minutes,
         length minutes = i
         /\ Forall (fun m => 15 <= m <= 30) minutes
         /\ snd st = base + Z.of_nat i * datetime.timedelta 3 0
         /\ map timestamp (fst st)
            = map datetime.isoformat (transfer_times base minutes))).
    + intros i x [movs bt] w0 _ Hx (minutes & Hlen & Hmin & Hbt & Hts).
      cbn [fst snd] in Hbt, Hts. subst bt.
      apply range_lookup in Hx as [-> Hi].
      unfold transfer_step.
      destruct (lookup_lt_is_Some_2 cell i Hi) as [cur Hcur].
      assert (Hnx : (Z.to_nat ((Z.of_nat i + 1) mod Z.of_nat (length cell))
                     < length cell)%nat).
      { assert (H := Z.mod_pos_bound (Z.of_nat i + 1)
                       (Z.of_nat (length cell))). lia. }
      destruct (lookup_lt_is_Some_2 cell _ Hnx) as [next Hnext].
      step; [apply (getitem_returns _ _ cur); rewrite Nat2Z.id; exact Hcur|].
      intros cur' w1 _ ->.
      step; [apply (getitem_returns _ _ next); exact Hnext|].
      intros next' w2 _ ->.
      step; [apply choice_returns; exact Hlocations|].
      intros tl w3 _ Htl.
      step; [apply (randint_returns 15 30); lia|].
      intros mm w4 _ Hmm. cbv beta in Hmm.
      apply returns_ret. exists (minutes ++ [mm]). cbn [fst snd].
      split; [rewrite length_app; simpl; lia|].
      split; [apply Forall_app; split; [exact Hmin | repeat constructor; lia]|].
      split; [unfold datetime.timedelta, datetime.US_PER_SECOND; lia|].
      rewrite <- app_assoc, transfer_times_snoc, !map_app, Hts, Hlen.
      reflexivity.
    + exists []. cbn [fst snd]. split; [reflexivity|].
      split; [constructor|]. split; [lia | reflexivity].
  - intros st w' _ (minutes & Hlen & Hmin & _ & Hts).
    rewrite length_range in Hlen. eauto.
Qed.

(** X7: a transfer pattern is issued in time order: with the base time the
    reading of the clock at the call less 0 to 48 whole hours, hand-over i
    starts at base + 3 i hours and ends 15 to 30 minutes later, so the
    times of its ten records increase strictly. *)
Theorem transfer_pattern_times g w :
  constructed g ->
  exists movements w' h minutes,
    generate_device_transfer_pattern g w = (inr movements, w')
    /\ 0 <= h <= 48
    /\ length minutes = 5%nat
    /\ Forall (fun m => 15 <= m <= 30) minutes
    /\ map timestamp movements
       = map datetime.isoformat
           (transfer_times
              (clock_tape w (clock_pos w) - datetime.timedelta h 0) minutes)
    /\ StronglySorted Z.lt
         (transfer_times
            (clock_tape w (clock_pos w) - datetime.timedelta h 0) minutes).
Proof.
  intros Hc. assert (Hg := constructed_well_built g Hc).
  unfold generate_device_transfer_pattern.
  assert (Hcells : terrorist_cells g <> [])
    by (rewrite (wb_cells g Hg); discriminate).
  destruct (choice_returns (terrorist_cells g) w Hcells)
    as (cell & w1 & Hr1 & Ht1 & Hcell).
  assert (Hcell' : cell ∈ the_cells) by (rewrite <- (wb_cells g Hg); exact Hcell).
  destruct (wb_cell_locations g Hg cell Hcell') as (locations & Hlk & Hlen & _).
  destruct (choice_returns (device_ids g) w1 (device_ids_nonempty g Hg))
    as (device & w3 & Hr3 & Ht3 & _).
  set (w4 := snd (datetime.now w3)).
  destruct (returns_run _ _ _ (randint_returns 0 48 w4 ltac:(lia)))
    as (h & w5 & _ & _ & Hr5 & Hh).
  assert (Hne : locations <> []) by (intros ->; discriminate).
  destruct (transfer_loop_times cell locations device
              (clock_tape w3 (clock_pos w3) - datetime.timedelta h 0) w5 Hne)
    as (st & w6 & Hr6 & _ & minutes & Hmlen & Hmin & Hts).
  assert (Hp3 : clock_pos w3 = clock_pos w).
  { rewrite (run_clock _ _ _ _ (choice_clock _) Hr3),
      (run_clock _ _ _ _ (choice_clock _) Hr1). reflexivity. }
  assert (Hbase : clock_tape w3 (clock_pos w3) = clock_tape w (clock_pos w))
    by (rewrite Hp3, Ht3, Ht1; reflexivity).
  exists (fst st), w6, h, minutes. split.
  - unfold Py.bind. rewrite Hr1. unfold getkey. rewrite Hlk.
    unfold Py.ret at 1. cbv iota beta. rewrite Hr3.
    change (datetime.now w3) with (@inr exn Z (clock_tape w3 (clock_pos w3)), w4).
    cbv iota beta. rewrite Hr5. cbv iota beta.
    unfold datetime.t in *. rewrite Hr6. reflexivity.
  - cbv beta in Hh. rewrite <- Hbase.
    split; [exact Hh|]. split; [rewrite Hmlen; apply (the_cells_length cell Hcell')|].
    split; [exact Hmin|]. split; [exact Hts|].
    apply transfer_times_increasing. exact Hmin.
Qed.

Lemma transfer_pattern_times_witness :
  exists movements w' h minutes,
    generate_device_transfer_pattern generator0 world0 = (inr movements, w')
    /\ 0 <= h <= 48
    /\ length minutes = 5%nat
    /\ Forall (fun m => 15 <= m <= 30) minutes
    /\ map timestamp movements
       = map datetime.isoformat
           (transfer_times
              (clock_tape world0 (clock_pos world0) - datetime.timedelta h 0)
              minutes)
    /\ StronglySorted Z.lt
         (transfer_times
            (clock_tape world0 (clock_pos world0) - datetime.timedelta h 0)
            minutes).
Proof.
  apply (transfer_pattern_times generator0 world0).
  exists "http://localhost:5001", world0,
    (snd (init "http://localhost:5001" world0)).
  vm_compute. reflexivity.
Defined.

(** * The driver, in proofs *)

(** The answers that start the replay. *)
Lemma str_lower_y (answer : string) :
  str_lower answer = "y" <-> answer = "y" \/ answer = "Y".
Proof.
  split.
  - destruct answer as [|c [|c' rest]]; simpl; try discriminate.
    intros [= Hc].
    assert (H : forall c, lower_ascii c = "y"%char ->
                          c = "y"%char \/ c = "Y"%char).
    { clear. intros [[] [] [] [] [] [] [] []]; vm_compute;
        try discriminate; auto. }
    destruct (H c Hc) as [->| ->]; auto.
  - intros [->| ->]; reflexivity.
Qed.

(** ** The generators make no request *)

Lemma offline_ret {A} (a : A) : offline (Py.ret a).
Proof. intros w. auto. Qed.

Lemma offline_raise {A} (e : exn) : offline (@Py.raise World A e).
Proof. intros w. auto. Qed.

Lemma offline_bind {A B} (m : W A) (k : A -> W B) :
  offline m -> (forall a, offline (k a)) -> offline (Py.bind m k).
Proof.
  intros Hm Hk w. unfold Py.bind. specialize (Hm w).
  destruct (m w) as [[e|a] w1]; simpl in *; [exact Hm|].
  destruct (Hk a w1) as (H1 & H2 & H3). destruct Hm as (H1' & H2' & H3').
  repeat split; congruence.
Qed.

Lemma offline_for_each {X A} (xs : list X) (body : X -> A -> W A) :
  (forall x a, offline (body x a)) ->
  forall acc, offline (Py.for_each xs body acc).
Proof.
  intros Hbody. induction xs as [|x xs IH]; intros acc; simpl.
  - apply offline_ret.
  - apply offline_bind; [apply Hbody | exact IH].
Qed.

Lemma offline_next_random : offline next_random.
Proof. intros w. simpl. auto. Qed.

Lemma offline_now : offline datetime.now.
Proof. intros w. simpl. auto. Qed.

Lemma offline_print line : offline (print line).
Proof.
  intros w. simpl. rewrite posted_app. simpl. rewrite app_nil_r. auto.
Qed.

Lemma offline_sample_loop {A} (k : nat) : forall n (pool : list A),
  offline (random.sample_loop k n pool).
Proof.
  induction k as [|k IH]; intros n pool; simpl.
  - apply offline_ret.
  - apply offline_bind; [|intros j].
    + apply offline_bind; [apply offline_next_random|].
      intros r. apply offline_ret.
    + destruct (pool !! Z.to_nat j); [|apply offline_raise].
      destruct (pool !! (n - 1)%nat); [|apply offline_raise].
      apply offline_bind; [apply IH|]. intros rest. apply offline_ret.
Qed.

Lemma offline_randbelow n : offline (random.randbelow n).
Proof.
  apply offline_bind; [apply offline_next_random|].
  intros r. apply offline_ret.
Qed.

Lemma offline_randint a b : offline (random.randint a b).
Proof.
  unfold random.randint. destruct (b <? a); [apply offline_raise|].
  apply offline_bind; [apply offline_randbelow|].
  intros r. apply offline_ret.
Qed.

Lemma offline_choice {A} (seq : list A) : offline (random.choice seq).
Proof.
  unfold random.choice. destruct seq as [|x seq]; [apply offline_raise|].
  apply offline_bind; [apply offline_randbelow|]. intros j.
  destruct (_ !! _); [apply offline_ret | apply offline_raise].
Qed.

Lemma offline_uniform a b : offline (random.uniform a b).
Proof.
  unfold random.uniform, random.random.
  apply offline_bind; [|intros u; apply offline_ret].
  apply offline_bind; [apply offline_next_random|].
  intros r. apply offline_ret.
Qed.

Lemma offline_sample {A} (population : list A) k :
  offline (random.sample population k).
Proof.
  unfold random.sample.
  destruct (_ || _); [apply offline_raise | apply offline_sample_loop].
Qed.

Lemma offline_getitem {A} (l : list A) i : offline (getitem l i).
Proof.
  unfold getitem. destruct (_ !! _); [apply offline_ret | apply offline_raise].
Qed.

Lemma offline_getkey `{Countable K} {V} (d : gmap K V) k :
  offline (getkey d k).
Proof.
  unfold getkey. destruct (_ !! _); [apply offline_ret | apply offline_raise].
Qed.

Ltac offline_step :=
  match goal with
  | |- offline (Py.for_each _ _ _) => apply offline_for_each; intros ? ?
  | |- offline (Py.bind _ _) => apply offline_bind; [|intros ?]
  | |- offline (Py.ret _) => apply offline_ret
  | |- offline (Py.raise _) => apply offline_raise
  | |- offline (print _) => apply offline_print
  | |- offline datetime.now => apply offline_now
  | |- offline (random.randint _ _) => apply offline_randint
  | |- offline (random.choice _) => apply offline_choice
  | |- offline (random.uniform _ _) => apply offline_uniform
  | |- offline (random.sample _ _) => apply offline_sample
  | |- offline (getitem _ _) => apply offline_getitem
  | |- offline (getkey _ _) => apply offline_getkey
  | |- offline (match ?x with _ => _ end) => destruct x
  end.

Lemma offline_init url : offline (init url).
Proof. unfold init. repeat offline_step. Qed.

Lemma offline_generate_normal_movement g :
  offline (generate_normal_movement g).
Proof. unfold generate_normal_movement. repeat offline_step. Qed.

Lemma offline_generate_cell_movement_pattern g cell :
  offline (generate_cell_movement_pattern g cell).
Proof.
  unfold generate_cell_movement_pattern, assign_devices.
  repeat offline_step.
  unfold cell_location_step. repeat offline_step.
  unfold cell_device_step, cell_record. repeat offline_step.
Qed.

Lemma offline_generate_device_transfer_pattern g :
  offline (generate_device_transfer_pattern g).
Proof.
  unfold generate_device_transfer_pattern. repeat offline_step.
  unfold transfer_step. repeat offline_step.
Qed.

Lemma offline_generate_dataset g : offline (generate_dataset g).
Proof.
  unfold generate_dataset. repeat offline_step.
  - apply offline_generate_normal_movement.
  - apply offline_generate_cell_movement_pattern.
  - apply offline_generate_device_transfer_pattern.
Qed.

(** ** What a run of the driver leaves behind *)

Lemma in_process_run {A} (m : W A) mc r w' :
  m (process mc) = (r, w') -> in_process m mc = (r, with_process mc w').
Proof. intros H. unfold in_process. rewrite H. reflexivity. Qed.

Lemma bind_in_process_print {B} line (k : unit -> Main B) mc :
  Py.bind (in_process (print line)) k mc
  = k tt (with_process mc (snd (print line (process mc)))).
Proof. reflexivity. Qed.

Lemma print_posted line w :
  posted (trace (snd (print line w))) = posted (trace w).
Proof. apply (offline_print line w). Qed.

Lemma main_enters_try mc :
  exists g w1,
    init "http://localhost:5001" (process mc) = (inr g, w1)
    /\ constructed g
    /\ main mc
       = Py.try_except (main_try g)
           (fun e => in_process (print (nl +:+ "Error: " +:+ str_exn e)))
           (with_process mc (banner w1))
    /\ posted (trace (banner w1)) = posted (trace (process mc))
    /\ peer (banner w1) = peer (process mc)
    /\ peer_pos (banner w1) = peer_pos (process mc).
Proof.
  destruct (init_returns "http://localhost:5001" (process mc))
    as (g & w1 & Hinit & _).
  exists g, w1. split; [exact Hinit|].
  split; [exists "http://localhost:5001", (process mc), w1; exact Hinit|].
  destruct (offline_init "http://localhost:5001" (process mc)) as (H1 & H2 & H3).
  rewrite Hinit in H1, H2, H3. simpl in H1, H2, H3.
  split; [|split; [|split]].
  - unfold main. unfold Py.bind at 1.
    rewrite (in_process_run _ _ _ _ Hinit).
    repeat (rewrite bind_in_process_print; cbv beta).
    reflexivity.
  - unfold banner. rewrite !print_posted. exact H1.
  - exact H2.
  - exact H3.
Qed.

Ltac reduce_run := cbv beta iota; cbn [process stdin stdin_pos prompted disk files with_process].

(** X9: when the dataset file cannot be opened, [main] prints the error and
    returns: it asks nothing, sends nothing and writes nothing. *)
Theorem main_dataset_file_fails mc e :
  disk mc "test_movements.json" = Some e ->
  exists mc',
    main mc = (inr tt, mc')
    /\ files mc' = files mc
    /\ prompted mc' = prompted mc /\ stdin_pos mc' = stdin_pos mc
    /\ posted (trace (process mc')) = posted (trace (process mc))
    /\ last (trace (process mc'))
       = Some (Printed (nl +:+ "Error: " +:+ str_exn e)).
Proof.
  intros Hdisk.
  destruct (main_enters_try mc) as (g & w1 & _ & Hc & -> & Hposted & _).
  assert (Hg := constructed_well_built g Hc).
  destruct (generate_dataset_returns g (banner w1) Hg)
    as (ds & w2 & Hds & _).
  destruct (offline_generate_dataset g (banner w1)) as (Hoff & _).
  rewrite Hds in Hoff. simpl in Hoff.
  unfold Py.try_except, main_try. unfold Py.bind at 1.
  rewrite (in_process_run _ (with_process mc (banner w1)) _ _ Hds). reduce_run.
  unfold Py.bind at 1. unfold dump at 1. reduce_run. rewrite Hdisk. reduce_run.
  exists (with_process mc (snd (print (nl +:+ "Error: " +:+ str_exn e) w2))).
  split; [reflexivity|]. reduce_run.
  repeat split.
  - rewrite print_posted, Hoff. exact Hposted.
  - unfold print, emit. cbn [snd trace]. apply last_snoc.
Qed.

Lemma main_dataset_file_fails_witness :
  exists mc',
    main {| process := world0; stdin := fun _ => inr "n"; stdin_pos := 0;
            prompted := [];
            disk := fun _ => Some (ValueError "Permission denied");
            files := ∅ |} = (inr tt, mc')
    /\ files mc' = ∅
    /\ prompted mc' = [] /\ stdin_pos mc' = 0%nat
    /\ posted (trace (process mc')) = posted (trace world0)
    /\ last (trace (process mc'))
       = Some (Printed (nl +:+ "Error: "
                        +:+ str_exn (ValueError "Permission denied"))).
Proof.
  apply (main_dataset_file_fails
           {| process := world0; stdin := fun _ => inr "n"; stdin_pos := 0;
              prompted := [];
              disk := fun _ => Some (ValueError "Permission denied");
              files := ∅ |} (ValueError "Permission denied")).
  reflexivity.
Defined.

(** X10: when the dataset file can be written and the answer to the prompt is
    neither "y" nor "Y", [main] writes the sorted dataset of 1250 to 1550
    records to test_movements.json, asks once, writes no other file and
    sends nothing. *)
Theorem main_declined mc answer :
  disk mc "test_movements.json" = None ->
  stdin mc (stdin_pos mc) = inr answer ->
  answer <> "y" -> answer <> "Y" ->
  exists mc' ds,
    main mc = (inr tt, mc')
    /\ files mc' = <["test_movements.json" := MovementsFile ds]> (files mc)
    /\ (1250 <= length ds <= 1550)%nat
    /\ StronglySorted str_le (map timestamp ds)
    /\ prompted mc' = prompted mc ++ [send_prompt]
    /\ posted (trace (process mc')) = posted (trace (process mc))
    /\ peer_pos (process mc') = peer_pos (process mc).
Proof.
  intros Hdisk Hin Hy HY.
  destruct (main_enters_try mc) as (g & w1 & _ & Hc & -> & Hposted & _ & Hpos).
  assert (Hg := constructed_well_built g Hc).
  destruct (generate_dataset_returns g (banner w1) Hg)
    as (ds & w2 & Hds & _ & normals & patterns & transfers & Has & Heq).
  assert (Hsize : (1250 <= length ds <= 1550)%nat).
  { rewrite Heq, (Permutation_length (list_sort_perm timestamp _)).
    apply (assembled_size g (clock_tape (banner w1))); assumption. }
  destruct (offline_generate_dataset g (banner w1)) as (Hoff & _ & Hoff').
  rewrite Hds in Hoff, Hoff'. simpl in Hoff, Hoff'.
  assert (Hlow : String.eqb (str_lower answer) "y" = false).
  { apply String.eqb_neq. rewrite str_lower_y. tauto. }
  unfold Py.try_except, main_try. unfold Py.bind at 1.
  rewrite (in_process_run _ (with_process mc (banner w1)) _ _ Hds). reduce_run.
  unfold Py.bind at 1. unfold dump at 1. reduce_run. rewrite Hdisk. reduce_run.
  rewrite bind_in_process_print. reduce_run.
  unfold Py.bind at 1. unfold input at 1. reduce_run. rewrite Hin. reduce_run.
  rewrite Hlow.
  eexists _, ds. split; [reflexivity|]. reduce_run.
  split; [reflexivity|]. split; [exact Hsize|].
  split; [rewrite Heq; apply sorted_keys, list_sort_sorted|].
  split; [reflexivity|]. split.
  - rewrite print_posted, Hoff. exact Hposted.
  - unfold print, emit. cbn [snd peer_pos]. rewrite Hoff'. exact Hpos.
Qed.

Lemma main_declined_witness :
  exists mc' ds,
    main {| process := world0; stdin := fun _ => inr "n"; stdin_pos := 0;
            prompted := []; disk := fun _ => None; files := ∅ |}
    = (inr tt, mc')
    /\ files mc' = <["test_movements.json" := MovementsFile ds]> ∅
    /\ (1250 <= length ds <= 1550)%nat
    /\ StronglySorted str_le (map timestamp ds)
    /\ prompted mc' = [] ++ [send_prompt]
    /\ posted (trace (process mc')) = posted (trace world0)
    /\ peer_pos (process mc') = peer_pos world0.
Proof.
  apply (main_declined
           {| process := world0; stdin := fun _ => inr "n"; stdin_pos := 0;
              prompted := []; disk := fun _ => None; files := ∅ |} "n").
  - reflexivity.
  - reflexivity.
  - discriminate.
  - discriminate.
Defined.

(** X11: when both files can be written and the answer is "y" or "Y", [main]
    replays the dataset it wrote: it posts every record of
    test_movements.json once, in order, to the default endpoint, and
    writes to test_results.json one entry per record, in order, holding
    what the request for it met. *)
Theorem main_accepted mc answer :
  disk mc "test_movements.json" = None ->
  disk mc "test_results.json" = None ->
  stdin mc (stdin_pos mc) = inr answer ->
  answer = "y" \/ answer = "Y" ->
  exists mc' ds,
    main mc = (inr tt, mc')
    /\ files mc'
       = <["test_results.json" :=
             ResultsFile
               (replay_entries (peer (process mc))
                  "http://localhost:5001/api/v1/movements"
                  (peer_pos (process mc)) ds)]>
           (<["test_movements.json" := MovementsFile ds]> (files mc))
    /\ (1250 <= length ds <= 1550)%nat
    /\ posted (trace (process mc'))
       = posted (trace (process mc))
         ++ map (fun m => ("http://localhost:5001/api/v1/movements", m)) ds.
Proof.
  intros Hdisk1 Hdisk2 Hin Hanswer.
  destruct (main_enters_try mc)
    as (g & w1 & Hinit & Hc & -> & Hposted & Hpeer & Hpos).
  assert (Hg := constructed_well_built g Hc).
  assert (Hurl : endpoint g = "http://localhost:5001/api/v1/movements").
  { destruct (init_returns "http://localhost:5001" (process mc))
      as (g' & w1' & Hinit' & _ & Hu & _).
    rewrite Hinit in Hinit'. injection Hinit' as <- <-.
    unfold endpoint. rewrite Hu. reflexivity. }
  destruct (generate_dataset_returns g (banner w1) Hg)
    as (ds & w2 & Hds & _ & normals & patterns & transfers & Has & Heq).
  assert (Hsize : (1250 <= length ds <= 1550)%nat).
  { rewrite Heq, (Permutation_length (list_sort_perm timestamp _)).
    apply (assembled_size g (clock_tape (banner w1))); assumption. }
  clear Heq Has.
  destruct (offline_generate_dataset g (banner w1)) as (Hoff & Hoffp & Hoff').
  rewrite Hds in Hoff, Hoffp, Hoff'. cbn [snd] in Hoff, Hoffp, Hoff'.
  assert (Hlow : String.eqb (str_lower answer) "y" = true).
  { apply String.eqb_eq. rewrite str_lower_y. exact Hanswer. }
  set (w3 := snd (print (nl +:+ "Saved "
                         +:+ format_d 0 (Z.of_nat (length ds))
                         +:+ " movements to test_movements.json") w2)).
  destruct (send_movements_steps g ds default_delay w3
              ltac:(vm_compute; split; [discriminate | reflexivity]))
    as (w4 & Hsend & Hsent & _ & _).
  unfold Py.try_except, main_try. unfold Py.bind at 1.
  rewrite (in_process_run _ (with_process mc (banner w1)) _ _ Hds). reduce_run.
  unfold Py.bind at 1. unfold dump at 1. reduce_run. rewrite Hdisk1. reduce_run.
  rewrite bind_in_process_print. reduce_run. fold w3.
  unfold Py.bind at 1. unfold input at 1. reduce_run. rewrite Hin. reduce_run.
  rewrite Hlow.
  unfold Py.bind at 1. unfold in_process at 1. reduce_run.
  rewrite Hsend. reduce_run.
  unfold Py.bind at 1. unfold dump at 1. reduce_run. rewrite Hdisk2. reduce_run.
  rewrite (in_process_run _ _ (inr tt)
             (snd (print (nl +:+ "Saved results to test_results.json") w4)))
    by reflexivity.
  eexists _, ds. split; [reflexivity|]. reduce_run.
  split; [|split; [exact Hsize|]].
  - rewrite Hurl. subst w3. unfold print, emit. cbn [snd peer peer_pos].
    rewrite Hoffp, Hoff', Hpeer, Hpos. reflexivity.
  - rewrite print_posted, Hsent, Hurl. subst w3.
    rewrite print_posted, Hoff, Hposted. reflexivity.
Qed.

Lemma main_accepted_witness :
  exists mc' ds,
    main {| process := world0; stdin := fun _ => inr "Y"; stdin_pos := 0;
            prompted := []; disk := fun _ => None; files := ∅ |}
    = (inr tt, mc')
    /\ files mc'
       = <["test_results.json" :=
             ResultsFile
               (replay_entries (peer world0)
                  "http://localhost:5001/api/v1/movements"
                  (peer_pos world0) ds)]>
           (<["test_movements.json" := MovementsFile ds]> ∅)
    /\ (1250 <= length ds <= 1550)%nat
    /\ posted (trace (process mc'))
       = posted (trace world0)
         ++ map (fun m => ("http://localhost:5001/api/v1/movements", m)) ds.
Proof.
  apply (main_accepted
           {| process := world0; stdin := fun _ => inr "Y"; stdin_pos := 0;
              prompted := []; disk := fun _ => None; files := ∅ |} "Y").
  - reflexivity.
  - reflexivity.
  - reflexivity.
  - right. reflexivity.
Defined.

(** X8: when the answer is "y" or "Y" and the results file cannot be
    opened, the replay has taken place all the same: [main] has written
    the dataset, posted every record of it once, in order, and then
    prints the error as its last output and returns; no results are
    kept. *)
Theorem main_results_file_fails mc answer e :
  disk mc "test_movements.json" = None ->
  disk mc "test_results.json" = Some e ->
  stdin mc (stdin_pos mc) = inr answer ->
  answer = "y" \/ answer = "Y" ->
  exists mc' ds,
    main mc = (inr tt, mc')
    /\ files mc' = <["test_movements.json" := MovementsFile ds]> (files mc)
    /\ posted (trace (process mc'))
       = posted (trace (process mc))
         ++ map (fun m => ("http://localhost:5001/api/v1/movements", m)) ds
    /\ last (trace (process mc'))
       = Some (Printed (nl +:+ "Error: " +:+ str_exn e)).
Proof.
  intros Hdisk1 Hdisk2 Hin Hanswer.
  destruct (main_enters_try mc)
    as (g & w1 & Hinit & Hc & -> & Hposted & Hpeer & Hpos).
  assert (Hg := constructed_well_built g Hc).
  assert (Hurl : endpoint g = "http://localhost:5001/api/v1/movements").
  { destruct (init_returns "http://localhost:5001" (process mc))
      as (g' & w1' & Hinit' & _ & Hu & _).
    rewrite Hinit in Hinit'. injection Hinit' as <- <-.
    unfold endpoint. rewrite Hu. reflexivity. }
  destruct (generate_dataset_returns g (banner w1) Hg)
    as (ds & w2 & Hds & _).
  destruct (offline_generate_dataset g (banner w1)) as (Hoff & _).
  rewrite Hds in Hoff. cbn [snd] in Hoff.
  assert (Hlow : String.eqb (str_lower answer) "y" = true).
  { apply String.eqb_eq. rewrite str_lower_y. exact Hanswer. }
  set (w3 := snd (print (nl +:+ "Saved "
                         +:+ format_d 0 (Z.of_nat (length ds))
                         +:+ " movements to test_movements.json") w2)).
  destruct (send_movements_steps g ds default_delay w3
              ltac:(vm_compute; split; [discriminate | reflexivity]))
    as (w4 & Hsend & Hsent & _ & _).
  unfold Py.try_except, main_try. unfold Py.bind at 1.
  rewrite (in_process_run _ (with_process mc (banner w1)) _ _ Hds). reduce_run.
  unfold Py.bind at 1. unfold dump at 1. reduce_run. rewrite Hdisk1. reduce_run.
  rewrite bind_in_process_print. reduce_run. fold w3.
  unfold Py.bind at 1. unfold input at 1. reduce_run. rewrite Hin. reduce_run.
  rewrite Hlow.
  unfold Py.bind at 1. unfold in_process at 1. reduce_run.
  rewrite Hsend. reduce_run.
  unfold Py.bind at 1. unfold dump at 1. reduce_run. rewrite Hdisk2. reduce_run.
  rewrite (in_process_run _ _ (inr tt)
             (snd (print (nl +:+ "Error: " +:+ str_exn e) w4)))
    by reflexivity.
  eexists _, ds. split; [reflexivity|]. reduce_run.
  split; [reflexivity|]. split.
  - rewrite print_posted, Hsent, Hurl. subst w3.
    rewrite print_posted, Hoff, Hposted. reflexivity.
  - unfold print, emit. cbn [snd trace]. apply last_snoc.
Qed.

Lemma main_results_file_fails_witness :
  exists mc' ds,
    main {| process := world_accepting; stdin := fun _ => inr "y";
            stdin_pos := 0; prompted := [];
            disk := fun name =>
              if String.eqb name "test_results.json"
              then Some (ValueError "Permission denied") else None;
            files := ∅ |}
    = (inr tt, mc')
    /\ files mc' = <["test_movements.json" := MovementsFile ds]> ∅
    /\ posted (trace (process mc'))
       = posted (trace world_accepting)
         ++ map (fun m => ("http://localhost:5001/api/v1/movements", m)) ds
    /\ last (trace (process mc'))
       = Some (Printed (nl +:+ "Error: "
                        +:+ str_exn (ValueError "Permission denied"))).
Proof.
  apply (main_results_file_fails
           {| process := world_accepting; stdin := fun _ => inr "y";
              stdin_pos := 0; prompted := [];
              disk := fun name =>
                if String.eqb name "test_results.json"
                then Some (ValueError "Permission denied") else None;
              files := ∅ |} "y" (ValueError "Permission denied")).
  - reflexivity.
  - reflexivity.
  - reflexivity.
  - left. reflexivity.
Defined.
